(** * mapmap: a shallow embedding of the tile gateway in Rocq

    The modules of the Python repository are embedded one by one:
    - [tile_matrix_limits.py]: the static limit table and [is_tile_in_bounds];
    - [coordinate_systems.py]: [CoordinateSystemConfig] and [COORDINATE_SYSTEMS];
    - [wmts_capabilities.py]: the capabilities fetch and the TileMatrixSet parser;
    - [coordinates.py]: [CoordinateTransformer] with [load_wmts_parameters],
      [transform_tile] and [is_valid_tile];
    - [wmts_client.py]: the image normalisation of [fetch_tile];
    - [app.py]: the tile cache ([cachetools.TTLCache]) and [get_tile].

    Python exceptions are values of [exn]; code that can raise returns a
    [result], and stateful code (the transformer object, module globals,
    the TTL cache) threads its state explicitly, keeping the updates made
    before an exception was raised, as Python does.  Floating-point values
    and the projection library are kept abstract: they are operations of
    the class [FloatOps] and of the record [Env], never unfolded by a proof. *)

From Stdlib Require Import ZArith Lia QArith.
From Stdlib Require Import Ascii.
From Stdlib Require String.
From stdpp Require Import base gmap strings list.

Open Scope Z_scope.

(* ------------------------------------------------------------------ *)
(** ** Python exceptions and results *)

Inductive exn :=
  | ValueError                 (* int("x"), unknown system, value too large *)
  | IndexError                 (* list index out of range *)
  | KeyError                   (* missing dict key *)
  | AttributeError             (* .text on a missing XML child *)
  | ZeroDivisionError
  | OverflowError
  | ParseError                 (* xml.etree.ElementTree.ParseError *)
  | HTTPStatusError            (* httpx: raise_for_status on a non-2xx response *)
  | TransportError             (* httpx: connection / timeout errors *)
  | CRSError                   (* pyproj *)
  | OSError.                   (* PIL: undecodable image data *)

Inductive result (A : Type) :=
  | Ok (a : A)
  | Err (e : exn).
Arguments Ok {A} a.
Arguments Err {A} e.

Definition rbind {A B} (m : result A) (k : A -> result B) : result B :=
  match m with Ok a => k a | Err e => Err e end.

Notation "'let?' x := m 'in' k" := (rbind m (fun x => k))
  (at level 200, x name, m at level 100, k at level 200).

(* ------------------------------------------------------------------ *)
(** ** Python strings: [str(int)], [int(str)], [str.split], [in] *)

Module PyStr.

(** Decimal digits of a natural number, most significant first. *)
Fixpoint str_N_go (fuel : nat) (n : N) (acc : string) : string :=
  match fuel with
  | O => acc
  | S f =>
      let acc' := String.String (ascii_of_N (48 + N.modulo n 10)) acc in
      if (n <? 10)%N then acc' else str_N_go f (N.div n 10) acc'
  end.

Definition str_N (n : N) : string := str_N_go (S (N.size_nat n)) n "".

(** [str(z)] for a Python int. *)
Definition str_Z (z : Z) : string :=
  match z with
  | Zneg p => "-" +:+ str_N (Npos p)
  | _ => str_N (Z.to_N z)
  end.

Definition is_digit (c : ascii) : bool :=
  let n := N_of_ascii c in ((48 <=? n) && (n <=? 57))%N.

Definition is_space (c : ascii) : bool :=
  let n := N_of_ascii c in ((n =? 32) || ((9 <=? n) && (n <=? 13)))%N.

Fixpoint digits_val (s : string) (acc : Z) : option Z :=
  match s with
  | EmptyString => Some acc
  | String.String c s' =>
      if is_digit c then digits_val s' (10 * acc + Z.of_N (N_of_ascii c - 48))
      else None
  end.

Fixpoint lstrip (s : string) : string :=
  match s with
  | String.String c s' => if is_space c then lstrip s' else s
  | EmptyString => EmptyString
  end.

Definition strip (s : string) : string :=
  String.string_of_list_ascii
    (rev (String.list_ascii_of_string
      (lstrip (String.string_of_list_ascii (rev (String.list_ascii_of_string (lstrip s))))))).

Definition unsigned_val (s : string) : option Z :=
  match s with EmptyString => None | _ => digits_val s 0 end.

(** [int(s)] on a string: surrounding whitespace, an optional sign and
    decimal digits (digit-group underscores are not modelled); anything
    else raises ValueError. *)
Definition int_of_str (s : string) : result Z :=
  let body := strip s in
  let r := match body with
           | String.String "-" rest => option_map Z.opp (unsigned_val rest)
           | String.String "+" rest => unsigned_val rest
           | _ => unsigned_val body
           end in
  match r with Some z => Ok z | None => Err ValueError end.

(** [s.split(sep)] for a one-character separator. *)
Fixpoint split (sep : ascii) (s : string) : list string :=
  match s with
  | EmptyString => [""]
  | String.String c s' =>
      let rest := split sep s' in
      if Ascii.eqb c sep then "" :: rest
      else match rest with
           | h :: t => String.String c h :: t
           | [] => [String.String c ""]
           end
  end.

(** [lst[i]] on a list: IndexError out of range. *)
Definition getitem {A} (l : list A) (i : nat) : result A :=
  match l !! i with Some a => Ok a | None => Err IndexError end.

Fixpoint is_prefix (p s : string) : bool :=
  match p, s with
  | EmptyString, _ => true
  | String.String a p', String.String b s' => Ascii.eqb a b && is_prefix p' s'
  | _, _ => false
  end.

(** [sub in s] for strings. *)
Fixpoint contains (sub s : string) : bool :=
  is_prefix sub s ||
  match s with
  | EmptyString => false
  | String.String _ s' => contains sub s'
  end.

End PyStr.

(* ------------------------------------------------------------------ *)
(** ** tile_matrix_limits.py *)

Record TileLimits := {
  min_col : Z; max_col : Z; min_row : Z; max_row : Z
}.

Definition mk_limits (a b c d : Z) : TileLimits :=
  {| min_col := a; max_col := b; min_row := c; max_row := d |}.

(** [LKS_LVM_TILE_LIMITS], a dict from zoom level to limits. *)
Definition LKS_LVM_TILE_LIMITS : gmap Z TileLimits :=
  list_to_map [
    (7,  mk_limits 19 99 1 48);
    (8,  mk_limits 28 133 2 64);
    (9,  mk_limits 42 199 3 97);
    (10, mk_limits 56 266 4 129);
    (11, mk_limits 84 399 6 194);
    (12, mk_limits 168 799 13 389);
    (13, mk_limits 420 2000 32 974);
    (14, mk_limits 841 4000 65 1948);
    (15, mk_limits 1121 5333 87 2598);
    (16, mk_limits 1682 8000 131 3897);
    (17, mk_limits 3364 16000 262 7795);
    (18, mk_limits 8410 40000 655 19488)].

Definition is_tile_in_bounds (zoom_level tile_col tile_row : Z) : bool :=
  match LKS_LVM_TILE_LIMITS !! zoom_level with
  | None => false
  | Some limits =>
      (min_col limits <=? tile_col) && (tile_col <=? max_col limits) &&
      (min_row limits <=? tile_row) && (tile_row <=? max_row limits)
  end.

(* ------------------------------------------------------------------ *)
(** ** coordinate_systems.py *)

(** Float literals of the configuration are kept exactly, as rationals. *)
Record CoordinateSystemConfig := {
  name : string;
  description : string;
  cfg_bounds : Q * Q * Q * Q;          (* min_lon, min_lat, max_lon, max_lat *)
  tile_matrix_prefix : string;
  min_zoom : Z;
  max_zoom : Z;
  wmts_url : option string;
  tile_matrix_set_id : option string;
  layer_id : option string;
  epsg : option Z;
  origin : option (Q * Q);
  tile_matrix_scales : option (list (Z * Q))
}.

Definition LVM_WMTS_URL : string :=
  "https://lvmgeoproxy01.lvm.lv/wmts_b6948e305fb9446985a41b2aee54e07d/wmts".

Definition cfg_LKS_LVM : CoordinateSystemConfig :=
  {| name := "LKS_LVM";
    description := "Latvia TM coordinate system (dynamic from WMTS)";
    cfg_bounds := (251 # 10, 556 # 10, 323 # 10, 581 # 10)%Q;
    tile_matrix_prefix := "LKS_LVM";
    min_zoom := 7; max_zoom := 18;
    wmts_url := Some LVM_WMTS_URL;
    tile_matrix_set_id := Some "LKS_LVM";
    layer_id := Some "public:Topo10DTM";
    epsg := Some 3059; origin := None; tile_matrix_scales := None |}.

Definition cfg_WebMercatorQuad : CoordinateSystemConfig :=
  {| name := "WebMercatorQuad";
    description := "Web Mercator Quad (standard web mapping)";
    cfg_bounds := (20, 55, 29, 59)%Q;
    tile_matrix_prefix := "";
    min_zoom := 1; max_zoom := 18;
    wmts_url := Some LVM_WMTS_URL;
    tile_matrix_set_id := Some "WebMercatorQuad";
    layer_id := Some "public:Topo10DTM";
    epsg := Some 3857; origin := None; tile_matrix_scales := None |}.

Definition cfg_EPSG_3857 : CoordinateSystemConfig :=
  {| name := "Web Mercator";
    description := "Web Mercator projection used by most web maps";
    cfg_bounds := (-180, -850511 # 10000, 180, 850511 # 10000)%Q;
    tile_matrix_prefix := "EPSG:3857";
    min_zoom := 0; max_zoom := 20;
    wmts_url := None; tile_matrix_set_id := None; layer_id := None;
    epsg := Some 3857;
    origin := Some (-20037508342789244 # 1000000000,
                    20037508342789244 # 1000000000)%Q;
    tile_matrix_scales := None |}.

Definition cfg_EPSG_4326 : CoordinateSystemConfig :=
  {| name := "WGS84";
    description := "WGS84 Geographic coordinate system";
    cfg_bounds := (-180, -90, 180, 90)%Q;
    tile_matrix_prefix := "EPSG:4326";
    min_zoom := 0; max_zoom := 20;
    wmts_url := None; tile_matrix_set_id := None; layer_id := None;
    epsg := Some 4326; origin := Some (-180, 90)%Q;
    tile_matrix_scales := None |}.

Definition cfg_EPSG_25832 : CoordinateSystemConfig :=
  {| name := "ETRS89 / UTM zone 32N";
    description := "European UTM zone 32N";
    cfg_bounds := (5, 47, 15, 55)%Q;
    tile_matrix_prefix := "EPSG:25832";
    min_zoom := 0; max_zoom := 20;
    wmts_url := None; tile_matrix_set_id := None; layer_id := None;
    epsg := Some 25832; origin := Some (16602144 # 100, 6500000)%Q;
    tile_matrix_scales := None |}.

Definition COORDINATE_SYSTEMS : list (string * CoordinateSystemConfig) := [
  ("LKS_LVM", cfg_LKS_LVM);
  ("WebMercatorQuad", cfg_WebMercatorQuad);
  ("EPSG:3857", cfg_EPSG_3857);
  ("EPSG:4326", cfg_EPSG_4326);
  ("EPSG:25832", cfg_EPSG_25832)
].

(** [dict.get] on the insertion-ordered dict. *)
Fixpoint assoc_get {A} (k : string) (l : list (string * A)) : option A :=
  match l with
  | [] => None
  | (k', v) :: l' => if decide (k = k') then Some v else assoc_get k l'
  end.

Fixpoint assoc_Z {A} (k : Z) (l : list (Z * A)) : option A :=
  match l with
  | [] => None
  | (k', v) :: l' => if Z.eqb k k' then Some v else assoc_Z k l'
  end.

Definition get_coordinate_system (n : string) : option CoordinateSystemConfig :=
  assoc_get n COORDINATE_SYSTEMS.

(** Python truthiness of an optional string: [None] and [""] are false. *)
Definition truthy_str (o : option string) : option string :=
  match o with Some s => if decide (s = "") then None else Some s | None => None end.

(* ------------------------------------------------------------------ *)
(** ** External collaborators: floats, XML, HTTP, pyproj *)

(** The float operations the code uses.  Operations that can raise in
    Python return a [result]. *)
Class FloatOps (F : Type) := {
  f_of_Q : Q -> F;                    (* literals and int -> float *)
  f_add : F -> F -> F;
  f_sub : F -> F -> F;
  f_mul : F -> F -> F;
  f_div : F -> F -> result F;         (* ZeroDivisionError on 0.0 *)
  f_lt : F -> F -> bool;
  f_trunc : F -> result Z;            (* int(x): ValueError / OverflowError *)
  f_pow2 : Z -> result F;             (* 2.0 ** z and 2 ** z (z < 0) *)
  f_sinh : F -> result F;             (* math.sinh: OverflowError *)
  f_atan : F -> F;
  f_degrees : F -> F;
  f_pi : F;
  f_parse : string -> result F        (* float(s): ValueError *)
}.

Definition f_of_Z {F} `{FloatOps F} (z : Z) : F := f_of_Q (inject_Z z).

(** The XML elements the parser inspects, as [ElementTree] gives them:
    a child element is [None] when [find] returns None, and otherwise
    carries its text (an element without text is given the text "", which
    the code treats like [None] at every use). *)
Record TileMatrixElem := {
  tme_identifier : option string;
  tme_scale_denominator : option string;
  tme_top_left_corner : option string;
  tme_tile_width : option string;
  tme_tile_height : option string;
  tme_matrix_width : option string;
  tme_matrix_height : option string
}.

Record TileMatrixSetElem := {
  tmse_identifier : option string;
  tmse_supported_crs : option string;
  tmse_well_known_scale_set : option string;
  tmse_tile_matrices : list TileMatrixElem   (* findall('wmts:TileMatrix') *)
}.

Record LayerElem := {
  le_identifier : option string;
  le_title : option string;
  le_abstract : option string;
  le_wgs84_bounding_box : option (option string * option string);
  le_tile_matrix_set_links : list (option string);
  le_formats : list string;
  le_styles : list (option string)
}.

(** The parsed document, as seen through [root.findall('.//wmts:TileMatrixSet')]
    and [root.findall('.//wmts:Layer')], in document order. *)
Record XmlDoc := {
  doc_tile_matrix_sets : list TileMatrixSetElem;
  doc_layers : list LayerElem
}.

(** HTTP, XML and pyproj.  [fetch_capabilities] is the body of
    [WMTSCapabilitiesParser.fetch_capabilities]: the GET, [raise_for_status]
    and [.text]; [get_proj4_string] is crs_fetcher's, which catches its
    own errors and returns None. *)
Record Env (F CRS Proj : Type) := {
  fetch_capabilities : string -> result string;
  xml_fromstring : string -> result XmlDoc;
  crs_from_epsg : Z -> result CRS;
  crs_from_proj4 : string -> result CRS;
  get_proj4_string : Z -> option string;
  transformer_from_crs : CRS -> CRS -> result Proj;
  proj_transform : Proj -> F -> F -> result (F * F)
}.
Arguments fetch_capabilities {F CRS Proj} e _.
Arguments xml_fromstring {F CRS Proj} e _.
Arguments crs_from_epsg {F CRS Proj} e _.
Arguments crs_from_proj4 {F CRS Proj} e _.
Arguments get_proj4_string {F CRS Proj} e _.
Arguments transformer_from_crs {F CRS Proj} e _ _.
Arguments proj_transform {F CRS Proj} e _ _ _.

(* ------------------------------------------------------------------ *)
(** ** A state-and-exception monad

    [SM S A] runs with state [S] and returns the final state also when it
    raises, so that assignments made before a Python exception survive it. *)

Definition SM (S A : Type) := S -> result A * S.

Definition sret {S A} (a : A) : SM S A := fun s => (Ok a, s).
Definition sbind {S A B} (m : SM S A) (k : A -> SM S B) : SM S B :=
  fun s => match m s with
           | (Ok a, s') => k a s'
           | (Err e, s') => (Err e, s')
           end.
Definition sraise {S A} (e : exn) : SM S A := fun s => (Err e, s).
Definition slift {S A} (r : result A) : SM S A := fun s => (r, s).
Definition sget {S} : SM S S := fun s => (Ok s, s).
Definition sput {S} (s : S) : SM S unit := fun _ => (Ok tt, s).
Definition smodify {S} (f : S -> S) : SM S unit := fun s => (Ok tt, f s).
(** [try: m except: h] *)
Definition stry {S A} (m : SM S A) (h : exn -> SM S A) : SM S A :=
  fun s => match m s with
           | (Err e, s') => h e s'
           | r => r
           end.

Notation "x <- m ;; k" := (sbind m (fun x => k))
  (at level 100, m at next level, right associativity).

(* ------------------------------------------------------------------ *)
(** ** wmts_capabilities.py *)

Record TileMatrix (F : Type) := {
  tm_identifier : string;
  tm_scale_denominator : F;
  tm_top_left_corner : F * F;
  tm_tile_width : Z;
  tm_tile_height : Z;
  tm_matrix_width : Z;
  tm_matrix_height : Z
}.

Record LayerInfo (F : Type) := {
  li_identifier : string;
  li_title : string;
  li_abstract : option string;
  li_wgs84_bounding_box : option (F * F * F * F);
  li_tile_matrix_set_links : list string;
  li_formats : list string;
  li_styles : list string
}.

Record TileMatrixSet (F : Type) := {
  tms_identifier : string;
  tms_supported_crs : string;
  tms_epsg_code : option Z;
  tms_well_known_scale_set : option string;
  tms_tile_matrices : gmap Z (TileMatrix F)
}.

Arguments tm_identifier {F} _.
Arguments tm_scale_denominator {F} _.
Arguments tm_top_left_corner {F} _.
Arguments tm_tile_width {F} _.
Arguments tm_tile_height {F} _.
Arguments li_wgs84_bounding_box {F} _.
Arguments tms_epsg_code {F} _.
Arguments tms_tile_matrices {F} _.

(** Values of the module-level [_capabilities_cache]. *)
Inductive CapsEntry (F : Type) :=
  | CachedLayer (l : LayerInfo F)
  | CachedTms (t : TileMatrixSet F).
Arguments CachedLayer {F} l.
Arguments CachedTms {F} t.

(** [elem.text] of a child found with [find]: AttributeError on None. *)
Definition text (o : option string) : result string :=
  match o with Some t => Ok t | None => Err AttributeError end.

Fixpoint mapM {A B} (f : A -> result B) (l : list A) : result (list B) :=
  match l with
  | [] => Ok []
  | a :: l' => let? b := f a in let? bs := mapM f l' in Ok (b :: bs)
  end.

Fixpoint spaces_to_blank (s : string) : string :=
  match s with
  | EmptyString => EmptyString
  | String.String c s' =>
      String.String (if PyStr.is_space c then " "%char else c) (spaces_to_blank s')
  end.

(** [s.strip().split()]: the whitespace-separated words. *)
Definition split_ws (s : string) : list string :=
  List.filter (fun w => negb (String.eqb w ""))
    (PyStr.split " "%char (spaces_to_blank (PyStr.strip s))).

(** Python [str.replace(old, "")]: every occurrence of [old] removed. *)
Fixpoint remove_all_go (fuel : nat) (old s : string) : string :=
  match fuel with
  | O => s
  | S f =>
      match s with
      | EmptyString => EmptyString
      | String.String c s' =>
          if negb (String.eqb old "") && PyStr.is_prefix old s
          then remove_all_go f old (String.substring (String.length old)
                                      (String.length s) s)
          else String.String c (remove_all_go f old s')
      end
  end.
Definition remove_all (old s : string) : string := remove_all_go (String.length s) old s.

Section Capabilities.
Context {F : Type} `{FloatOps F}.

Definition parse_floats (t : string) : result (list F) := mapM f_parse (split_ws t).

Definition _parse_tile_matrix_element (tm_elem : TileMatrixElem) : result (TileMatrix F) :=
  let? identifier := text (tme_identifier tm_elem) in
  let? sd_text := text (tme_scale_denominator tm_elem) in
  let? scale_denominator := f_parse sd_text in
  let? top_left_text := text (tme_top_left_corner tm_elem) in
  let? top_left_coords := parse_floats top_left_text in
  let? tl0 := PyStr.getitem top_left_coords 0 in
  let? tl1 := PyStr.getitem top_left_coords 1 in
  let? tw := text (tme_tile_width tm_elem) in
  let? tile_width := PyStr.int_of_str tw in
  let? th := text (tme_tile_height tm_elem) in
  let? tile_height := PyStr.int_of_str th in
  let? mw := text (tme_matrix_width tm_elem) in
  let? matrix_width := PyStr.int_of_str mw in
  let? mh := text (tme_matrix_height tm_elem) in
  let? matrix_height := PyStr.int_of_str mh in
  Ok {| tm_identifier := identifier; tm_scale_denominator := scale_denominator;
        tm_top_left_corner := (tl0, tl1); tm_tile_width := tile_width;
        tm_tile_height := tile_height; tm_matrix_width := matrix_width;
        tm_matrix_height := matrix_height |}.

(** [int(tile_matrix.identifier.split(':')[1])] *)
Definition zoom_of_identifier (identifier : string) : result Z :=
  let? tok := PyStr.getitem (PyStr.split ":"%char identifier) 1 in
  PyStr.int_of_str tok.

(** The loop filling [tile_matrices]: a later matrix with the same zoom
    overwrites an earlier one, as a dict assignment does. *)
Fixpoint parse_tile_matrices (elems : list TileMatrixElem)
    (tile_matrices : gmap Z (TileMatrix F)) : result (gmap Z (TileMatrix F)) :=
  match elems with
  | [] => Ok tile_matrices
  | tm_elem :: rest =>
      let? tile_matrix := _parse_tile_matrix_element tm_elem in
      let? zoom_level := zoom_of_identifier (tm_identifier tile_matrix) in
      parse_tile_matrices rest (<[zoom_level := tile_matrix]> tile_matrices)
  end.

End Capabilities.

(** The EPSG code hidden in a SupportedCRS string (lines 154-175 of
    wmts_capabilities.py). *)
Fixpoint first_int (parts : list string) : option Z :=
  match parts with
  | [] => None
  | p :: rest =>
      match PyStr.int_of_str p with Ok z => Some z | Err _ => first_int rest end
  end.

(** The outer loop stops at the first part equal to "EPSG" that is not the
    last one, and tries the parts after it in order. *)
Fixpoint epsg_scan (parts : list string) : option Z :=
  match parts with
  | [] => None
  | p :: rest =>
      if String.eqb p "EPSG" && negb (bool_decide (rest = [])) then first_int rest
      else epsg_scan rest
  end.

Definition epsg_of_supported_crs (supported_crs : string) : option Z :=
  if String.eqb supported_crs "" then None
  else if PyStr.contains "EPSG" supported_crs then
    if PyStr.contains ":" supported_crs then epsg_scan (PyStr.split ":"%char supported_crs)
    else match PyStr.int_of_str (remove_all "EPSG:" supported_crs) with
         | Ok z => Some z
         | Err _ => None
         end
  else None.

Section CapabilitiesDoc.
Context {F : Type} `{FloatOps F}.

Definition _parse_tile_matrix_set_element (tms_elem : TileMatrixSetElem)
    : result (TileMatrixSet F) :=
  let? identifier := text (tmse_identifier tms_elem) in
  let? supported_crs := text (tmse_supported_crs tms_elem) in
  let epsg_code := epsg_of_supported_crs supported_crs in
  let well_known_scale_set := tmse_well_known_scale_set tms_elem in
  let? tile_matrices := parse_tile_matrices (tmse_tile_matrices tms_elem) ∅ in
  Ok {| tms_identifier := identifier; tms_supported_crs := supported_crs;
        tms_epsg_code := epsg_code; tms_well_known_scale_set := well_known_scale_set;
        tms_tile_matrices := tile_matrices |}.

Fixpoint find_tms (elems : list TileMatrixSetElem) (tile_matrix_set_id : string)
    : result (option (TileMatrixSet F)) :=
  match elems with
  | [] => Ok None
  | tms_elem :: rest =>
      match tmse_identifier tms_elem with
      | Some t =>
          if String.eqb t tile_matrix_set_id then
            let? tms := _parse_tile_matrix_set_element tms_elem in Ok (Some tms)
          else find_tms rest tile_matrix_set_id
      | None => find_tms rest tile_matrix_set_id
      end
  end.

(** Every exception inside [parse_tile_matrix_set] is logged and mapped
    to None. *)
Definition parse_tile_matrix_set (fromstring : string -> result XmlDoc)
    (capabilities_xml tile_matrix_set_id : string) : option (TileMatrixSet F) :=
  match (let? root := fromstring capabilities_xml in
         find_tms (doc_tile_matrix_sets root) tile_matrix_set_id) with
  | Ok r => r
  | Err _ => None
  end.

Definition corner_pair (o : option string * option string) : result (option (F * F * F * F)) :=
  match o with
  | (Some lower, Some upper) =>
      let? lower_coords := parse_floats lower in
      let? upper_coords := parse_floats upper in
      let? a := PyStr.getitem lower_coords 0 in
      let? b := PyStr.getitem lower_coords 1 in
      let? c := PyStr.getitem upper_coords 0 in
      let? d := PyStr.getitem upper_coords 1 in
      Ok (Some (a, b, c, d))
  | _ => Ok None
  end.

Definition _parse_layer_element (layer_elem : LayerElem) : result (LayerInfo F) :=
  let? identifier := text (le_identifier layer_elem) in
  let title := match le_title layer_elem with Some t => t | None => identifier end in
  let abstract := le_abstract layer_elem in
  let? wgs84_bbox := match le_wgs84_bounding_box layer_elem with
                     | Some corners => corner_pair corners
                     | None => Ok None
                     end in
  let links := List.fold_right
                 (fun o acc => match o with Some t => t :: acc | None => acc end)
                 [] (le_tile_matrix_set_links layer_elem) in
  let styles := List.fold_right
                  (fun o acc => match o with Some t => t :: acc | None => acc end)
                  [] (le_styles layer_elem) in
  Ok {| li_identifier := identifier; li_title := title; li_abstract := abstract;
        li_wgs84_bounding_box := wgs84_bbox; li_tile_matrix_set_links := links;
        li_formats := le_formats layer_elem; li_styles := styles |}.

Fixpoint find_layer (elems : list LayerElem) (layer_id : string)
    : result (option (LayerInfo F)) :=
  match elems with
  | [] => Ok None
  | layer_elem :: rest =>
      match le_identifier layer_elem with
      | Some t =>
          if String.eqb t layer_id then
            let? li := _parse_layer_element layer_elem in Ok (Some li)
          else find_layer rest layer_id
      | None => find_layer rest layer_id
      end
  end.

Definition parse_layer_info (fromstring : string -> result XmlDoc)
    (capabilities_xml layer_id : string) : option (LayerInfo F) :=
  match (let? root := fromstring capabilities_xml in
         find_layer (doc_layers root) layer_id) with
  | Ok r => r
  | Err _ => None
  end.

End CapabilitiesDoc.

(* ------------------------------------------------------------------ *)
(** ** coordinates.py *)

Record TileCoordinate := {
  tile_z : Z;                       (* TileCoordinate.z *)
  tile_x : Z;                       (* TileCoordinate.x *)
  tile_y : Z                        (* TileCoordinate.y *)
}.

Record BoundingBox (F : Type) := {
  min_lon : F; min_lat : F; max_lon : F; max_lat : F
}.
Arguments min_lon {F} _.
Arguments min_lat {F} _.
Arguments max_lon {F} _.
Arguments max_lat {F} _.

Record TransformedTileCoordinate := {
  tile_matrix : string;
  tile_col : Z;
  tile_row : Z;
  quadrant_x : Z;
  quadrant_y : Z
}.

(** The attributes of a [CoordinateTransformer] object. *)
Record CoordinateTransformer (F CRS Proj : Type) := {
  target_system_config : CoordinateSystemConfig;
  wgs84_crs : option CRS;
  target_crs : option CRS;
  transformer_to_target : option Proj;
  transformer_to_wgs84 : option Proj;
  bounds : BoundingBox F;
  tile_size : Z;
  tile_matrix_set : option (TileMatrixSet F);
  layer_info : option (LayerInfo F)
}.
Arguments target_system_config {F CRS Proj} _.
Arguments wgs84_crs {F CRS Proj} _.
Arguments target_crs {F CRS Proj} _.
Arguments transformer_to_target {F CRS Proj} _.
Arguments transformer_to_wgs84 {F CRS Proj} _.
Arguments bounds {F CRS Proj} _.
Arguments tile_size {F CRS Proj} _.
Arguments tile_matrix_set {F CRS Proj} _.
Arguments layer_info {F CRS Proj} _.

(** One transformer object together with the module-level
    [_capabilities_cache] of wmts_capabilities.py. *)
Record World (F CRS Proj : Type) := {
  transformer : CoordinateTransformer F CRS Proj;
  capabilities_cache : gmap string (CapsEntry F)
}.
Arguments transformer {F CRS Proj} _.
Arguments capabilities_cache {F CRS Proj} _.

Definition obind {A B} (f : A -> option B) (o : option A) : option B :=
  match o with Some a => f a | None => None end.

Section Transformer.
Context {F CRS Proj : Type} `{FloatOps F} (env : Env F CRS Proj).

Abbreviation CT := (CoordinateTransformer F CRS Proj).
Abbreviation W := (World F CRS Proj).

Definition bbox_of_Q (b : Q * Q * Q * Q) : BoundingBox F :=
  let '(a, b', c, d) := b in
  {| min_lon := f_of_Q a; min_lat := f_of_Q b'; max_lon := f_of_Q c; max_lat := f_of_Q d |}.

(** [CoordinateTransformer.__init__], for a known system. *)
Definition new_transformer (cfg : CoordinateSystemConfig) : CT :=
  {| target_system_config := cfg; wgs84_crs := None; target_crs := None;
     transformer_to_target := None; transformer_to_wgs84 := None;
     bounds := bbox_of_Q (cfg_bounds cfg); tile_size := 256;
     tile_matrix_set := None; layer_info := None |}.

Definition upd_tr (f : CT -> CT) : SM W unit :=
  smodify (fun w => {| transformer := f (transformer w);
                       capabilities_cache := capabilities_cache w |}).

Definition upd_cache (f : gmap string (CapsEntry F) -> gmap string (CapsEntry F)) : SM W unit :=
  smodify (fun w => {| transformer := transformer w;
                       capabilities_cache := f (capabilities_cache w) |}).

Definition set_wmts (li : option (LayerInfo F)) (tms : option (TileMatrixSet F)) (t : CT) : CT :=
  {| target_system_config := target_system_config t; wgs84_crs := wgs84_crs t;
     target_crs := target_crs t; transformer_to_target := transformer_to_target t;
     transformer_to_wgs84 := transformer_to_wgs84 t; bounds := bounds t;
     tile_size := tile_size t; tile_matrix_set := tms; layer_info := li |}.

Definition set_bounds (b : BoundingBox F) (t : CT) : CT :=
  {| target_system_config := target_system_config t; wgs84_crs := wgs84_crs t;
     target_crs := target_crs t; transformer_to_target := transformer_to_target t;
     transformer_to_wgs84 := transformer_to_wgs84 t; bounds := b;
     tile_size := tile_size t; tile_matrix_set := tile_matrix_set t;
     layer_info := layer_info t |}.

Definition set_wgs84_crs (c : CRS) (t : CT) : CT :=
  {| target_system_config := target_system_config t; wgs84_crs := Some c;
     target_crs := target_crs t; transformer_to_target := transformer_to_target t;
     transformer_to_wgs84 := transformer_to_wgs84 t; bounds := bounds t;
     tile_size := tile_size t; tile_matrix_set := tile_matrix_set t;
     layer_info := layer_info t |}.

Definition set_target_crs (c : CRS) (t : CT) : CT :=
  {| target_system_config := target_system_config t; wgs84_crs := wgs84_crs t;
     target_crs := Some c; transformer_to_target := transformer_to_target t;
     transformer_to_wgs84 := transformer_to_wgs84 t; bounds := bounds t;
     tile_size := tile_size t; tile_matrix_set := tile_matrix_set t;
     layer_info := layer_info t |}.

Definition set_to_target (p : Proj) (t : CT) : CT :=
  {| target_system_config := target_system_config t; wgs84_crs := wgs84_crs t;
     target_crs := target_crs t; transformer_to_target := Some p;
     transformer_to_wgs84 := transformer_to_wgs84 t; bounds := bounds t;
     tile_size := tile_size t; tile_matrix_set := tile_matrix_set t;
     layer_info := layer_info t |}.

Definition set_to_wgs84 (p : Proj) (t : CT) : CT :=
  {| target_system_config := target_system_config t; wgs84_crs := wgs84_crs t;
     target_crs := target_crs t; transformer_to_target := transformer_to_target t;
     transformer_to_wgs84 := Some p; bounds := bounds t;
     tile_size := tile_size t; tile_matrix_set := tile_matrix_set t;
     layer_info := layer_info t |}.

(** [get_wmts_info] of wmts_capabilities.py: one fetch (whose exceptions
    are not caught here), two parses (which catch theirs), and the writes
    to [_capabilities_cache]. *)
Definition get_wmts_info (capabilities_url layer_id tile_matrix_set_id : string)
    : SM W (option (LayerInfo F) * option (TileMatrixSet F)) :=
  capabilities_xml <- slift (fetch_capabilities env capabilities_url) ;;
  let li := parse_layer_info (xml_fromstring env) capabilities_xml layer_id in
  let tms := parse_tile_matrix_set (xml_fromstring env) capabilities_xml tile_matrix_set_id in
  _ <- upd_cache (fun c => match li with
                           | Some l => <[capabilities_url +:+ "#layer#" +:+ layer_id := CachedLayer l]> c
                           | None => c
                           end) ;;
  _ <- upd_cache (fun c => match tms with
                           | Some t => <[capabilities_url +:+ "#tms#" +:+ tile_matrix_set_id := CachedTms t]> c
                           | None => c
                           end) ;;
  sret (li, tms).

(** [get_tile_matrix_set] of wmts_capabilities.py: a key already in
    [_capabilities_cache] is answered from it (whatever kind of entry it
    holds); otherwise one fetch (not caught) and one parse, whose result
    is cached only when it is not None. *)
Definition get_tile_matrix_set (capabilities_url tile_matrix_set_id : string)
    : SM W (option (CapsEntry F)) :=
  w <- sget ;;
  let cache_key := capabilities_url +:+ "#tms#" +:+ tile_matrix_set_id in
  match capabilities_cache w !! cache_key with
  | Some v => sret (Some v)
  | None =>
      capabilities_xml <- slift (fetch_capabilities env capabilities_url) ;;
      match parse_tile_matrix_set (xml_fromstring env) capabilities_xml tile_matrix_set_id with
      | Some t => _ <- upd_cache (<[cache_key := CachedTms t]>) ;; sret (Some (CachedTms t))
      | None => sret None
      end
  end.

(** [get_layer_info] of wmts_capabilities.py, the same for layers. *)
Definition get_layer_info (capabilities_url layer_id : string) : SM W (option (CapsEntry F)) :=
  w <- sget ;;
  let cache_key := capabilities_url +:+ "#layer#" +:+ layer_id in
  match capabilities_cache w !! cache_key with
  | Some v => sret (Some v)
  | None =>
      capabilities_xml <- slift (fetch_capabilities env capabilities_url) ;;
      match parse_layer_info (xml_fromstring env) capabilities_xml layer_id with
      | Some l => _ <- upd_cache (<[cache_key := CachedLayer l]>) ;; sret (Some (CachedLayer l))
      | None => sret None
      end
  end.

(** [self.target_system_config.epsg], when truthy (0 is falsy). *)
Definition truthy_Z (o : option Z) : option Z :=
  match o with Some e => if Z.eqb e 0 then None else Some e | None => None end.

Definition create_transformers (w84 tgt : CRS) : SM W unit :=
  p1 <- slift (transformer_from_crs env w84 tgt) ;;
  _ <- upd_tr (set_to_target p1) ;;
  p2 <- slift (transformer_from_crs env tgt w84) ;;
  upd_tr (set_to_wgs84 p2).

(** [_initialize_crs].  crs_fetcher's [get_crs_info] is also called there,
    but its result only feeds a log line, so it is left out. *)
Definition _initialize_crs : SM W unit :=
  w <- sget ;;
  let cfg := target_system_config (transformer w) in
  stry
    (w84 <- slift (crs_from_epsg env 4326) ;;
     _ <- upd_tr (set_wgs84_crs w84) ;;
     w <- sget ;;
     target_epsg <-
       match obind tms_epsg_code (tile_matrix_set (transformer w)) with
       | Some e => if Z.eqb e 0 then
                     match truthy_Z (epsg cfg) with Some e' => sret e' | None => sraise ValueError end
                   else sret e
       | None => match truthy_Z (epsg cfg) with Some e' => sret e' | None => sraise ValueError end
       end ;;
     tgt <- stry
              (match truthy_str (get_proj4_string env target_epsg) with
               | Some proj4_str => c <- slift (crs_from_proj4 env proj4_str) ;;
                                   _ <- upd_tr (set_target_crs c) ;; sret c
               | None => c <- slift (crs_from_epsg env target_epsg) ;;
                         _ <- upd_tr (set_target_crs c) ;; sret c
               end)
              (fun _ => c <- slift (crs_from_epsg env target_epsg) ;;
                        _ <- upd_tr (set_target_crs c) ;; sret c) ;;
     create_transformers w84 tgt)
    (fun _ =>
       w84 <- slift (crs_from_epsg env 4326) ;;
       _ <- upd_tr (set_wgs84_crs w84) ;;
       tgt <- slift (crs_from_epsg env (match truthy_Z (epsg cfg) with
                                        | Some e => e | None => 3059 end)) ;;
       _ <- upd_tr (set_target_crs tgt) ;;
       create_transformers w84 tgt).

(** [load_wmts_parameters]: nothing to do without a WMTS source or when a
    TileMatrixSet is already loaded. *)
Definition load_wmts_parameters : SM W unit :=
  w <- sget ;;
  let cfg := target_system_config (transformer w) in
  match truthy_str (wmts_url cfg), truthy_str (tile_matrix_set_id cfg),
        tile_matrix_set (transformer w) with
  | Some url, Some tms_id, None =>
      r <- get_wmts_info url (match truthy_str (layer_id cfg) with
                              | Some l => l | None => "unknown" end) tms_id ;;
      let (li, tms) := r in
      _ <- upd_tr (set_wmts li tms) ;;
      match tms with
      | Some _ =>
          _ <- match obind li_wgs84_bounding_box li with
               | Some (a, b, c, d) =>
                   if String.eqb (name cfg) "LKS_LVM" then
                     upd_tr (set_bounds (bbox_of_Q (251 # 10, 556 # 10, 323 # 10, 581 # 10)%Q))
                   else
                     upd_tr (set_bounds {| min_lon := a; min_lat := b; max_lon := c; max_lat := d |})
               | None => sret tt
               end ;;
          _initialize_crs
      | None => sret tt
      end
  | _, _, _ => sret tt
  end.

End Transformer.

Section TransformTile.
Context {F CRS Proj : Type} `{FloatOps F} (env : Env F CRS Proj).

Abbreviation CT := (CoordinateTransformer F CRS Proj).
Abbreviation W := (World F CRS Proj).

Definition get_tile_matrix (t : CT) (zoom_level : Z) : option (TileMatrix F) :=
  match tile_matrix_set t with
  | Some tms => tms_tile_matrices tms !! zoom_level
  | None => None
  end.

Definition f_lit (q : Q) : F := f_of_Q q.

(** [tile_to_bbox_wgs84] *)
Definition tile_to_bbox_wgs84 (tile : TileCoordinate) : result (BoundingBox F) :=
  let? n := f_pow2 (tile_z tile) in
  let? qx := f_div (f_of_Z (tile_x tile)) n in
  let lon_min := f_sub (f_mul qx (f_lit 360)) (f_lit 180) in
  let? qx1 := f_div (f_of_Z (tile_x tile + 1)) n in
  let lon_max := f_sub (f_mul qx1 (f_lit 360)) (f_lit 180) in
  let? qy := f_div (f_of_Z (2 * tile_y tile)) n in
  let? s1 := f_sinh (f_mul f_pi (f_sub (f_lit 1) qy)) in
  let lat_max := f_degrees (f_atan s1) in
  let? qy1 := f_div (f_of_Z (2 * (tile_y tile + 1))) n in
  let? s2 := f_sinh (f_mul f_pi (f_sub (f_lit 1) qy1)) in
  let lat_min := f_degrees (f_atan s2) in
  Ok {| min_lon := lon_min; min_lat := lat_min; max_lon := lon_max; max_lat := lat_max |}.

(** [_calculate_pixel_size] *)
Definition _calculate_pixel_size (zoom_level : Z) : result F :=
  let? p := f_pow2 zoom_level in
  f_div (f_lit (15654303392804062 # 100000000000)) p.

(** Python's [min] and [max] over a non-empty sequence: the running value
    is replaced only by a strictly smaller (larger) item. *)
Definition py_min (a : F) (l : list F) : F :=
  List.fold_left (fun cur it => if f_lt it cur then it else cur) l a.
Definition py_max (a : F) (l : list F) : F :=
  List.fold_left (fun cur it => if f_lt cur it then it else cur) l a.

(** The zoom clamp of [transform_tile] (lines 216-218). *)
Definition resolve_zoom (cfg : CoordinateSystemConfig) (z : Z) : Z :=
  let zoom_level := Z.min z (max_zoom cfg) in
  if zoom_level <? min_zoom cfg then min_zoom cfg else zoom_level.

(** Lines 220-249: pixel size, origin and WMTS tile size in pixels. *)
Definition matrix_parameters (t : CT) (zoom_level : Z) : result (F * (F * F) * Z * Z) :=
  let cfg := target_system_config t in
  match get_tile_matrix t zoom_level with
  | Some tm =>
      let wmts_pixel_size := f_mul (tm_scale_denominator tm) (f_lit (28 # 100000)) in
      Ok (wmts_pixel_size, tm_top_left_corner tm, tm_tile_width tm, tm_tile_height tm)
  | None =>
      let? wmts_pixel_size :=
        match tile_matrix_scales cfg with
        | Some ((_ :: _) as scales) =>
            let? default := match assoc_Z 10 scales with
                            | Some s => Ok s | None => Err KeyError end in
            let scale_denominator := match assoc_Z zoom_level scales with
                                     | Some s => s | None => default end in
            Ok (f_mul (f_lit scale_denominator) (f_lit (28 # 100000)))
        | _ =>
            let? p := _calculate_pixel_size zoom_level in
            Ok (f_mul p (f_lit 2))
        end in
      let org := match origin cfg with
                 | Some (ox, oy) => (f_lit ox, f_lit oy)
                 | None => (f_lit 0, f_lit 0)
                 end in
      Ok (wmts_pixel_size, org, 512, 512)
  end.

(** Lines 262-306: from the four projected corners to the WMTS cell and
    the quadrant inside it. *)
Definition locate_cell (corners_target : list (F * F)) (wmts_pixel_size : F)
    (org : F * F) (wmts_tile_width wmts_tile_height : Z) : result (Z * Z * Z * Z) :=
  let (origin_x, origin_y) := org in
  match corners_target with
  | [] => Err ValueError
  | (x0, y0) :: rest =>
      let min_x := py_min x0 (map fst rest) in
      let max_x := py_max x0 (map fst rest) in
      let min_y := py_min y0 (map snd rest) in
      let max_y := py_max y0 (map snd rest) in
      let? center_x := f_div (f_add min_x max_x) (f_lit 2) in
      let? center_y := f_div (f_add min_y max_y) (f_lit 2) in
      let wmts_tile_size_x := f_mul (f_of_Z wmts_tile_width) wmts_pixel_size in
      let wmts_tile_size_y := f_mul (f_of_Z wmts_tile_height) wmts_pixel_size in
      let? cx := f_div (f_sub center_x origin_x) wmts_tile_size_x in
      let? wmts_tile_col := f_trunc cx in
      let? cy := f_div (f_sub origin_y center_y) wmts_tile_size_y in
      let? wmts_tile_row := f_trunc cy in
      let tiles_per_wmts_tile := Z.div wmts_tile_width 256 in
      let wmts_tile_left := f_add origin_x (f_mul (f_of_Z wmts_tile_col) wmts_tile_size_x) in
      let wmts_tile_top := f_sub origin_y (f_mul (f_of_Z wmts_tile_row) wmts_tile_size_y) in
      let relative_x := f_sub center_x wmts_tile_left in
      let relative_y := f_sub wmts_tile_top center_y in
      let? leaflet_tile_size_x := f_div wmts_tile_size_x (f_of_Z tiles_per_wmts_tile) in
      let? leaflet_tile_size_y := f_div wmts_tile_size_y (f_of_Z tiles_per_wmts_tile) in
      let? rx := f_div relative_x leaflet_tile_size_x in
      let? quadrant_x := f_trunc rx in
      let? ry := f_div relative_y leaflet_tile_size_y in
      let? quadrant_y := f_trunc ry in
      let quadrant_x := Z.max 0 (Z.min (tiles_per_wmts_tile - 1) quadrant_x) in
      let quadrant_y := Z.max 0 (Z.min (tiles_per_wmts_tile - 1) quadrant_y) in
      Ok (wmts_tile_col, wmts_tile_row, quadrant_x, quadrant_y)
  end.

Definition project_corners (p : Proj) (b : BoundingBox F) : result (list (F * F)) :=
  mapM (fun '(lon, lat) => proj_transform env p lon lat)
    [(min_lon b, max_lat b); (max_lon b, max_lat b);
     (min_lon b, min_lat b); (max_lon b, min_lat b)].

(** [transform_tile] *)
Definition transform_tile (tile : TileCoordinate) : SM W TransformedTileCoordinate :=
  w <- sget ;;
  let cfg := target_system_config (transformer w) in
  if String.eqb (name cfg) "WebMercatorQuad" then
    sret {| tile_matrix := PyStr.str_Z (tile_z tile); tile_col := tile_x tile;
            tile_row := tile_y tile; quadrant_x := 0; quadrant_y := 0 |}
  else
    _ <- load_wmts_parameters env ;;
    w <- sget ;;
    _ <- match transformer_to_target (transformer w) with
         | Some _ => sret tt
         | None => _initialize_crs env
         end ;;
    w <- sget ;;
    let t := transformer w in
    let zoom_level := resolve_zoom cfg (tile_z tile) in
    params <- slift (matrix_parameters t zoom_level) ;;
    let '(wmts_pixel_size, org, wmts_tile_width, wmts_tile_height) := params in
    bbox_wgs84 <- slift (tile_to_bbox_wgs84 tile) ;;
    p <- match transformer_to_target t with
         | Some p => sret p
         | None => sraise AttributeError      (* None.transform *)
         end ;;
    corners_target <- slift (project_corners p bbox_wgs84) ;;
    cell <- slift (locate_cell corners_target wmts_pixel_size org
                               wmts_tile_width wmts_tile_height) ;;
    let '(wmts_tile_col, wmts_tile_row, quadrant_x, quadrant_y) := cell in
    let tile_matrix_id := tile_matrix_prefix cfg +:+ ":" +:+ PyStr.str_Z zoom_level in
    sret {| tile_matrix := tile_matrix_id; tile_col := wmts_tile_col;
            tile_row := wmts_tile_row; quadrant_x := quadrant_x;
            quadrant_y := quadrant_y |}.

(** The syntactic check shared by both branches of [is_valid_tile]. *)
Definition syntactic_ok (tile : TileCoordinate) : bool :=
  let z := tile_z tile in
  if (z <? 0) || (20 <? z) then false
  else
    let max_tile := 2 ^ z in
    if (tile_x tile <? 0) || (max_tile <=? tile_x tile) then false
    else if (tile_y tile <? 0) || (max_tile <=? tile_y tile) then false
    else true.

(** [int(transformed.tile_matrix.split(":")[1])] *)
Definition zoom_of_tile_matrix (tile_matrix_id : string) : result Z :=
  let? tok := PyStr.getitem (PyStr.split ":"%char tile_matrix_id) 1 in
  PyStr.int_of_str tok.

(** [is_valid_tile]; the bare [except:] turns every exception into False. *)
Definition is_valid_tile (tile : TileCoordinate) : SM W bool :=
  w <- sget ;;
  let cfg := target_system_config (transformer w) in
  if String.eqb (name cfg) "WebMercatorQuad" then sret (syntactic_ok tile)
  else if negb (syntactic_ok tile) then sret false
  else
    stry
      (transformed <- transform_tile tile ;;
       zoom_level <- slift (zoom_of_tile_matrix (tile_matrix transformed)) ;;
       sret (is_tile_in_bounds zoom_level (tile_col transformed) (tile_row transformed)))
      (fun _ => sret false).

End TransformTile.

(* ------------------------------------------------------------------ *)
(** ** config.py *)

Abbreviation bytes := (list Byte.byte).

Record WMTSEndpoint := {
  ep_url : string;
  ep_layer : string;
  coordinate_system : string;
  app_id : option string;
  style : string;
  format : string
}.

Record Settings := {
  WMTS_ENDPOINTS : list (string * WMTSEndpoint);
  DEFAULT_ENDPOINT : string;
  CACHE_SIZE : Z;
  CACHE_TTL : Z
}.

Definition default_settings : Settings := {|
  WMTS_ENDPOINTS := [
    ("latvia", {| ep_url := LVM_WMTS_URL; ep_layer := "public:Topo10DTM";
                  coordinate_system := "LKS_LVM"; app_id := Some "lvmgeo.lvm.lv/";
                  style := "raster"; format := "image/vnd.jpeg-png8" |});
    ("latvia_webmercator", {| ep_url := LVM_WMTS_URL; ep_layer := "public:Topo10DTM";
                  coordinate_system := "WebMercatorQuad"; app_id := Some "lvmgeo.lvm.lv/";
                  style := "raster"; format := "image/vnd.jpeg-png8" |})];
  DEFAULT_ENDPOINT := "latvia_webmercator";
  CACHE_SIZE := 1000;
  CACHE_TTL := 3600 |}.

(** [Settings.get_endpoint] *)
Definition get_endpoint (settings : Settings) (n : option string) : result WMTSEndpoint :=
  let endpoint_name := match truthy_str n with Some s => s | None => DEFAULT_ENDPOINT settings end in
  match assoc_get endpoint_name (WMTS_ENDPOINTS settings) with
  | Some e => Ok e
  | None => Err ValueError
  end.

(* ------------------------------------------------------------------ *)
(** ** wmts_client.py *)

Record HttpResponse := {
  status_code : Z;
  content_type : string;            (* headers.get("content-type", "") *)
  content : bytes
}.

(** The PIL operations [fetch_tile] uses.  PIL decodes lazily, so a
    corrupt body can make any of them raise. *)
Record ImageLib (Img : Type) := {
  image_open : bytes -> result Img;
  image_size : Img -> Z * Z;
  image_crop : Img -> Z * Z * Z * Z -> result Img;
  image_resize_lanczos : Img -> Z * Z -> result Img;
  image_save_png : Img -> result bytes
}.
Arguments image_open {Img} _ _.
Arguments image_size {Img} _ _.
Arguments image_crop {Img} _ _ _.
Arguments image_resize_lanczos {Img} _ _ _.
Arguments image_save_png {Img} _ _.

Section Client.
Context {Img : Type} (pil : ImageLib Img).

(** The inner [try] of [fetch_tile] (lines 54-84): crop a 512x512 tile to
    the quadrant, resize any other size but 256x256, re-encode as PNG; on
    any exception return the body unchanged. *)
Definition process_tile (tile_coord : TransformedTileCoordinate) (body : bytes) : bytes :=
  match (let? image := image_open pil body in
         let? image :=
           if bool_decide (image_size pil image = (512, 512)) then
             let left := quadrant_x tile_coord * 256 in
             let top := quadrant_y tile_coord * 256 in
             image_crop pil image (left, top, left + 256, top + 256)
           else if negb (bool_decide (image_size pil image = (256, 256))) then
             image_resize_lanczos pil image (256, 256)
           else Ok image in
         image_save_png pil image) with
  | Ok out => out
  | Err _ => body
  end.

(** [WMTSClient.fetch_tile]; [http_get] is the GET of the URL built from
    the endpoint and [tile_coord], whose exceptions the outer [try] maps
    to None. *)
Definition fetch_tile (http_get : TransformedTileCoordinate -> result HttpResponse)
    (tile_coord : TransformedTileCoordinate) : option bytes :=
  match http_get tile_coord with
  | Err _ => None
  | Ok response =>
      if Z.eqb (status_code response) 200 then
        if PyStr.contains "image" (content_type response) then
          Some (process_tile tile_coord (content response))
        else None
      else None
  end.

End Client.

(** [urllib.parse.quote(value, safe=':')], on the UTF-8 bytes of [value]
    (a Rocq string is read as those bytes): letters, digits, "_.-~" and
    the [safe] characters are kept, every other byte becomes "%XX" with
    upper-case hex digits. *)
Definition is_always_safe (c : ascii) : bool :=
  let n := N_of_ascii c in
  ((65 <=? n) && (n <=? 90) || (97 <=? n) && (n <=? 122) || (48 <=? n) && (n <=? 57))%N
  || PyStr.contains (String.String c EmptyString) "_.-~".

Definition hex_digit (n : N) : ascii :=
  if (n <? 10)%N then ascii_of_N (48 + n) else ascii_of_N (55 + n).

Fixpoint quote (safe s : string) : string :=
  match s with
  | EmptyString => EmptyString
  | String.String c s' =>
      if is_always_safe c || PyStr.contains (String.String c EmptyString) safe
      then String.String c (quote safe s')
      else String.String "%" (String.String (hex_digit (N_of_ascii c / 16))
             (String.String (hex_digit (N_of_ascii c mod 16)) (quote safe s')))
  end.

(** [WMTSClient._build_query_string]: the items of the dict in insertion
    order, "layer" and "TileMatrix" quoted, joined with "&". *)
Definition query_field (kv : string * string) : string :=
  let '(key, value) := kv in
  if String.eqb key "layer" then key +:+ "=" +:+ quote ":" value
  else if String.eqb key "TileMatrix" then key +:+ "=" +:+ quote ":" value
  else key +:+ "=" +:+ value.

Definition _build_query_string (params : list (string * string)) : string :=
  String.concat "&" (map query_field params).

(** The [params] dict of [fetch_tile]. *)
Definition fetch_tile_params (endpoint : WMTSEndpoint) (tile_coord : TransformedTileCoordinate)
    : list (string * string) :=
  [("layer", ep_layer endpoint); ("style", style endpoint);
   ("tilematrixset", coordinate_system endpoint); ("Service", "WMTS");
   ("Request", "GetTile"); ("Version", "1.0.0"); ("Format", format endpoint);
   ("TileMatrix", tile_matrix tile_coord); ("TileCol", PyStr.str_Z (tile_col tile_coord));
   ("TileRow", PyStr.str_Z (tile_row tile_coord))]
  ++ match truthy_str (app_id endpoint) with Some a => [("appid", a)] | None => [] end.

(** The URL [fetch_tile] requests. *)
Definition tile_url (endpoint : WMTSEndpoint) (tile_coord : TransformedTileCoordinate) : string :=
  ep_url endpoint +:+ "?" +:+ _build_query_string (fetch_tile_params endpoint tile_coord).

(* ------------------------------------------------------------------ *)
(** ** cachetools.TTLCache, as app.py uses it

    [root] is the TTL link list in insertion order, each link with its
    expiry time; [links] is the OrderedDict of links, least recently used
    first.  Times are the values of the cache's monotonic timer. *)

Module TTL.

Record TTLCache (V : Type) := {
  maxsize : Z;
  ttl : Z;
  data : gmap string V;
  root : list (string * Z);
  links : list string
}.
Arguments maxsize {V} _.
Arguments ttl {V} _.
Arguments data {V} _.
Arguments root {V} _.
Arguments links {V} _.

Section Ops.
Context {V : Type}.
Abbreviation C := (TTLCache V).

Definition mk (ms t : Z) (d : gmap string V) (r : list (string * Z)) (l : list string) : C :=
  {| maxsize := ms; ttl := t; data := d; root := r; links := l |}.

Definition remove_key (k : string) (l : list string) : list string :=
  List.filter (fun k' => negb (String.eqb k' k)) l.

Definition remove_link (k : string) (r : list (string * Z)) : list (string * Z) :=
  List.filter (fun p => negb (String.eqb (fst p) k)) r.

(** [TTLCache.__init__(maxsize, ttl)] *)
Definition empty (ms t : Z) : C := mk ms t ∅ [] [].

(** [expire(time)]: drop expired links from the front of the TTL list. *)
Fixpoint expire_go (now : Z) (r : list (string * Z)) (d : gmap string V) (l : list string)
    : list (string * Z) * gmap string V * list string :=
  match r with
  | [] => ([], d, l)
  | (k, e) :: r' =>
      if now <? e then (r, d, l)
      else expire_go now r' (delete k d) (remove_key k l)
  end.

Definition expire (now : Z) (c : C) : C :=
  let '(r, d, l) := expire_go now (root c) (data c) (links c) in
  mk (maxsize c) (ttl c) d r l.

Fixpoint link_expires (k : string) (r : list (string * Z)) : option Z :=
  match r with
  | [] => None
  | (k', e) :: r' => if String.eqb k k' then Some e else link_expires k r'
  end.

(** [key in cache] *)
Definition contains (k : string) (now : Z) (c : C) : bool :=
  match link_expires k (root c) with
  | Some e => now <? e
  | None => false
  end.

(** [cache[key]]: moves the key to the most-recently-used end, then
    raises KeyError ([__missing__]) when the link has expired. *)
Definition getitem (k : string) (now : Z) : SM C V :=
  fun c =>
    match link_expires k (root c) with
    | Some e =>
        let c' := mk (maxsize c) (ttl c) (data c) (root c) (remove_key k (links c) ++ [k]) in
        if now <? e then
          match data c' !! k with Some v => (Ok v, c') | None => (Err KeyError, c') end
        else (Err KeyError, c')
    | None =>
        match data c !! k with Some v => (Ok v, c) | None => (Err KeyError, c) end
    end.

(** [popitem()]: expire, then remove the least recently used entry (with a
    monotonic timer it has not expired, so [pop]'s own lookup succeeds). *)
Definition popitem (now : Z) : SM C unit :=
  fun c =>
    let c := expire now c in
    match links c with
    | [] => (Err KeyError, c)
    | k :: _ =>
        (Ok tt, mk (maxsize c) (ttl c) (delete k (data c)) (remove_link k (root c))
                   (remove_key k (links c)))
    end.

(** The eviction loop of [Cache.__setitem__]. *)
Fixpoint make_room (fuel : nat) (now : Z) : SM C unit :=
  match fuel with
  | O => sret tt
  | S f =>
      c <- sget ;;
      if Z.of_nat (size (data c)) + 1 >? maxsize c
      then _ <- popitem now ;; make_room f now
      else sret tt
  end.

(** [cache[key] = value] (every value has size 1). *)
Definition setitem (k : string) (v : V) (now : Z) : SM C unit :=
  _ <- smodify (expire now) ;;
  c <- sget ;;
  if 1 >? maxsize c then sraise ValueError          (* value too large *)
  else
    _ <- (if bool_decide (k ∈ dom (data c)) then sret tt
          else make_room (S (size (data c))) now) ;;
    c <- sget ;;
    let l := if bool_decide (k ∈ links c) then remove_key k (links c) ++ [k]
             else links c ++ [k] in
    sput (mk (maxsize c) (ttl c) (<[k := v]> (data c))
             (remove_link k (root c) ++ [(k, now + ttl c)]) l).

(** [clear()]: expire, then [popitem] until the cache is empty. *)
Definition clear (c : C) : C := mk (maxsize c) (ttl c) ∅ [] [].

(** The consistency of the three structures: every key of [data] has one
    entry in [links] and one link in the TTL list [root], and no other
    entries are there. *)
Definition wf3 (r : list (string * Z)) (d : gmap string V) (l : list string) : Prop :=
  NoDup l /\ NoDup (map fst r) /\
  (forall k, is_Some (d !! k) <-> In k l) /\
  (forall k, In k (map fst r) <-> In k l).

Definition well_formed (c : C) : Prop := wf3 (root c) (data c) (links c).

(** [well_formed], decided: the key sets compared as finite sets. *)
Definition well_formedb (c : C) : bool :=
  bool_decide (NoDup (links c)) && bool_decide (NoDup (map fst (root c))) &&
  bool_decide (dom (data c) = (list_to_set (links c) : gset string)) &&
  bool_decide ((list_to_set (map fst (root c)) : gset string) = list_to_set (links c)).

(** A consistent cache holding at most [maxsize] entries. *)
Definition bounded (c : C) : Prop :=
  well_formed c /\ Z.of_nat (size (data c)) <= maxsize c.

End Ops.
End TTL.

(* ------------------------------------------------------------------ *)
(** ** app.py *)

Inductive Response :=
  | TileResponse (body : bytes)           (* Response(content=..., media_type="image/png") *)
  | HTTPError (status : Z).               (* HTTPException(status_code=...) *)

(** [base64.b64decode(...)] of the 1x1 transparent PNG of [get_tile]. *)
Definition transparent_png : bytes :=
  map (fun n => match Byte.of_nat n with Some b => b | None => Byte.x00 end)
    [137; 80; 78; 71; 13; 10; 26; 10; 0; 0; 0; 13; 73; 72; 68; 82; 0; 0; 0; 1;
     0; 0; 0; 1; 8; 4; 0; 0; 0; 181; 28; 12; 2; 0; 0; 0; 11; 73; 68; 65; 84;
     120; 218; 99; 100; 96; 0; 0; 0; 6; 0; 2; 48; 129; 208; 47; 0; 0; 0; 0; 73;
     69; 78; 68; 174; 66; 96; 130]%nat.

(** The module globals of app.py, with wmts_capabilities'
    [_capabilities_cache] shared by all transformers. *)
Record AppState (F CRS Proj : Type) := {
  tile_cache : TTL.TTLCache bytes;
  transformers : gmap string (CoordinateTransformer F CRS Proj);
  clients : gset string;
  app_capabilities_cache : gmap string (CapsEntry F)
}.
Arguments tile_cache {F CRS Proj} _.
Arguments transformers {F CRS Proj} _.
Arguments clients {F CRS Proj} _.
Arguments app_capabilities_cache {F CRS Proj} _.

(** [f"{endpoint_name}-{z}-{x}-{y}"] *)
Definition cache_key (endpoint_name : string) (z x y : Z) : string :=
  endpoint_name +:+ "-" +:+ PyStr.str_Z z +:+ "-" +:+ PyStr.str_Z x +:+ "-" +:+ PyStr.str_Z y.

Section App.
Context {F CRS Proj Img : Type} `{FloatOps F}.
Context (env : Env F CRS Proj) (pil : ImageLib Img) (settings : Settings).
Context (http_get : WMTSEndpoint -> TransformedTileCoordinate -> result HttpResponse).

Abbreviation A := (AppState F CRS Proj).

Definition mkA (c : TTL.TTLCache bytes) (t : gmap string (CoordinateTransformer F CRS Proj))
    (cl : gset string) (cc : gmap string (CapsEntry F)) : A :=
  {| tile_cache := c; transformers := t; clients := cl; app_capabilities_cache := cc |}.

(** Run a cache operation on [tile_cache]. *)
Definition on_cache {B} (m : SM (TTL.TTLCache bytes) B) : SM A B :=
  fun s => let (r, c) := m (tile_cache s) in
           (r, mkA c (transformers s) (clients s) (app_capabilities_cache s)).

(** Run a transformer method on [transformers[name]]; the object is
    shared, so its updates are written back, also when it raises. *)
Definition on_transformer {B} (n : string) (m : SM (World F CRS Proj) B) : SM A B :=
  fun s =>
    match transformers s !! n with
    | None => (Err KeyError, s)
    | Some t =>
        let (r, w) := m {| transformer := t; capabilities_cache := app_capabilities_cache s |} in
        (r, mkA (tile_cache s) (<[n := transformer w]> (transformers s)) (clients s)
                (capabilities_cache w))
    end.

(** [endpoint_name or settings.DEFAULT_ENDPOINT] *)
Definition resolve_name (endpoint_name : option string) : string :=
  match truthy_str endpoint_name with Some e => e | None => DEFAULT_ENDPOINT settings end.

(** [get_transformer] *)
Definition get_transformer (endpoint_name : option string) : SM A unit :=
  let name := resolve_name endpoint_name in
  s <- sget ;;
  if bool_decide (name ∈ dom (transformers s)) then sret tt
  else
    endpoint <- slift (get_endpoint settings (Some name)) ;;
    cfg <- slift (match get_coordinate_system (coordinate_system endpoint) with
                  | Some c => Ok c | None => Err ValueError end) ;;
    sput (mkA (tile_cache s) (<[name := new_transformer cfg]> (transformers s))
              (clients s) (app_capabilities_cache s)).

(** [get_client]; [WMTSClient(name)] raises when [settings.get_endpoint]
    does. *)
Definition get_client (endpoint_name : option string) : SM A unit :=
  let name := resolve_name endpoint_name in
  s <- sget ;;
  if bool_decide (name ∈ clients s) then sret tt
  else
    _ <- slift (get_endpoint settings (Some name)) ;;
    sput (mkA (tile_cache s) (transformers s) ({[name]} ∪ clients s) (app_capabilities_cache s)).

(** [get_tile] at timer value [now].  HTTPExceptions raised inside the
    [try] are re-raised as they are; any other exception becomes a 500. *)
Definition get_tile (now : Z) (z x y : Z) (endpoint : option string) : SM A Response :=
  stry
    (if (z <? 0) || (x <? 0) || (y <? 0) then sret (HTTPError 400)
     else
       let endpoint_name := match truthy_str endpoint with
                            | Some e => e | None => DEFAULT_ENDPOINT settings end in
       let key := cache_key endpoint_name z x y in
       s <- sget ;;
       if TTL.contains key now (tile_cache s) then
         v <- on_cache (TTL.getitem key now) ;;
         sret (TileResponse v)
       else
         let tile_coord := {| tile_z := z; tile_x := x; tile_y := y |} in
         _ <- get_transformer (Some endpoint_name) ;;
         _ <- get_client (Some endpoint_name) ;;
         valid <- on_transformer endpoint_name (is_valid_tile env tile_coord) ;;
         if negb valid then sret (HTTPError 400)
         else
           transformed <- on_transformer endpoint_name (transform_tile env tile_coord) ;;
           endpoint_config <- slift (get_endpoint settings (Some endpoint_name)) ;;
           in_bounds <-
             (if String.eqb (coordinate_system endpoint_config) "WebMercatorQuad"
              then sret true
              else
                zoom_level <- slift (zoom_of_tile_matrix (tile_matrix transformed)) ;;
                sret (is_tile_in_bounds zoom_level (tile_col transformed) (tile_row transformed))) ;;
           if negb in_bounds then sret (TileResponse transparent_png)
           else
             match fetch_tile pil (http_get endpoint_config) transformed with
             | Some ((_ :: _) as tile_data) =>
                 _ <- on_cache (TTL.setitem key tile_data now) ;;
                 sret (TileResponse tile_data)
             | _ => sret (HTTPError 404)
             end)
    (fun _ => sret (HTTPError 500)).

(** [clear_cache] *)
Definition clear_cache : SM A unit :=
  smodify (fun s => mkA (TTL.clear (tile_cache s)) ∅ ∅ (app_capabilities_cache s)).

End App.

(* ------------------------------------------------------------------ *)
(** ** crs_fetcher.py

    The values [response.json()] can give: [JDict] is a decoded JSON
    object (each key once), [JOther] any other value with its truthiness. *)

#[warnings="-register-all"] Inductive Json :=
  | JNone
  | JStr (s : string)
  | JOther (truthy : bool)
  | JDict (entries : list (string * Json)).

Definition json_truthy (v : Json) : bool :=
  match v with
  | JNone => false
  | JStr s => negb (String.eqb s "")
  | JOther b => b
  | JDict l => negb (bool_decide (l = []))
  end.

(** [data.get(key)] on a dict: None when the key is absent. *)
Definition dict_get (d : list (string * Json)) (k : string) : Json :=
  match assoc_get k d with Some v => v | None => JNone end.

Record CRSInfo := {
  crs_epsg_code : Z;
  crs_name : Json;
  proj4_text : option string;
  wkt : Json;
  esri_wkt : Json;
  authority : string;
  authority_code : string;
  area_of_use : Json;
  scope : Json
}.

(** [CRSFetcher._parse_crs_json]; [data.get] on anything but a dict raises
    AttributeError. *)
Definition _parse_crs_json (data : Json) (epsg_code : Z) : result CRSInfo :=
  match data with
  | JDict d =>
      let name := match assoc_get "name" d with
                  | Some v => v
                  | None => JStr ("EPSG:" +:+ PyStr.str_Z epsg_code)
                  end in
      let wkt_data := dict_get d "wkt" in
      let wkt := if json_truthy wkt_data then wkt_data else JNone in
      Ok {| crs_epsg_code := epsg_code; crs_name := name; proj4_text := None; wkt := wkt;
            esri_wkt := JNone; authority := "EPSG"; authority_code := PyStr.str_Z epsg_code;
            area_of_use := dict_get d "area"; scope := dict_get d "scope" |}
  | _ => Err AttributeError
  end.

(** The contents of [_crs_cache]. *)
Abbreviation CRSCache := (gmap Z CRSInfo).

Section CRSFetcher.
(** The GETs of spatialreference.org: [get_json code] is the request for
    [/ref/epsg/{code}/json/] (status code and the outcome of
    [response.json()]), [get_text code] the one for [/ref/epsg/{code}/proj4/]
    (status code and [response.text]); an Err is an exception of httpx. *)
Context (get_json : Z -> result (Z * result Json)) (get_text : Z -> result (Z * string)).

(** [CRSFetcher.fetch_crs_info]: every exception gives None. *)
Definition fetch_crs_info (epsg_code : Z) : option CRSInfo :=
  match get_json epsg_code with
  | Ok (status, body) =>
      if Z.eqb status 200 then
        match (let? data := body in _parse_crs_json data epsg_code) with
        | Ok info => Some info
        | Err _ => None
        end
      else None
  | Err _ => None
  end.

(** [CRSFetcher.fetch_proj4_string] *)
Definition fetch_proj4_string (epsg_code : Z) : option string :=
  match get_text epsg_code with
  | Ok (status, text) => if Z.eqb status 200 then Some (PyStr.strip text) else None
  | Err _ => None
  end.

(** [get_crs_info] with the module-level [_crs_cache]; a CRSInfo object is
    always truthy, so every fetched one is cached. *)
Definition get_crs_info (epsg_code : Z) : SM CRSCache (option CRSInfo) :=
  c <- sget ;;
  match c !! epsg_code with
  | Some info => sret (Some info)
  | None =>
      match fetch_crs_info epsg_code with
      | Some info => _ <- sput (<[epsg_code := info]> c) ;; sret (Some info)
      | None => sret None
      end
  end.

Definition set_proj4_text (p : string) (i : CRSInfo) : CRSInfo :=
  {| crs_epsg_code := crs_epsg_code i; crs_name := crs_name i; proj4_text := Some p;
     wkt := wkt i; esri_wkt := esri_wkt i; authority := authority i;
     authority_code := authority_code i; area_of_use := area_of_use i; scope := scope i |}.

(** [get_proj4_string] of crs_fetcher.py: the cached CRSInfo's
    [proj4_text] when truthy; otherwise a fetch, whose truthy result is
    written into the cached CRSInfo, if there is one. *)
Definition crs_get_proj4_string (epsg_code : Z) : SM CRSCache (option string) :=
  c <- sget ;;
  match obind (fun i => truthy_str (proj4_text i)) (c !! epsg_code) with
  | Some p => sret (Some p)
  | None =>
      let proj4_str := fetch_proj4_string epsg_code in
      match truthy_str proj4_str, c !! epsg_code with
      | Some p, Some info => _ <- sput (<[epsg_code := set_proj4_text p info]> c) ;; sret proj4_str
      | _, _ => sret proj4_str
      end
  end.

End CRSFetcher.

(* ------------------------------------------------------------------ *)
(** ** A concrete instance of the collaborators, for running the model

    Exact rationals stand in for floats; the transcendental functions,
    which no statement below depends on, are replaced by their first-order
    terms (sinh t ~ t, atan t ~ t, pi ~ 355/113). *)

Definition q_trunc (q : Q) : Z := Z.quot (Qnum q) (Zpos (Qden q)).

#[global] Instance QFloatOps : FloatOps Q := {
  f_of_Q := fun q => q;
  f_add := Qplus;
  f_sub := Qminus;
  f_mul := Qmult;
  f_div := fun a b => if Qeq_bool b 0 then Err ZeroDivisionError else Ok (a / b)%Q;
  f_lt := fun a b => negb (Qle_bool b a);
  f_trunc := fun q => Ok (q_trunc q);
  f_pow2 := fun z => if 0 <=? z then Ok (inject_Z (2 ^ z)) else Ok (/ inject_Z (2 ^ (- z)))%Q;
  f_sinh := fun t => Ok t;
  f_atan := fun t => t;
  f_degrees := fun t => (t * (180 # 1) / (355 # 113))%Q;
  f_pi := 355 # 113;
  f_parse := fun s => match PyStr.int_of_str s with
                      | Ok z => Ok (inject_Z z)
                      | Err e => Err e
                      end
}.

(** A world where every HTTP fetch of capabilities fails with a transport
    error, and pyproj succeeds with an identity projection. *)
Definition offline_env : Env Q unit unit := {|
  fetch_capabilities := fun _ => Err TransportError;
  xml_fromstring := fun _ => Err ParseError;
  crs_from_epsg := fun _ => Ok tt;
  crs_from_proj4 := fun _ => Ok tt;
  get_proj4_string := fun _ => None;
  transformer_from_crs := fun _ _ => Ok tt;
  proj_transform := fun _ lon lat => Ok (lon, lat)
|}.

(** A world whose capabilities document holds the layer
    "public:Topo10DTM" and the TileMatrixSet "LKS_LVM" with one 512-pixel
    matrix at zoom 10. *)
Definition lvm_doc : XmlDoc := {|
  doc_tile_matrix_sets := [
    {| tmse_identifier := Some "LKS_LVM"; tmse_supported_crs := Some "urn:ogc:def:crs:EPSG::3059";
       tmse_well_known_scale_set := None;
       tmse_tile_matrices := [
         {| tme_identifier := Some "LKS_LVM:10"; tme_scale_denominator := Some "7000";
            tme_top_left_corner := Some "-5120900 3998100"; tme_tile_width := Some "512";
            tme_tile_height := Some "512"; tme_matrix_width := Some "4000";
            tme_matrix_height := Some "4000" |}] |}];
  doc_layers := [
    {| le_identifier := Some "public:Topo10DTM"; le_title := Some "Topo10DTM";
       le_abstract := None; le_wgs84_bounding_box := Some (Some "20 55", Some "29 59");
       le_tile_matrix_set_links := [Some "LKS_LVM"]; le_formats := ["image/png"];
       le_styles := [Some "raster"] |}] |}.

Definition lvm_env : Env Q unit unit := {|
  fetch_capabilities := fun _ => Ok "<Capabilities/>";
  xml_fromstring := fun _ => Ok lvm_doc;
  crs_from_epsg := fun _ => Ok tt;
  crs_from_proj4 := fun _ => Ok tt;
  get_proj4_string := fun _ => None;
  transformer_from_crs := fun _ _ => Ok tt;
  proj_transform := fun _ lon lat => Ok (lon, lat)
|}.

(** A freshly constructed transformer, before any capabilities load. *)
Definition fresh_world {F CRS Proj} `{FloatOps F} (cfg : CoordinateSystemConfig)
    : World F CRS Proj :=
  {| transformer := new_transformer cfg; capabilities_cache := ∅ |}.

(* ================================================================== *)
(** * Properties *)

(** ** Monad inversion *)

Lemma sbind_Ok {S A B} (m : SM S A) (k : A -> SM S B) s r s' :
  sbind m k s = (Ok r, s') -> exists a s1, m s = (Ok a, s1) /\ k a s1 = (Ok r, s').
Proof.
  unfold sbind. destruct (m s) as [[a|e] s1]; intros Hm; [eauto | discriminate].
Qed.

Ltac peel H :=
  apply sbind_Ok in H;
  let a := fresh "a" in let s := fresh "s" in let Hm := fresh "Hm" in
  destruct H as (a & s & Hm & H).

Lemma sret_Ok {S A} (a r : A) (s s' : S) : sret a s = (Ok r, s') -> r = a /\ s' = s.
Proof. unfold sret. intros Heq. inversion Heq. auto. Qed.

Lemma slift_Ok {S A} (m : result A) r (s s' : S) : slift m s = (Ok r, s') -> m = Ok r /\ s' = s.
Proof. unfold slift. intros Heq. inversion Heq. auto. Qed.

(** ** The emitted tile-matrix identifier *)

Section TileMatrixId.
Context {F CRS Proj : Type} `{FloatOps F} (env : Env F CRS Proj).

Lemma transform_tile_passthrough_eq (w : World F CRS Proj) tile :
  name (target_system_config (transformer w)) = "WebMercatorQuad" ->
  transform_tile env tile w =
    (Ok {| tile_matrix := PyStr.str_Z (tile_z tile); tile_col := tile_x tile;
           tile_row := tile_y tile; quadrant_x := 0; quadrant_y := 0 |}, w).
Proof.
  intros Hn. unfold transform_tile, sbind, sget. rewrite Hn. reflexivity.
Qed.

(** Off the passthrough path, a successful [transform_tile] names the
    matrix [prefix + ":" + str(resolved zoom)] of the configuration it
    started with. *)
Lemma transform_tile_matrix_id (w w' : World F CRS Proj) tile r :
  name (target_system_config (transformer w)) <> "WebMercatorQuad" ->
  transform_tile env tile w = (Ok r, w') ->
  tile_matrix r = tile_matrix_prefix (target_system_config (transformer w)) +:+ ":"
                  +:+ PyStr.str_Z (resolve_zoom (target_system_config (transformer w)) (tile_z tile)).
Proof.
  intros Hn Ht. unfold transform_tile in Ht.
  unfold sbind at 1 in Ht. unfold sget at 1 in Ht.
  destruct (String.eqb_spec (name (target_system_config (transformer w))) "WebMercatorQuad")
    as [Heq|_]; [contradiction|].
  peel Ht. peel Ht. peel Ht. peel Ht. peel Ht.
  destruct a3 as [[[ps org] tw] th].
  peel Ht. peel Ht. peel Ht. peel Ht.
  destruct a6 as [[[c rw] qx] qy].
  apply sret_Ok in Ht as [-> _]. reflexivity.
Qed.

End TileMatrixId.

(** ** C5: the static limit table *)

(** C5: [is_tile_in_bounds(zoom, col, row)] is false for a zoom level
    absent from [LKS_LVM_TILE_LIMITS]; for a zoom level in the table it is
    true exactly when [min_col <= col <= max_col] and
    [min_row <= row <= max_row]; in particular (10, 56, 4) is in bounds,
    (10, 55, 4) is not, and nothing at zoom 6 is. *)
Theorem is_tile_in_bounds_spec :
  (forall zoom col row, LKS_LVM_TILE_LIMITS !! zoom = None ->
     is_tile_in_bounds zoom col row = false) /\
  (forall zoom lim col row, LKS_LVM_TILE_LIMITS !! zoom = Some lim ->
     (is_tile_in_bounds zoom col row = true <->
      (min_col lim <= col <= max_col lim /\ min_row lim <= row <= max_row lim))) /\
  is_tile_in_bounds 10 56 4 = true /\
  is_tile_in_bounds 10 55 4 = false /\
  (forall col row, is_tile_in_bounds 6 col row = false).
Proof.
  split; [|split; [|split; [|split]]].
  - intros zoom col row Hz. unfold is_tile_in_bounds. rewrite Hz. reflexivity.
  - intros zoom lim col row Hz. unfold is_tile_in_bounds. rewrite Hz.
    rewrite !andb_true_iff, !Z.leb_le. tauto.
  - reflexivity.
  - reflexivity.
  - intros col row. reflexivity.
Qed.

(** ** C2: the passthrough path *)

(** C2: for a target system named "WebMercatorQuad", [transform_tile]
    returns [(str(z), x, y, 0, 0)] for every tile, whatever the HTTP,
    XML and projection collaborators do, and leaves the transformer and
    the capabilities cache untouched (no projection, no capabilities
    lookup). *)
Theorem transform_tile_passthrough {F CRS Proj} `{FloatOps F}
    (env : Env F CRS Proj) (w : World F CRS Proj) (tile : TileCoordinate) :
  name (target_system_config (transformer w)) = "WebMercatorQuad" ->
  transform_tile env tile w =
    (Ok {| tile_matrix := PyStr.str_Z (tile_z tile); tile_col := tile_x tile;
           tile_row := tile_y tile; quadrant_x := 0; quadrant_y := 0 |}, w).
Proof.
  intros Hn. unfold transform_tile, sbind, sget. rewrite Hn. reflexivity.
Qed.

Definition tile_10_580_316 : TileCoordinate := {| tile_z := 10; tile_x := 580; tile_y := 316 |}.

(** C2 at tile 10/580/316 of the "latvia_webmercator" system. *)
Lemma transform_tile_passthrough_witness :
  name (target_system_config (transformer (fresh_world (F:=Q) (CRS:=unit) (Proj:=unit)
          cfg_WebMercatorQuad))) = "WebMercatorQuad" /\
  transform_tile offline_env tile_10_580_316 (fresh_world cfg_WebMercatorQuad) =
    (Ok {| tile_matrix := "10"; tile_col := 580; tile_row := 316;
           quadrant_x := 0; quadrant_y := 0 |}, fresh_world cfg_WebMercatorQuad).
Proof.
  split; [reflexivity|].
  apply (transform_tile_passthrough offline_env (fresh_world cfg_WebMercatorQuad)
           tile_10_580_316).
  reflexivity.
Defined.

(** ** C3: the zoom clamp *)

Lemma resolve_zoom_eq cfg z :
  resolve_zoom cfg z = Z.max (min_zoom cfg) (Z.min z (max_zoom cfg)).
Proof.
  unfold resolve_zoom. destruct (Z.ltb_spec (Z.min z (max_zoom cfg)) (min_zoom cfg)); lia.
Qed.

(** C3: off the passthrough path, the zoom [transform_tile] works with is
    the requested z clamped into [min_zoom, max_zoom] of the target
    system, and a successful call names the matrix
    [prefix + ":" + str(that zoom)]; with min_zoom = 7 and max_zoom = 18,
    z = 5 resolves to 7 and z = 20 to 18. *)
Theorem transform_tile_zoom_clamp {F CRS Proj} `{FloatOps F} (env : Env F CRS Proj)
    (w w' : World F CRS Proj) (tile : TileCoordinate) (r : TransformedTileCoordinate) :
  name (target_system_config (transformer w)) <> "WebMercatorQuad" ->
  transform_tile env tile w = (Ok r, w') ->
  let cfg := target_system_config (transformer w) in
  let zoom := resolve_zoom cfg (tile_z tile) in
  zoom = Z.max (min_zoom cfg) (Z.min (tile_z tile) (max_zoom cfg)) /\
  (min_zoom cfg <= max_zoom cfg ->
     min_zoom cfg <= zoom <= max_zoom cfg /\
     (min_zoom cfg <= tile_z tile <= max_zoom cfg -> zoom = tile_z tile)) /\
  tile_matrix r = tile_matrix_prefix cfg +:+ ":" +:+ PyStr.str_Z zoom /\
  (forall c : CoordinateSystemConfig, min_zoom c = 7 -> max_zoom c = 18 ->
     resolve_zoom c 5 = 7 /\ resolve_zoom c 20 = 18).
Proof.
  intros Hn Ht cfg zoom.
  split; [apply resolve_zoom_eq|].
  split; [intros Hle; unfold zoom; rewrite resolve_zoom_eq; lia|].
  split; [exact (transform_tile_matrix_id env w w' tile r Hn Ht)|].
  intros c Hmin Hmax. rewrite !resolve_zoom_eq, Hmin, Hmax. lia.
Qed.

(** C3 at tile 10/580/316 of the static "EPSG:4326" system. *)
Lemma transform_tile_zoom_clamp_witness :
  let w := fresh_world (F:=Q) (CRS:=unit) (Proj:=unit) cfg_EPSG_4326 in
  let r := {| tile_matrix := "EPSG:4326:10"; tile_col := 0; tile_row := 0;
              quadrant_x := 0; quadrant_y := 0 |} in
  name (target_system_config (transformer w)) <> "WebMercatorQuad" /\
  transform_tile offline_env tile_10_580_316 w =
    (Ok r, snd (transform_tile offline_env tile_10_580_316 w)) /\
  resolve_zoom cfg_EPSG_4326 10 = 10 /\
  tile_matrix r = tile_matrix_prefix cfg_EPSG_4326 +:+ ":" +:+ PyStr.str_Z 10.
Proof.
  intros w r.
  assert (Hn : name (target_system_config (transformer w)) <> "WebMercatorQuad")
    by discriminate.
  assert (Ht : transform_tile offline_env tile_10_580_316 w =
               (Ok r, snd (transform_tile offline_env tile_10_580_316 w)))
    by (vm_compute; reflexivity).
  destruct (transform_tile_zoom_clamp offline_env w _ tile_10_580_316 r Hn Ht)
    as (Hz & _ & Hm & _).
  split; [exact Hn|]. split; [exact Ht|]. split; [exact Hz|]. exact Hm.
Defined.

(** ** Zoom recovery from the emitted identifier *)

Definition res_Z_eqb (r : result Z) (k : Z) : bool :=
  match r with Ok k' => Z.eqb k' k | Err _ => false end.

Lemma res_Z_eqb_true r k : res_Z_eqb r k = true -> r = Ok k.
Proof. destruct r; simpl; [intros ->%Z.eqb_eq; reflexivity | discriminate]. Qed.

(** A check on every zoom level in [lo, lo + n). *)
Lemma forall_range (P : Z -> bool) (lo : Z) (n : nat) :
  forallb (fun i => P (lo + Z.of_nat i)) (seq 0 n) = true ->
  forall z, lo <= z < lo + Z.of_nat n -> P z = true.
Proof.
  intros Hall z Hz.
  rewrite forallb_forall in Hall.
  specialize (Hall (Z.to_nat (z - lo))).
  replace (lo + Z.of_nat (Z.to_nat (z - lo))) with z in Hall by lia.
  apply Hall. apply in_seq. lia.
Qed.

(** For prefix "LKS_LVM" the second ':'-token is the zoom itself. *)
Lemma recover_zoom_LKS_LVM z :
  7 <= z <= 18 ->
  zoom_of_tile_matrix ("LKS_LVM" +:+ ":" +:+ PyStr.str_Z z) = Ok z.
Proof.
  intros Hz. apply res_Z_eqb_true.
  apply (forall_range (fun z => res_Z_eqb (zoom_of_tile_matrix ("LKS_LVM" +:+ ":" +:+ PyStr.str_Z z)) z) 7 12);
    [vm_compute; reflexivity | lia].
Qed.

(** For a prefix "EPSG:<code>" the second ':'-token is the EPSG code. *)
Lemma recover_zoom_EPSG (code : Z) (p : string) z :
  p = "EPSG:" +:+ PyStr.str_Z code ->
  (code = 3857 \/ code = 4326 \/ code = 25832) ->
  0 <= z <= 20 ->
  zoom_of_tile_matrix (p +:+ ":" +:+ PyStr.str_Z z) = Ok code.
Proof.
  intros -> Hc Hz. apply res_Z_eqb_true.
  destruct Hc as [-> | [-> | ->]];
    apply (forall_range (fun z => res_Z_eqb (zoom_of_tile_matrix (_ +:+ ":" +:+ PyStr.str_Z z)) _) 0 21);
    (vm_compute; reflexivity) || lia.
Qed.

Lemma get_coordinate_system_cases key cfg :
  get_coordinate_system key = Some cfg ->
  cfg = cfg_LKS_LVM \/ cfg = cfg_WebMercatorQuad \/ cfg = cfg_EPSG_3857 \/
  cfg = cfg_EPSG_4326 \/ cfg = cfg_EPSG_25832.
Proof.
  unfold get_coordinate_system, COORDINATE_SYSTEMS. simpl.
  repeat (case_decide; [intros Heq; inversion Heq; tauto|]). discriminate.
Qed.

(** On every configured system other than the passthrough one, the
    zoom parsed back from a successful [transform_tile] is in the limit
    table only if it is the resolved zoom. *)
Lemma recovered_zoom_in_table key cfg (t : TransformedTileCoordinate) z k :
  get_coordinate_system key = Some cfg ->
  name cfg <> "WebMercatorQuad" ->
  tile_matrix t = tile_matrix_prefix cfg +:+ ":" +:+ PyStr.str_Z (resolve_zoom cfg z) ->
  zoom_of_tile_matrix (tile_matrix t) = Ok k ->
  is_tile_in_bounds k (tile_col t) (tile_row t) = true ->
  k = resolve_zoom cfg z.
Proof.
  intros Hk Hn Ht Hz Hb. rewrite Ht in Hz.
  pose proof (resolve_zoom_eq cfg z) as Hr.
  destruct (get_coordinate_system_cases key cfg Hk) as [-> | [-> | [-> | [-> | ->]]]].
  - rewrite recover_zoom_LKS_LVM in Hz by (rewrite Hr; simpl; lia). congruence.
  - contradiction.
  - rewrite (recover_zoom_EPSG 3857) in Hz by (reflexivity || tauto || (rewrite Hr; simpl; lia)).
    injection Hz as <-. discriminate.
  - rewrite (recover_zoom_EPSG 4326) in Hz by (reflexivity || tauto || (rewrite Hr; simpl; lia)).
    injection Hz as <-. discriminate.
  - rewrite (recover_zoom_EPSG 25832) in Hz by (reflexivity || tauto || (rewrite Hr; simpl; lia)).
    injection Hz as <-. discriminate.
Qed.

Lemma stry_Ok {S A} (m : SM S A) h s r s' :
  stry m h s = (Ok r, s') ->
  m s = (Ok r, s') \/ exists e s1, m s = (Err e, s1) /\ h e s1 = (Ok r, s').
Proof.
  unfold stry. destruct (m s) as [[a|e] s1]; intros Heq; [left; exact Heq | right; eauto].
Qed.

Lemma syntactic_ok_spec tile :
  syntactic_ok tile = true <->
  0 <= tile_z tile <= 20 /\ 0 <= tile_x tile < 2 ^ tile_z tile /\
  0 <= tile_y tile < 2 ^ tile_z tile.
Proof.
  unfold syntactic_ok.
  destruct (Z.ltb_spec (tile_z tile) 0), (Z.ltb_spec 20 (tile_z tile)); simpl;
  try (split; [discriminate | lia]).
  destruct (Z.ltb_spec (tile_x tile) 0), (Z.leb_spec (2 ^ tile_z tile) (tile_x tile)); simpl;
  try (split; [discriminate | lia]).
  destruct (Z.ltb_spec (tile_y tile) 0), (Z.leb_spec (2 ^ tile_z tile) (tile_y tile)); simpl;
  try (split; [discriminate | lia]).
  split; [lia | reflexivity].
Qed.

(** The non-passthrough branch of [is_valid_tile] after the syntactic
    check, as a function of [transform_tile]'s outcome. *)
Lemma is_valid_tile_checked {F CRS Proj} `{FloatOps F} (env : Env F CRS Proj)
    (w : World F CRS Proj) tile :
  name (target_system_config (transformer w)) <> "WebMercatorQuad" ->
  syntactic_ok tile = true ->
  fst (is_valid_tile env tile w) =
    match transform_tile env tile w with
    | (Ok t, _) =>
        match zoom_of_tile_matrix (tile_matrix t) with
        | Ok k => Ok (is_tile_in_bounds k (tile_col t) (tile_row t))
        | Err _ => Ok false
        end
    | (Err _, _) => Ok false
    end.
Proof.
  intros Hn Hs. unfold is_valid_tile, sbind at 1, sget at 1.
  destruct (String.eqb_spec (name (target_system_config (transformer w))) "WebMercatorQuad");
    [contradiction|].
  rewrite Hs. cbn [negb]. unfold stry, sbind, slift.
  destruct (transform_tile env tile w) as [[t|e] w1]; [|reflexivity].
  destruct (zoom_of_tile_matrix (tile_matrix t)); reflexivity.
Qed.

(** ** C4: tile validity *)

(** C4: for every configured target system, [is_valid_tile] never
    raises; it rejects every tile failing [0 <= z <= 20, x, y in [0, 2^z)];
    on the "WebMercatorQuad" system that check alone decides; on every
    other system it answers True only if [transform_tile] succeeds and the
    transformed cell lies inside the limit window of the resolved zoom,
    and an exception from [transform_tile] or from reading the zoom back
    makes it answer False. *)
Theorem is_valid_tile_spec {F CRS Proj} `{FloatOps F} (env : Env F CRS Proj)
    (w : World F CRS Proj) (key : string) (cfg : CoordinateSystemConfig)
    (tile : TileCoordinate) :
  get_coordinate_system key = Some cfg ->
  target_system_config (transformer w) = cfg ->
  (syntactic_ok tile = true <->
     0 <= tile_z tile <= 20 /\ 0 <= tile_x tile < 2 ^ tile_z tile /\
     0 <= tile_y tile < 2 ^ tile_z tile) /\
  (exists b, fst (is_valid_tile env tile w) = Ok b) /\
  (syntactic_ok tile = false -> fst (is_valid_tile env tile w) = Ok false) /\
  (name cfg = "WebMercatorQuad" -> fst (is_valid_tile env tile w) = Ok (syntactic_ok tile)) /\
  (name cfg <> "WebMercatorQuad" -> fst (is_valid_tile env tile w) = Ok true ->
     exists t w', transform_tile env tile w = (Ok t, w') /\
       tile_matrix t = tile_matrix_prefix cfg +:+ ":" +:+
                       PyStr.str_Z (resolve_zoom cfg (tile_z tile)) /\
       is_tile_in_bounds (resolve_zoom cfg (tile_z tile)) (tile_col t) (tile_row t) = true) /\
  (name cfg <> "WebMercatorQuad" -> forall e w',
     transform_tile env tile w = (Err e, w') -> fst (is_valid_tile env tile w) = Ok false) /\
  (name cfg <> "WebMercatorQuad" -> forall t w' e,
     transform_tile env tile w = (Ok t, w') -> zoom_of_tile_matrix (tile_matrix t) = Err e ->
     fst (is_valid_tile env tile w) = Ok false).
Proof.
  intros Hk Hc.
  assert (Hwmq : name cfg = "WebMercatorQuad" ->
                 fst (is_valid_tile env tile w) = Ok (syntactic_ok tile)).
  { intros Hn. unfold is_valid_tile, sbind at 1, sget at 1. rewrite Hc, Hn. reflexivity. }
  assert (Hsyn : syntactic_ok tile = false -> fst (is_valid_tile env tile w) = Ok false).
  { intros Hs. destruct (String.eqb_spec (name cfg) "WebMercatorQuad") as [Hn|Hn].
    - rewrite Hwmq by exact Hn. rewrite Hs. reflexivity.
    - unfold is_valid_tile, sbind at 1, sget at 1. rewrite Hc.
      destruct (String.eqb_spec (name cfg) "WebMercatorQuad"); [contradiction|].
      rewrite Hs. reflexivity. }
  split; [apply syntactic_ok_spec|].
  split.
  { destruct (String.eqb_spec (name cfg) "WebMercatorQuad") as [Hn|Hn];
      [eexists; apply Hwmq, Hn|].
    destruct (syntactic_ok tile) eqn:Hs; [|eexists; apply Hsyn; reflexivity].
    rewrite is_valid_tile_checked by (rewrite ?Hc; assumption).
    destruct (transform_tile env tile w) as [[t|e] w1]; [|eauto].
    destruct (zoom_of_tile_matrix (tile_matrix t)); eauto. }
  split; [exact Hsyn|].
  split; [exact Hwmq|].
  split.
  { intros Hn Hv.
    destruct (syntactic_ok tile) eqn:Hs; [|rewrite Hsyn in Hv by reflexivity; discriminate].
    rewrite is_valid_tile_checked in Hv by (rewrite ?Hc; assumption).
    destruct (transform_tile env tile w) as [[t|e] w1] eqn:Ht; [|discriminate].
    pose proof (transform_tile_matrix_id env w w1 tile t) as Hid.
    rewrite Hc in Hid. specialize (Hid Hn Ht).
    destruct (zoom_of_tile_matrix (tile_matrix t)) as [k|e] eqn:Hz; [|discriminate].
    injection Hv as Hb.
    pose proof (recovered_zoom_in_table key cfg t (tile_z tile) k Hk Hn Hid Hz Hb) as ->.
    exists t, w1. auto. }
  split.
  { intros Hn e w' Ht.
    destruct (syntactic_ok tile) eqn:Hs; [|apply Hsyn; reflexivity].
    rewrite is_valid_tile_checked by (rewrite ?Hc; assumption). rewrite Ht. reflexivity. }
  { intros Hn t w' e Ht Hz.
    destruct (syntactic_ok tile) eqn:Hs; [|apply Hsyn; reflexivity].
    rewrite is_valid_tile_checked by (rewrite ?Hc; assumption). rewrite Ht, Hz. reflexivity. }
Qed.

Lemma is_valid_tile_spec_witness :
  let w := fresh_world (F:=Q) (CRS:=unit) (Proj:=unit) cfg_EPSG_4326 in
  get_coordinate_system "EPSG:4326" = Some cfg_EPSG_4326 /\
  target_system_config (transformer w) = cfg_EPSG_4326 /\
  exists b, fst (is_valid_tile offline_env tile_10_580_316 w) = Ok b.
Proof.
  intros w.
  assert (Hk : get_coordinate_system "EPSG:4326" = Some cfg_EPSG_4326)
    by (vm_compute; reflexivity).
  assert (Hc : target_system_config (transformer w) = cfg_EPSG_4326) by reflexivity.
  split; [exact Hk|]. split; [exact Hc|].
  exact (proj1 (proj2 (is_valid_tile_spec offline_env w "EPSG:4326" cfg_EPSG_4326
                                          tile_10_580_316 Hk Hc))).
Defined.

Lemma is_valid_tile_not_syntactic {F CRS Proj} `{FloatOps F} (env : Env F CRS Proj)
    (w : World F CRS Proj) tile :
  syntactic_ok tile = false -> fst (is_valid_tile env tile w) = Ok false.
Proof.
  intros Hs. unfold is_valid_tile, sbind at 1, sget at 1.
  destruct (String.eqb (name (target_system_config (transformer w))) "WebMercatorQuad");
    rewrite Hs; reflexivity.
Qed.

Lemma is_tile_in_bounds_absent k c r :
  LKS_LVM_TILE_LIMITS !! k = None -> is_tile_in_bounds k c r = false.
Proof. unfold is_tile_in_bounds. intros ->. reflexivity. Qed.

(** ** C7: zoom recovered from the tile-matrix identifier *)

(** C7: the claim fails for the "EPSG:3857" system, whose prefix holds a
    colon: from every identifier that [transform_tile] emits there,
    [int(tile_matrix.split(":")[1])] reads the EPSG code 3857, never the
    resolved zoom (which lies in [0, 20]); as a result [is_valid_tile]
    answers False for every tile on that system. *)
Theorem tile_matrix_zoom_EPSG_3857 {F CRS Proj} `{FloatOps F} (env : Env F CRS Proj)
    (w w' : World F CRS Proj) (tile : TileCoordinate) (r : TransformedTileCoordinate) :
  target_system_config (transformer w) = cfg_EPSG_3857 ->
  transform_tile env tile w = (Ok r, w') ->
  zoom_of_tile_matrix (tile_matrix r) = Ok 3857 /\
  0 <= resolve_zoom cfg_EPSG_3857 (tile_z tile) <= 20 /\
  zoom_of_tile_matrix (tile_matrix r) <> Ok (resolve_zoom cfg_EPSG_3857 (tile_z tile)) /\
  fst (is_valid_tile env tile w) = Ok false.
Proof.
  intros Hc Ht.
  assert (Hn : name (target_system_config (transformer w)) <> "WebMercatorQuad")
    by (rewrite Hc; discriminate).
  pose proof (transform_tile_matrix_id env w w' tile r Hn Ht) as Hid.
  rewrite Hc in Hid.
  assert (Hr : 0 <= resolve_zoom cfg_EPSG_3857 (tile_z tile) <= 20)
    by (rewrite resolve_zoom_eq; simpl; lia).
  assert (Hz : zoom_of_tile_matrix (tile_matrix r) = Ok 3857)
    by (rewrite Hid; apply recover_zoom_EPSG; [reflexivity | tauto | exact Hr]).
  split; [exact Hz|]. split; [exact Hr|].
  split; [rewrite Hz; intros [= Heq]; lia|].
  destruct (syntactic_ok tile) eqn:Hs; [|apply is_valid_tile_not_syntactic; exact Hs].
  rewrite is_valid_tile_checked by assumption. rewrite Ht, Hz.
  rewrite is_tile_in_bounds_absent by reflexivity. reflexivity.
Qed.

Lemma tile_matrix_zoom_EPSG_3857_witness :
  let w := fresh_world (F:=Q) (CRS:=unit) (Proj:=unit) cfg_EPSG_3857 in
  let r := {| tile_matrix := "EPSG:3857:10"; tile_col := 128; tile_row := 127;
              quadrant_x := 0; quadrant_y := 1 |} in
  transform_tile offline_env tile_10_580_316 w =
    (Ok r, snd (transform_tile offline_env tile_10_580_316 w)) /\
  zoom_of_tile_matrix (tile_matrix r) = Ok 3857 /\
  fst (is_valid_tile offline_env tile_10_580_316 w) = Ok false.
Proof.
  intros w r.
  assert (Ht : transform_tile offline_env tile_10_580_316 w =
               (Ok r, snd (transform_tile offline_env tile_10_580_316 w)))
    by (vm_compute; reflexivity).
  destruct (tile_matrix_zoom_EPSG_3857 offline_env w _ tile_10_580_316 r eq_refl Ht)
    as (Hz & _ & _ & Hv).
  split; [exact Ht|]. split; [exact Hz|exact Hv].
Defined.

(** ** C1: capabilities fetch failures *)

Lemma load_wmts_parameters_fetch_error {F CRS Proj} `{FloatOps F} (env : Env F CRS Proj)
    (w : World F CRS Proj) url tms_id e :
  truthy_str (wmts_url (target_system_config (transformer w))) = Some url ->
  truthy_str (tile_matrix_set_id (target_system_config (transformer w))) = Some tms_id ->
  tile_matrix_set (transformer w) = None ->
  fetch_capabilities env url = Err e ->
  load_wmts_parameters env w = (Err e, w).
Proof.
  intros Hu Ht Hs Hf.
  unfold load_wmts_parameters, sbind at 1, sget at 1. rewrite Hu, Ht, Hs.
  unfold get_wmts_info, sbind, slift. rewrite Hf. reflexivity.
Qed.

(** C1: the claim fails for a failed capabilities fetch (transport error
    or non-2xx status): on every non-passthrough system with a WMTS URL
    and a TileMatrixSet id whose TileMatrixSet is not loaded yet, the
    exception raised by [fetch_capabilities] escapes [load_wmts_parameters]
    and [transform_tile] raises that same exception instead of falling back
    to the static parameters; [is_valid_tile] then turns it into False for
    every syntactically valid tile. *)
Theorem transform_tile_fetch_error {F CRS Proj} `{FloatOps F} (env : Env F CRS Proj)
    (w : World F CRS Proj) (tile : TileCoordinate) url tms_id e :
  name (target_system_config (transformer w)) <> "WebMercatorQuad" ->
  truthy_str (wmts_url (target_system_config (transformer w))) = Some url ->
  truthy_str (tile_matrix_set_id (target_system_config (transformer w))) = Some tms_id ->
  tile_matrix_set (transformer w) = None ->
  fetch_capabilities env url = Err e ->
  transform_tile env tile w = (Err e, w) /\
  fst (is_valid_tile env tile w) = Ok false.
Proof.
  intros Hn Hu Ht Hs Hf.
  assert (Htt : transform_tile env tile w = (Err e, w)).
  { unfold transform_tile, sbind at 1, sget at 1.
    destruct (String.eqb_spec (name (target_system_config (transformer w))) "WebMercatorQuad");
      [contradiction|].
    unfold sbind at 1. rewrite (load_wmts_parameters_fetch_error env w url tms_id e Hu Ht Hs Hf).
    reflexivity. }
  split; [exact Htt|].
  destruct (syntactic_ok tile) eqn:Hsyn; [|apply is_valid_tile_not_syntactic; exact Hsyn].
  rewrite is_valid_tile_checked by assumption. rewrite Htt. reflexivity.
Qed.

Lemma transform_tile_fetch_error_witness :
  let w := fresh_world (F:=Q) (CRS:=unit) (Proj:=unit) cfg_LKS_LVM in
  transform_tile offline_env tile_10_580_316 w = (Err TransportError, w) /\
  fst (is_valid_tile offline_env tile_10_580_316 w) = Ok false.
Proof.
  intros w.
  apply (transform_tile_fetch_error offline_env w tile_10_580_316 LVM_WMTS_URL "LKS_LVM");
    (discriminate || reflexivity).
Defined.

(** ** Zoom keys of a parsed TileMatrixSet *)

Lemma split_no_sep (sep : ascii) s :
  PyStr.contains (String.String sep EmptyString) s = false -> PyStr.split sep s = [s].
Proof.
  induction s as [|c s IH]; [reflexivity|].
  simpl. intros [Hc Hs]%orb_false_iff.
  rewrite andb_true_r in Hc. rewrite IH by exact Hs.
  rewrite Ascii.eqb_sym, Hc. reflexivity.
Qed.

Lemma split_app_sep (sep : ascii) p s :
  PyStr.contains (String.String sep EmptyString) p = false ->
  PyStr.split sep (p +:+ String.String sep s) = p :: PyStr.split sep s.
Proof.
  induction p as [|c p IH]; simpl.
  - rewrite Ascii.eqb_refl. reflexivity.
  - intros [Hc Hp]%orb_false_iff. rewrite andb_true_r in Hc.
    rewrite IH by exact Hp. rewrite Ascii.eqb_sym, Hc. reflexivity.
Qed.

(** The second ':'-token of an identifier is its zoom: the suffix when
    there is one colon, the middle token when there are two or more. *)
Lemma zoom_of_identifier_one_colon p a :
  PyStr.contains ":" p = false -> PyStr.contains ":" a = false ->
  zoom_of_identifier (p +:+ ":" +:+ a) = PyStr.int_of_str a.
Proof.
  intros Hp Ha. unfold zoom_of_identifier.
  change (":" +:+ a) with (String.String ":" a).
  rewrite split_app_sep by exact Hp. rewrite split_no_sep by exact Ha. reflexivity.
Qed.

Lemma zoom_of_identifier_two_colons p a b :
  PyStr.contains ":" p = false -> PyStr.contains ":" a = false ->
  zoom_of_identifier (p +:+ ":" +:+ a +:+ ":" +:+ b) = PyStr.int_of_str a.
Proof.
  intros Hp Ha. unfold zoom_of_identifier.
  change (":" +:+ a +:+ ":" +:+ b) with (String.String ":" (a +:+ String.String ":" b)).
  rewrite split_app_sep by exact Hp. rewrite split_app_sep by exact Ha. reflexivity.
Qed.

Lemma parse_tile_matrices_mono {F} `{FloatOps F} elems (m0 m : gmap Z (TileMatrix F)) k :
  parse_tile_matrices elems m0 = Ok m -> is_Some (m0 !! k) -> is_Some (m !! k).
Proof.
  revert m0. induction elems as [|el rest IH]; simpl; intros m0 Hp Hk.
  - injection Hp as <-. exact Hk.
  - destruct (_parse_tile_matrix_element el) as [tm|e]; simpl in Hp; [|discriminate].
    destruct (zoom_of_identifier (tm_identifier tm)) as [z|e]; simpl in Hp; [|discriminate].
    apply (IH _ Hp). destruct (decide (z = k)) as [->|Hne].
    + exists tm. apply lookup_insert_Some. left. auto.
    + destruct Hk as [x Hx]. exists x. apply lookup_insert_Some. right. auto.
Qed.

Lemma parse_tile_matrices_inv {F} `{FloatOps F} elems (m0 m : gmap Z (TileMatrix F)) :
  parse_tile_matrices elems m0 = Ok m ->
  (forall k tm, m !! k = Some tm ->
     m0 !! k = Some tm \/
     exists el, In el elems /\ _parse_tile_matrix_element el = Ok tm /\
                zoom_of_identifier (tm_identifier tm) = Ok k) /\
  (forall el, In el elems ->
     exists tm k, _parse_tile_matrix_element el = Ok tm /\
                  zoom_of_identifier (tm_identifier tm) = Ok k /\ is_Some (m !! k)).
Proof.
  revert m0. induction elems as [|el rest IH]; simpl; intros m0 Hp.
  - injection Hp as <-. split; [auto | tauto].
  - destruct (_parse_tile_matrix_element el) as [tm0|e] eqn:He; simpl in Hp; [|discriminate].
    destruct (zoom_of_identifier (tm_identifier tm0)) as [z|e] eqn:Hz; simpl in Hp; [|discriminate].
    destruct (IH _ Hp) as [H1 H2]. split.
    + intros k tm Hk. destruct (H1 k tm Hk) as [Hi | (el' & Hin & Hel & Hzk)].
      * apply lookup_insert_Some in Hi as [[<- <-] | [_ Hi]]; [|auto].
        right. exists el. auto.
      * right. exists el'. auto.
    + intros el' [<- | Hin]; [|auto].
      exists tm0, z. split; [exact He|]. split; [exact Hz|].
      apply (parse_tile_matrices_mono _ _ _ _ Hp).
      exists tm0. apply lookup_insert_Some. left. auto.
Qed.

Lemma parse_tile_matrix_set_element_matrices {F} `{FloatOps F} tms_elem (tms : TileMatrixSet F) :
  _parse_tile_matrix_set_element tms_elem = Ok tms ->
  parse_tile_matrices (tmse_tile_matrices tms_elem) ∅ = Ok (tms_tile_matrices tms).
Proof.
  unfold _parse_tile_matrix_set_element.
  destruct (text (tmse_identifier tms_elem)); simpl; [|discriminate].
  destruct (text (tmse_supported_crs tms_elem)); simpl; [|discriminate].
  destruct (parse_tile_matrices (tmse_tile_matrices tms_elem) ∅); simpl; [|discriminate].
  intros [= <-]. reflexivity.
Qed.


(** ** C8: image normalization in [fetch_tile] *)

(** C8: for a 200 response whose content type mentions "image", with
    body [B]: if decoding fails, [fetch_tile] returns [B] unmodified; a
    decoded 512x512 image is cropped to the box
    (quadrant_x*256, quadrant_y*256, +256, +256) and saved as PNG; an
    image of any other size but 256x256 is resized to 256x256 with the
    Lanczos filter and saved as PNG; a 256x256 image is saved as PNG as
    it is; if any of these steps raises, [B] is returned unmodified. *)
Theorem fetch_tile_normalization {Img} (pil : ImageLib Img)
    (http_get : TransformedTileCoordinate -> result HttpResponse)
    (tile_coord : TransformedTileCoordinate) (response : HttpResponse) :
  http_get tile_coord = Ok response ->
  status_code response = 200 ->
  PyStr.contains "image" (content_type response) = true ->
  let B := content response in
  let or_body r := match r with Ok out => out | Err _ => B end in
  (forall e, image_open pil B = Err e -> fetch_tile pil http_get tile_coord = Some B) /\
  (forall img, image_open pil B = Ok img -> image_size pil img = (512, 512) ->
     let left := quadrant_x tile_coord * 256 in
     let top := quadrant_y tile_coord * 256 in
     fetch_tile pil http_get tile_coord =
       Some (or_body (let? c := image_crop pil img (left, top, left + 256, top + 256) in
                      image_save_png pil c))) /\
  (forall img, image_open pil B = Ok img ->
     image_size pil img <> (512, 512) -> image_size pil img <> (256, 256) ->
     fetch_tile pil http_get tile_coord =
       Some (or_body (let? r := image_resize_lanczos pil img (256, 256) in
                      image_save_png pil r))) /\
  (forall img, image_open pil B = Ok img -> image_size pil img = (256, 256) ->
     fetch_tile pil http_get tile_coord = Some (or_body (image_save_png pil img))).
Proof.
  intros Hg Hs Hc B or_body.
  assert (Hf : fetch_tile pil http_get tile_coord = Some (process_tile pil tile_coord B)).
  { unfold fetch_tile. rewrite Hg, Hs, Hc. reflexivity. }
  rewrite Hf. unfold process_tile, or_body.
  split; [intros e He; rewrite He; reflexivity|].
  split; [intros img Ho Hz; rewrite Ho; simpl; rewrite Hz; reflexivity|].
  split.
  - intros img Ho H512 H256. rewrite Ho. simpl.
    rewrite (bool_decide_false _ H512), (bool_decide_false _ H256). reflexivity.
  - intros img Ho Hz. rewrite Ho. simpl. rewrite Hz. reflexivity.
Qed.

Lemma fetch_tile_normalization_witness :
  let pil := {| image_open := fun _ => Ok (512, 512);
                image_size := fun s => s;
                image_crop := fun _ _ => Ok (256, 256);
                image_resize_lanczos := fun _ _ => Ok (256, 256);
                image_save_png := fun _ => Ok [Byte.x02] |} in
  let response := {| status_code := 200; content_type := "image/png";
                     content := [Byte.x01] |} in
  let tile_coord := {| tile_matrix := "LKS_LVM:10"; tile_col := 580; tile_row := 316;
                       quadrant_x := 1; quadrant_y := 0 |} in
  fetch_tile pil (fun _ => Ok response) tile_coord = Some [Byte.x02].
Proof.
  intros pil response tile_coord.
  exact (proj1 (proj2 (fetch_tile_normalization pil (fun _ => Ok response) tile_coord response
                         eq_refl eq_refl eq_refl)) (512, 512) eq_refl eq_refl).
Defined.

(** ** C10: tile-cache round trip *)

Section TTLFacts.
Context {V : Type}.

Lemma ttl_expire now (c : TTL.TTLCache V) : TTL.ttl (TTL.expire now c) = TTL.ttl c.
Proof.
  unfold TTL.expire. destruct (TTL.expire_go now _ _ _) as [[r d] l]. reflexivity.
Qed.

Lemma ttl_popitem now (c c' : TTL.TTLCache V) r :
  TTL.popitem now c = (r, c') -> TTL.ttl c' = TTL.ttl c.
Proof.
  unfold TTL.popitem. rewrite <- (ttl_expire now c).
  destruct (TTL.links (TTL.expire now c)); intros Heq; inversion Heq; reflexivity.
Qed.

Lemma ttl_make_room fuel now (c c' : TTL.TTLCache V) r :
  TTL.make_room fuel now c = (r, c') -> TTL.ttl c' = TTL.ttl c.
Proof.
  revert c. induction fuel as [|f IH]; simpl; intros c Heq.
  - inversion Heq. reflexivity.
  - unfold sbind at 1, sget in Heq.
    destruct (Z.of_nat (size (TTL.data c)) + 1 >? TTL.maxsize c).
    + unfold sbind in Heq. destruct (TTL.popitem now c) as [[u|e] c1] eqn:Hp.
      * rewrite (IH _ Heq). exact (ttl_popitem _ _ _ _ Hp).
      * inversion Heq; subst. exact (ttl_popitem _ _ _ _ Hp).
    + inversion Heq. reflexivity.
Qed.

Lemma link_expires_last k e (r : list (string * Z)) :
  TTL.link_expires k (TTL.remove_link k r ++ [(k, e)]) = Some e.
Proof.
  induction r as [|[k' e'] r IH]; simpl.
  - rewrite String.eqb_refl. reflexivity.
  - destruct (String.eqb_spec k' k) as [->|Hne]; simpl; [exact IH|].
    destruct (String.eqb_spec k k') as [->|_]; [contradiction|exact IH].
Qed.

(** A successful [cache[k] = v] at time [now] leaves [v] under [k] with
    a link expiring at [now + ttl]. *)
Lemma setitem_spec k (v : V) now (c c' : TTL.TTLCache V) :
  TTL.setitem k v now c = (Ok tt, c') ->
  TTL.link_expires k (TTL.root c') = Some (now + TTL.ttl c) /\
  TTL.data c' !! k = Some v /\ TTL.ttl c' = TTL.ttl c.
Proof.
  unfold TTL.setitem. intros H.
  peel H. unfold smodify in Hm. inversion Hm; subst; clear Hm.
  peel H. unfold sget in Hm. inversion Hm; subst; clear Hm.
  destruct (1 >? TTL.maxsize (TTL.expire now c)); [unfold sraise in H; discriminate|].
  peel H.
  assert (Ht : TTL.ttl s = TTL.ttl (TTL.expire now c)).
  { destruct (bool_decide _);
      [unfold sret in Hm; inversion Hm; reflexivity | exact (ttl_make_room _ _ _ _ _ Hm)]. }
  apply sbind_Ok in H. destruct H as (c1 & s1 & Hg & H).
  unfold sget in Hg. inversion Hg; subst; clear Hg.
  unfold sput in H. inversion H; subst; clear H. simpl.
  rewrite Ht, ttl_expire, link_expires_last.
  split; [reflexivity|]. split; [apply lookup_insert_Some; left; auto | reflexivity].
Qed.

Lemma getitem_fresh k (v : V) t (c : TTL.TTLCache V) e :
  TTL.link_expires k (TTL.root c) = Some e -> t < e -> TTL.data c !! k = Some v ->
  fst (TTL.getitem k t c) = Ok v /\ TTL.contains k t c = true.
Proof.
  intros Hl Ht Hd. unfold TTL.getitem, TTL.contains. rewrite Hl.
  destruct (Z.ltb_spec t e); [|lia]. simpl. rewrite Hd. auto.
Qed.

Lemma getitem_expired k t (c : TTL.TTLCache V) e :
  TTL.link_expires k (TTL.root c) = Some e -> e <= t ->
  fst (TTL.getitem k t c) = Err KeyError /\ TTL.contains k t c = false.
Proof.
  intros Hl Ht. unfold TTL.getitem, TTL.contains. rewrite Hl.
  destruct (Z.ltb_spec t e); [lia|]. auto.
Qed.

End TTLFacts.

(** C10: once the serving path has stored bytes [B] with
    [tile_cache[cache_key] = B] at time [now] under the key
    "<endpoint>-<z>-<x>-<y>" of a request, every [get_tile] for that
    request while the entry is alive (in particular right away, the TTL
    being positive) answers with exactly [B] from the cache; from time
    [now + ttl] on the key is absent ([in] is False and lookup raises
    KeyError); after [clear_cache] it is absent at every time. *)
Theorem tile_cache_round_trip {F CRS Proj Img} `{FloatOps F} (env : Env F CRS Proj)
    (pil : ImageLib Img) (settings : Settings)
    (http_get : WMTSEndpoint -> TransformedTileCoordinate -> result HttpResponse)
    (s : AppState F CRS Proj) (endpoint : option string) (z x y now : Z) (B : bytes)
    (c' : TTL.TTLCache bytes) :
  let endpoint_name := match truthy_str endpoint with
                       | Some e => e | None => DEFAULT_ENDPOINT settings end in
  let key := cache_key endpoint_name z x y in
  let s' := mkA c' (transformers s) (clients s) (app_capabilities_cache s) in
  0 <= z -> 0 <= x -> 0 <= y ->
  TTL.setitem key B now (tile_cache s) = (Ok tt, c') ->
  (forall t, t < now + TTL.ttl (tile_cache s) ->
     fst (get_tile env pil settings http_get t z x y endpoint s') = Ok (TileResponse B)) /\
  (forall t, now + TTL.ttl (tile_cache s) <= t ->
     TTL.contains key t c' = false /\ fst (TTL.getitem key t c') = Err KeyError) /\
  (forall t, TTL.contains key t (tile_cache (snd (clear_cache s'))) = false /\
             fst (TTL.getitem key t (tile_cache (snd (clear_cache s')))) = Err KeyError).
Proof.
  intros endpoint_name key s' Hz Hx Hy Hset.
  destruct (setitem_spec _ _ _ _ _ Hset) as (Hl & Hd & _).
  split; [|split].
  - intros t Ht.
    destruct (getitem_fresh key B t c' _ Hl Ht Hd) as [Hg Hc].
    unfold get_tile, stry.
    destruct (Z.ltb_spec z 0); [lia|]. destruct (Z.ltb_spec x 0); [lia|].
    destruct (Z.ltb_spec y 0); [lia|]. cbn [orb]. cbv beta iota.
    unfold sbind at 1, sget at 1. fold endpoint_name key.
    change (tile_cache s') with c'. rewrite Hc.
    unfold sbind, on_cache. change (tile_cache s') with c'.
    destruct (TTL.getitem key t c') as [r c2]. simpl in Hg. subst r. reflexivity.
  - intros t Ht. destruct (getitem_expired key t c' _ Hl Ht). auto.
  - intros t. split; reflexivity.
Qed.

Lemma tile_cache_round_trip_witness :
  let pil := {| image_open := fun _ => Ok tt; image_size := fun _ => (256, 256);
                image_crop := fun i _ => Ok i; image_resize_lanczos := fun i _ => Ok i;
                image_save_png := fun _ => Ok [Byte.x01] |} in
  let http_get := fun (_ : WMTSEndpoint) (_ : TransformedTileCoordinate) =>
                    Err (A := HttpResponse) TransportError in
  let s := mkA (F:=Q) (CRS:=unit) (Proj:=unit)
             (TTL.empty (CACHE_SIZE default_settings) (CACHE_TTL default_settings)) ∅ ∅ ∅ in
  let key := cache_key "latvia" 10 580 316 in
  let c' := snd (TTL.setitem key [Byte.x01] 0 (tile_cache s)) in
  fst (get_tile offline_env pil default_settings http_get 0 10 580 316 (Some "latvia")
         (mkA c' ∅ ∅ ∅)) = Ok (TileResponse [Byte.x01]).
Proof.
  intros pil http_get s key c'.
  assert (Hset : TTL.setitem key [Byte.x01] 0 (tile_cache s) = (Ok tt, c'))
    by (vm_compute; reflexivity).
  pose proof (tile_cache_round_trip offline_env pil default_settings http_get s (Some "latvia")
                10 580 316 0 [Byte.x01] c') as T.
  cbv zeta in T.
  destruct (T ltac:(lia) ltac:(lia) ltac:(lia) Hset) as [Hhit _].
  apply Hhit. vm_compute. reflexivity.
Defined.

(* ================================================================== *)
(** * Further properties of the code *)

(** ** Decimal strings *)

Definition all_digits (s : string) : Prop :=
  Forall (fun c => PyStr.is_digit c = true) (String.list_ascii_of_string s).

Lemma digit_char (d : N) :
  (d < 10)%N ->
  PyStr.is_digit (ascii_of_N (48 + d)) = true /\ N_of_ascii (ascii_of_N (48 + d)) = (48 + d)%N.
Proof.
  intros Hd. rewrite N_ascii_embedding by lia.
  unfold PyStr.is_digit. rewrite N_ascii_embedding by lia.
  split; [|reflexivity]. apply andb_true_intro. split; apply N.leb_le; lia.
Qed.

Lemma str_N_go_digits f n acc :
  all_digits acc -> all_digits (PyStr.str_N_go f n acc).
Proof.
  revert n acc. induction f as [|f IH]; intros n acc Hacc; simpl; [exact Hacc|].
  assert (Hc : all_digits (String.String (ascii_of_N (48 + n mod 10)) acc)).
  { constructor; [apply digit_char, N.mod_lt; lia | exact Hacc]. }
  destruct (n <? 10)%N; [exact Hc | apply IH, Hc].
Qed.

Lemma str_N_go_val f n acc a :
  (n < 10 ^ N.of_nat f)%N ->
  exists k, PyStr.digits_val (PyStr.str_N_go f n acc) a =
            PyStr.digits_val acc (10 ^ Z.of_nat k * a + Z.of_N n).
Proof.
  revert n acc a. induction f as [|f IH]; intros n acc a Hn;
    [simpl in Hn; exists 0%nat; simpl; f_equal; lia|].
  simpl. destruct (digit_char (n mod 10) ltac:(apply N.mod_lt; lia)) as [Hd Hv].
  assert (Hstep : forall a', PyStr.digits_val (String.String (ascii_of_N (48 + n mod 10)) acc) a' =
                    PyStr.digits_val acc (10 * a' + Z.of_N (n mod 10))).
  { intros a'. simpl. rewrite Hd, Hv.
    rewrite (N.add_comm 48), N.add_sub. reflexivity. }
  destruct (N.ltb_spec n 10) as [Hlt|Hge].
  - exists 1%nat. rewrite Hstep. f_equal. rewrite N.mod_small by lia. lia.
  - destruct (IH (n / 10)%N (String.String (ascii_of_N (48 + n mod 10)) acc) a) as [k Hk].
    { rewrite Nat2N.inj_succ, N.pow_succ_r' in Hn. apply N.Div0.div_lt_upper_bound; lia. }
    exists (S k). rewrite Hk, Hstep. f_equal.
    rewrite Nat2Z.inj_succ, Z.pow_succ_r by lia.
    pose proof (N.div_mod n 10 ltac:(lia)) as Hdm. lia.
Qed.

Lemma pos_size_nat_bound p : (Npos p < 2 ^ N.of_nat (Pos.size_nat p))%N.
Proof.
  induction p as [p IH|p IH|]; simpl Pos.size_nat; rewrite ?Nat2N.inj_succ, ?N.pow_succ_r';
    [change (Npos p~1) with (2 * Npos p + 1)%N | change (Npos p~0) with (2 * Npos p)%N |]; lia.
Qed.

Lemma str_N_val n : PyStr.digits_val (PyStr.str_N n) 0 = Some (Z.of_N n).
Proof.
  unfold PyStr.str_N.
  destruct (str_N_go_val (S (N.size_nat n)) n "" 0) as [k Hk].
  - destruct n as [|p]; [simpl; lia|].
    pose proof (pos_size_nat_bound p) as Hb. simpl N.size_nat.
    assert (H2 : (2 ^ N.of_nat (Pos.size_nat p) <= 10 ^ N.of_nat (Pos.size_nat p))%N)
      by (apply N.pow_le_mono_l; lia).
    rewrite Nat2N.inj_succ, N.pow_succ_r'. lia.
  - rewrite Hk. simpl. f_equal. lia.
Qed.

Lemma str_N_go_nonempty f n acc :
  acc <> EmptyString -> PyStr.str_N_go f n acc <> EmptyString.
Proof.
  revert n acc. induction f as [|f IH]; intros n acc Hacc; simpl; [exact Hacc|].
  destruct (n <? 10)%N; [discriminate | apply IH; discriminate].
Qed.

Lemma str_N_digits n : all_digits (PyStr.str_N n) /\ PyStr.str_N n <> EmptyString.
Proof.
  unfold PyStr.str_N. split; [apply str_N_go_digits; constructor|].
  cbn [PyStr.str_N_go]. destruct (n <? 10)%N; [discriminate|].
  apply str_N_go_nonempty. discriminate.
Qed.

Lemma lstrip_id s :
  Forall (fun c => PyStr.is_space c = false) (String.list_ascii_of_string s) ->
  PyStr.lstrip s = s.
Proof. destruct s as [|c s]; [reflexivity|]. intros Hf. inversion Hf; subst. simpl. now rewrite H1. Qed.

Lemma strip_id s :
  Forall (fun c => PyStr.is_space c = false) (String.list_ascii_of_string s) ->
  PyStr.strip s = s.
Proof.
  intros Hf. unfold PyStr.strip. rewrite (lstrip_id s Hf).
  rewrite lstrip_id by (rewrite String.list_ascii_of_string_of_list_ascii; apply Forall_rev, Hf).
  rewrite String.list_ascii_of_string_of_list_ascii, rev_involutive.
  apply String.string_of_list_ascii_of_string.
Qed.

Lemma digit_not_space c : PyStr.is_digit c = true -> PyStr.is_space c = false.
Proof.
  unfold PyStr.is_digit, PyStr.is_space. intros [H1 H2]%andb_prop.
  apply N.leb_le in H1, H2.
  destruct (N.eqb_spec (N_of_ascii c) 32); [lia|].
  destruct (N.leb_spec 9 (N_of_ascii c)), (N.leb_spec (N_of_ascii c) 13); simpl; auto; lia.
Qed.

Lemma all_digits_no_space s :
  all_digits s -> Forall (fun c => PyStr.is_space c = false) (String.list_ascii_of_string s).
Proof. intros H. eapply Forall_impl; [exact H | exact digit_not_space]. Qed.

(** [int(str(z)) == z] for every int. *)
Lemma int_of_str_str_Z z : PyStr.int_of_str (PyStr.str_Z z) = Ok z.
Proof.
  destruct z as [|p|p].
  - reflexivity.
  - unfold PyStr.str_Z. simpl Z.to_N.
    destruct (str_N_digits (Npos p)) as [Hd Hne].
    unfold PyStr.int_of_str. rewrite strip_id by (apply all_digits_no_space, Hd).
    pose proof (str_N_val (Npos p)) as Hv.
    destruct (PyStr.str_N (Npos p)) as [|c s] eqn:E; [contradiction|].
    inversion Hd as [|? ? Hc]; subst.
    assert (Hm : c <> "-"%char /\ c <> "+"%char)
      by (split; intros ->; discriminate Hc).
    destruct c as [[] [] [] [] [] [] [] []]; try (exfalso; tauto);
      unfold PyStr.unsigned_val; rewrite Hv; reflexivity.
  - unfold PyStr.str_Z.
    destruct (str_N_digits (Npos p)) as [Hd Hne].
    unfold PyStr.int_of_str. rewrite strip_id.
    + change ("-" +:+ PyStr.str_N (Npos p)) with (String.String "-" (PyStr.str_N (Npos p))).
      cbv beta iota zeta. unfold PyStr.unsigned_val.
      destruct (PyStr.str_N (Npos p)) eqn:E; [contradiction|].
      rewrite <- E, str_N_val. reflexivity.
    + simpl. constructor; [reflexivity | apply all_digits_no_space, Hd].
Qed.

Lemma all_digits_no_char (c : ascii) s :
  all_digits s -> PyStr.is_digit c = false ->
  PyStr.contains (String.String c EmptyString) s = false.
Proof.
  unfold all_digits. induction s as [|d s IH]; intros Hd Hc; [reflexivity|].
  inversion Hd; subst. simpl. rewrite IH by assumption.
  destruct (Ascii.eqb_spec c d) as [->|]; [congruence | reflexivity].
Qed.

Lemma str_N_no_char (c : ascii) n :
  PyStr.is_digit c = false -> PyStr.contains (String.String c EmptyString) (PyStr.str_N n) = false.
Proof. intros Hc. apply all_digits_no_char; [apply str_N_digits | exact Hc]. Qed.

Lemma str_app_assoc (a b c : string) : a +:+ (b +:+ c) = (a +:+ b) +:+ c.
Proof.
  induction a as [|x a IH]; [reflexivity|].
  change (String.String x (a +:+ (b +:+ c)) = String.String x ((a +:+ b) +:+ c)).
  now rewrite IH.
Qed.

Lemma contains_app_sep (c : ascii) x y :
  PyStr.contains (String.String c EmptyString) (x +:+ String.String c y) = true.
Proof.
  induction x as [|a x IH]; simpl.
  - now rewrite Ascii.eqb_refl.
  - now rewrite IH, orb_true_r.
Qed.

(** Splitting at the last separator: [s1 ++ sep ++ d1 = s2 ++ sep ++ d2]
    with separator-free [d1] and [d2] determines both parts. *)
Lemma app_sep_inj (c : ascii) s1 d1 s2 d2 :
  PyStr.contains (String.String c EmptyString) d1 = false ->
  PyStr.contains (String.String c EmptyString) d2 = false ->
  s1 +:+ String.String c d1 = s2 +:+ String.String c d2 -> s1 = s2 /\ d1 = d2.
Proof.
  intros H1 H2. revert s2. induction s1 as [|a s1 IH]; intros [|b s2] Heq; simpl in Heq.
  - injection Heq as ->. auto.
  - injection Heq as -> Hd. subst d1. rewrite contains_app_sep in H1. discriminate.
  - injection Heq as -> Hd. subst d2. rewrite contains_app_sep in H2. discriminate.
  - injection Heq as -> Heq. destruct (IH _ Heq) as [-> ->]. auto.
Qed.

Lemma str_Z_nonneg_no_char (c : ascii) z :
  0 <= z -> PyStr.is_digit c = false ->
  PyStr.contains (String.String c EmptyString) (PyStr.str_Z z) = false.
Proof.
  intros Hz Hc. destruct z as [|p|p]; [| |lia]; apply str_N_no_char, Hc.
Qed.

Lemma str_Z_inj z z' : PyStr.str_Z z = PyStr.str_Z z' -> z = z'.
Proof.
  intros Heq. pose proof (int_of_str_str_Z z) as H1. rewrite Heq, int_of_str_str_Z in H1.
  congruence.
Qed.

(** [cache_key] from the right: "<endpoint>-<z>-<x>-<y>". *)
Lemma cache_key_assoc e z x y :
  cache_key e z x y =
  ((e +:+ String.String "-" (PyStr.str_Z z)) +:+ String.String "-" (PyStr.str_Z x))
    +:+ String.String "-" (PyStr.str_Z y).
Proof.
  change (cache_key e z x y =
    ((e +:+ ("-" +:+ PyStr.str_Z z)) +:+ ("-" +:+ PyStr.str_Z x)) +:+ ("-" +:+ PyStr.str_Z y)).
  unfold cache_key. rewrite !str_app_assoc. reflexivity.
Qed.

(** For tile coordinates that [get_tile] lets through (none negative),
    two requests share a cache key only if they name the same endpoint
    and the same tile. *)
Theorem cache_key_injective e z x y e' z' x' y' :
  0 <= z -> 0 <= x -> 0 <= y -> 0 <= z' -> 0 <= x' -> 0 <= y' ->
  cache_key e z x y = cache_key e' z' x' y' ->
  e = e' /\ z = z' /\ x = x' /\ y = y'.
Proof.
  intros Hz Hx Hy Hz' Hx' Hy' Heq. rewrite !cache_key_assoc in Heq.
  assert (Hd : PyStr.is_digit "-"%char = false) by reflexivity.
  apply app_sep_inj in Heq as [Heq Hy2];
    [|apply str_Z_nonneg_no_char; assumption..].
  apply app_sep_inj in Heq as [Heq Hx2];
    [|apply str_Z_nonneg_no_char; assumption..].
  apply app_sep_inj in Heq as [He Hz2];
    [|apply str_Z_nonneg_no_char; assumption..].
  apply str_Z_inj in Hy2, Hx2, Hz2. auto.
Qed.

Lemma cache_key_injective_witness :
  "latvia" = "latvia" /\ 10 = 10 /\ 580 = 580 /\ 316 = 316.
Proof.
  apply (cache_key_injective "latvia" 10 580 316 "latvia" 10 580 316);
    (lia || reflexivity).
Defined.

(** ** The serving path of app.py *)

Lemma sbind_cases {S B C} (m : SM S B) (k : B -> SM S C) s r s' :
  sbind m k s = (r, s') ->
  (exists e, m s = (Err e, s') /\ r = Err e) \/
  (exists a s1, m s = (Ok a, s1) /\ k a s1 = (r, s')).
Proof.
  unfold sbind. destruct (m s) as [[a|e] s1]; intros Hm; [right; eauto|left].
  inversion Hm; subst. eauto.
Qed.

Lemma resolve_name_twice settings o :
  resolve_name settings (Some (resolve_name settings o)) = resolve_name settings o.
Proof.
  unfold resolve_name. destruct (truthy_str o) as [n|] eqn:Ht.
  - destruct o as [o|]; [|discriminate]. unfold truthy_str in Ht |- *.
    destruct (decide (o = "")); [discriminate|]. injection Ht as ->.
    destruct (decide (n = "")); [contradiction|reflexivity].
  - unfold truthy_str at 1. destruct (decide (DEFAULT_ENDPOINT settings = "")); reflexivity.
Qed.

Section ServingFacts.
Context {F CRS Proj Img : Type} `{FloatOps F}.
Context (env : Env F CRS Proj) (pil : ImageLib Img) (settings : Settings).
Context (http_get : WMTSEndpoint -> TransformedTileCoordinate -> result HttpResponse).

Local Abbreviation A := (AppState F CRS Proj).

Lemma sbind_keep_inv {B C} (m : SM A B) (k : B -> SM A C) s r s' :
  (forall s0, tile_cache (snd (m s0)) = tile_cache s0) ->
  sbind m k s = (r, s') ->
  (exists e, r = Err e /\ tile_cache s' = tile_cache s) \/
  (exists a s1, tile_cache s1 = tile_cache s /\ k a s1 = (r, s')).
Proof.
  intros Hk Hb. specialize (Hk s). apply sbind_cases in Hb.
  destruct Hb as [(e & Hm & ->) | (a & s1 & Hm & Hb)]; rewrite Hm in Hk; simpl in Hk.
  - left. eauto.
  - right. eauto.
Qed.

Lemma get_transformer_keeps_cache n (s : A) :
  tile_cache (snd (get_transformer settings n s)) = tile_cache s.
Proof.
  unfold get_transformer, sbind, sget. destruct (bool_decide _); [reflexivity|].
  unfold slift. destruct (get_endpoint settings _); [|reflexivity].
  destruct (get_coordinate_system _); reflexivity.
Qed.

Lemma get_client_keeps_cache n (s : A) :
  tile_cache (snd (get_client settings n s)) = tile_cache s.
Proof.
  unfold get_client, sbind, sget. destruct (bool_decide _); [reflexivity|].
  unfold slift. destruct (get_endpoint settings _); reflexivity.
Qed.

Lemma on_transformer_keeps_cache {B} n (m : SM (World F CRS Proj) B) (s : A) :
  tile_cache (snd (on_transformer n m s)) = tile_cache s.
Proof.
  unfold on_transformer. destruct (transformers s !! n); [|reflexivity].
  destruct (m _); reflexivity.
Qed.

Lemma slift_keeps_cache {B} (r : result B) (s : A) : tile_cache (snd (slift r s)) = tile_cache s.
Proof. reflexivity. Qed.

Ltac keep_step H L :=
  let e := fresh "e" in let Hc := fresh "Hc" in
  apply sbind_keep_inv in H; [|exact L];
  destruct H as [(e & _ & Hc) | (? & ? & Hc & H)]; [left; exact Hc | rewrite <- Hc; clear Hc].

Ltac fetch_step HM :=
  cbv beta in HM;
  match type of HM with (if negb ?b then _ else _) _ = _ => destruct (negb b) end;
  [left; inversion HM; subst; reflexivity|];
  match type of HM with (match ?f with _ => _ end) _ = _ => destruct f as [[|? ?]|] end;
  [left; inversion HM; subst; reflexivity| |left; inversion HM; subst; reflexivity];
  unfold sbind, on_cache in HM;
  match type of HM with
  | context [TTL.setitem ?k ?v ?t ?c] =>
      let Hs := fresh "Hs" in
      destruct (TTL.setitem k v t c) as [[?|?] ?] eqn:Hs; inversion HM; subst; right; eexists _, _;
      (split; [|split; [exact Hs|reflexivity]]); discriminate
  end.

(** A request with a negative coordinate is answered with 400 before
    anything else happens: the tile cache, the transformers, the clients
    and the capabilities cache are left as they were. *)
Theorem get_tile_negative_400 now z x y endpoint (s : A) :
  z < 0 \/ x < 0 \/ y < 0 ->
  get_tile env pil settings http_get now z x y endpoint s = (Ok (HTTPError 400), s).
Proof.
  intros Hneg. unfold get_tile, stry.
  assert (Hb : ((z <? 0) || (x <? 0) || (y <? 0))%bool = true).
  { destruct Hneg as [Hn|[Hn|Hn]]; apply Z.ltb_lt in Hn; rewrite Hn;
      rewrite ?orb_true_r; reflexivity. }
  rewrite Hb. reflexivity.
Qed.

(** On a cache hit [get_tile] answers from the cache alone: it neither
    creates a transformer or client nor fetches anything, and only the
    tile cache changes, by [cache[key]] (which moves the key to the
    recently-used end).  A lookup that raises is answered with 500. *)
Theorem get_tile_cache_hit now z x y endpoint (s : A) r c' :
  let endpoint_name := match truthy_str endpoint with
                       | Some e => e | None => DEFAULT_ENDPOINT settings end in
  let key := cache_key endpoint_name z x y in
  0 <= z -> 0 <= x -> 0 <= y ->
  TTL.contains key now (tile_cache s) = true ->
  TTL.getitem key now (tile_cache s) = (r, c') ->
  get_tile env pil settings http_get now z x y endpoint s =
    (Ok (match r with Ok v => TileResponse v | Err _ => HTTPError 500 end),
     mkA c' (transformers s) (clients s) (app_capabilities_cache s)).
Proof.
  intros endpoint_name key Hz Hx Hy Hc Hg. unfold get_tile, stry.
  destruct (Z.ltb_spec z 0); [lia|]. destruct (Z.ltb_spec x 0); [lia|].
  destruct (Z.ltb_spec y 0); [lia|]. cbn [orb]. cbv beta iota.
  unfold sbind at 1, sget at 1. fold endpoint_name key. rewrite Hc.
  unfold sbind, on_cache. rewrite Hg. destruct r; reflexivity.
Qed.

Lemma get_tile_miss_cache_cases now z x y endpoint (s : A) r s' :
  let endpoint_name := match truthy_str endpoint with
                       | Some e => e | None => DEFAULT_ENDPOINT settings end in
  let key := cache_key endpoint_name z x y in
  TTL.contains key now (tile_cache s) = false ->
  get_tile env pil settings http_get now z x y endpoint s = (r, s') ->
  tile_cache s' = tile_cache s \/
  exists d res, d <> [] /\ TTL.setitem key d now (tile_cache s) = (res, tile_cache s') /\
    r = Ok (match res with Ok _ => TileResponse d | Err _ => HTTPError 500 end).
Proof.
  intros endpoint_name key Hc Hrun. unfold get_tile, stry in Hrun.
  destruct ((z <? 0) || (x <? 0) || (y <? 0))%bool.
  { left. inversion Hrun; subst. reflexivity. }
  unfold sbind at 1, sget at 1 in Hrun. fold endpoint_name key in Hrun. rewrite Hc in Hrun.
  set (tc := {| tile_z := z; tile_x := x; tile_y := y |}) in Hrun.
  set (M := sbind (get_transformer settings (Some endpoint_name)) _) in Hrun.
  destruct (M s) as [r0 s1] eqn:HM.
  enough (tile_cache s1 = tile_cache s \/
          exists d res, d <> [] /\ TTL.setitem key d now (tile_cache s) = (res, tile_cache s1) /\
            r0 = match res with Ok _ => Ok (TileResponse d) | Err e => Err e end) as Hm.
  { destruct r0 as [v|e]; inversion Hrun; subst; destruct Hm as [Hm|(d & res & Hd & Hs & Hr)];
      auto; right; exists d, res; (split; [exact Hd|split; [exact Hs|]]);
      destruct res; congruence. }
  clear Hrun. unfold M in HM. clear M.
  keep_step HM (get_transformer_keeps_cache (Some endpoint_name)).
  keep_step HM (get_client_keeps_cache (Some endpoint_name)).
  keep_step HM (on_transformer_keeps_cache endpoint_name (is_valid_tile env tc)).
  match goal with H : (if negb ?v then _ else _) _ = _ |- _ => destruct (negb v) end.
  { left. inversion HM; subst. reflexivity. }
  keep_step HM (on_transformer_keeps_cache endpoint_name (transform_tile env tc)).
  keep_step HM (slift_keeps_cache (get_endpoint settings (Some endpoint_name))).
  match goal with
  | H : sbind (if ?b then _ else _) _ _ = _ |- _ => destruct b
  end.
  - keep_step HM (slift_keeps_cache (B := bool) (Ok true)).
    fetch_step HM.
  - apply sbind_keep_inv in HM;
      [| intros s0; unfold sbind, slift; destruct (zoom_of_tile_matrix _); reflexivity].
    destruct HM as [(? & _ & Hc1) | (? & ? & Hc1 & HM)]; [left; exact Hc1 | rewrite <- Hc1; clear Hc1].
    fetch_step HM.
Qed.

(** On a cache miss the tile cache is written at most once, by
    [tile_cache[key] = tile_data] with the non-empty bytes that are
    returned; every other outcome (400, 404, the transparent tile, 500)
    leaves the tile cache as it was. *)
Theorem get_tile_miss_cache now z x y endpoint (s : A) r s' :
  let endpoint_name := match truthy_str endpoint with
                       | Some e => e | None => DEFAULT_ENDPOINT settings end in
  let key := cache_key endpoint_name z x y in
  TTL.contains key now (tile_cache s) = false ->
  get_tile env pil settings http_get now z x y endpoint s = (r, s') ->
  tile_cache s' = tile_cache s \/
  exists d res, d <> [] /\ TTL.setitem key d now (tile_cache s) = (res, tile_cache s') /\
    r = Ok (match res with Ok _ => TileResponse d | Err _ => HTTPError 500 end).
Proof.
  intros endpoint_name key. apply get_tile_miss_cache_cases.
Qed.

(** A request for an endpoint name the settings do not know (and for
    which no transformer exists) that misses the cache is answered with
    500, and changes nothing: [get_transformer] raises ValueError before
    any state is touched. *)
Theorem get_tile_unknown_endpoint_500 now z x y endpoint (s : A) e :
  let endpoint_name := match truthy_str endpoint with
                       | Some e => e | None => DEFAULT_ENDPOINT settings end in
  0 <= z -> 0 <= x -> 0 <= y ->
  TTL.contains (cache_key endpoint_name z x y) now (tile_cache s) = false ->
  endpoint_name ∉ dom (transformers s) ->
  get_endpoint settings (Some endpoint_name) = Err e ->
  get_tile env pil settings http_get now z x y endpoint s = (Ok (HTTPError 500), s).
Proof.
  intros endpoint_name Hz Hx Hy Hc Hn He.
  assert (Hg : get_transformer settings (Some endpoint_name) s = (Err e, s)).
  { assert (Hr : resolve_name settings (Some endpoint_name) = endpoint_name)
      by exact (resolve_name_twice settings endpoint).
    unfold get_transformer. rewrite Hr. unfold sbind, sget.
    rewrite bool_decide_eq_false_2 by exact Hn.
    unfold slift. rewrite He. reflexivity. }
  unfold get_tile, stry.
  destruct (Z.ltb_spec z 0); [lia|]. destruct (Z.ltb_spec x 0); [lia|].
  destruct (Z.ltb_spec y 0); [lia|]. cbn [orb]. cbv beta iota.
  unfold sbind at 1, sget at 1. fold endpoint_name. rewrite Hc.
  unfold sbind at 1. rewrite Hg. reflexivity.
Qed.

End ServingFacts.

(** [get_transformer] only ever adds a transformer: existing ones are
    kept as they are; once it has succeeded, the resolved name
    [endpoint_name or settings.DEFAULT_ENDPOINT] has a transformer and a
    second call with the same argument changes nothing; when it raises,
    the state is unchanged. *)
Theorem get_transformer_memo {F CRS Proj} `{FloatOps F} (settings : Settings) n
    (s : AppState F CRS Proj) r s' :
  get_transformer settings n s = (r, s') ->
  (forall m t, transformers s !! m = Some t -> transformers s' !! m = Some t) /\
  (r = Ok tt -> resolve_name settings n ∈ dom (transformers s') /\
                get_transformer settings n s' = (Ok tt, s')) /\
  (r <> Ok tt -> s' = s).
Proof.
  unfold get_transformer. set (name := resolve_name settings n). unfold sbind, sget at 1.
  destruct (bool_decide (name ∈ dom (transformers s))) eqn:Hb.
  { apply bool_decide_eq_true in Hb. intros Hr. inversion Hr; subst.
    split; [auto|split; [|congruence]]. intros _. split; [exact Hb|].
    unfold sget. rewrite bool_decide_eq_true_2 by exact Hb. reflexivity. }
  apply bool_decide_eq_false in Hb. unfold slift.
  destruct (get_endpoint settings (Some name)) as [ep|e]; [|intros Hr; inversion Hr; subst; split; [auto|split; [discriminate|auto]]].
  destruct (get_coordinate_system (coordinate_system ep)) as [cfg|];
    [|intros Hr; inversion Hr; subst; split; [auto|split; [discriminate|auto]]].
  unfold sput. intros Hr. inversion Hr; subst. cbn [transformers mkA].
  assert (Hd : name ∈ dom (<[name:=new_transformer cfg]> (transformers s))).
  { rewrite dom_insert_L. set_solver. }
  split; [|split; [|congruence]].
  - intros m t Hm. rewrite lookup_insert_ne; [exact Hm|].
    intros ->. apply Hb. apply elem_of_dom. eauto.
  - intros _. split; [exact Hd|]. unfold sget. rewrite bool_decide_eq_true_2 by exact Hd.
    reflexivity.
Qed.

Lemma get_tile_negative_400_witness :
  let pil := {| image_open := fun _ => Ok tt; image_size := fun _ => (256, 256);
                image_crop := fun i _ => Ok i; image_resize_lanczos := fun i _ => Ok i;
                image_save_png := fun _ => Ok [Byte.x01] |} in
  let http_get := fun (_ : WMTSEndpoint) (_ : TransformedTileCoordinate) =>
                    Err (A := HttpResponse) TransportError in
  let s := mkA (F:=Q) (CRS:=unit) (Proj:=unit) (TTL.empty 1000 3600) ∅ ∅ ∅ in
  get_tile offline_env pil default_settings http_get 0 10 (-1) 316 (Some "latvia") s =
    (Ok (HTTPError 400), s).
Proof.
  intros pil http_get s.
  apply (get_tile_negative_400 offline_env pil default_settings http_get 0 10 (-1) 316).
  right; left; lia.
Defined.

Lemma get_tile_cache_hit_witness :
  let pil := {| image_open := fun _ => Ok tt; image_size := fun _ => (256, 256);
                image_crop := fun i _ => Ok i; image_resize_lanczos := fun i _ => Ok i;
                image_save_png := fun _ => Ok [Byte.x01] |} in
  let http_get := fun (_ : WMTSEndpoint) (_ : TransformedTileCoordinate) =>
                    Err (A := HttpResponse) TransportError in
  let key := cache_key "latvia" 10 580 316 in
  let c := snd (TTL.setitem key [Byte.x01] 0 (TTL.empty 1000 3600)) in
  let s := mkA (F:=Q) (CRS:=unit) (Proj:=unit) c ∅ ∅ ∅ in
  get_tile offline_env pil default_settings http_get 5 10 580 316 (Some "latvia") s =
    (Ok (match fst (TTL.getitem key 5 c) with
         | Ok v => TileResponse v | Err _ => HTTPError 500 end),
     mkA (snd (TTL.getitem key 5 c)) ∅ ∅ ∅).
Proof.
  intros pil http_get key c s.
  apply (get_tile_cache_hit offline_env pil default_settings http_get 5 10 580 316 (Some "latvia")
           s (fst (TTL.getitem key 5 c)) (snd (TTL.getitem key 5 c)));
    [lia | lia | lia | vm_compute; reflexivity | vm_compute; reflexivity].
Defined.

Lemma get_tile_miss_cache_witness :
  let pil := {| image_open := fun _ => Ok tt; image_size := fun _ => (256, 256);
                image_crop := fun i _ => Ok i; image_resize_lanczos := fun i _ => Ok i;
                image_save_png := fun _ => Ok [Byte.x01] |} in
  let http_get := fun (_ : WMTSEndpoint) (_ : TransformedTileCoordinate) =>
                    Err (A := HttpResponse) TransportError in
  let s := mkA (F:=Q) (CRS:=unit) (Proj:=unit) (TTL.empty 1000 3600) ∅ ∅ ∅ in
  let p := get_tile offline_env pil default_settings http_get 0 10 580 316 (Some "latvia") s in
  tile_cache (snd p) = tile_cache s \/
  exists d res, d <> [] /\
    TTL.setitem (cache_key "latvia" 10 580 316) d 0 (tile_cache s) = (res, tile_cache (snd p)) /\
    fst p = Ok (match res with Ok _ => TileResponse d | Err _ => HTTPError 500 end).
Proof.
  intros pil http_get s p.
  apply (get_tile_miss_cache offline_env pil default_settings http_get 0 10 580 316 (Some "latvia")
           s (fst p) (snd p));
    vm_compute; reflexivity.
Defined.

Lemma get_tile_unknown_endpoint_500_witness :
  let pil := {| image_open := fun _ => Ok tt; image_size := fun _ => (256, 256);
                image_crop := fun i _ => Ok i; image_resize_lanczos := fun i _ => Ok i;
                image_save_png := fun _ => Ok [Byte.x01] |} in
  let http_get := fun (_ : WMTSEndpoint) (_ : TransformedTileCoordinate) =>
                    Err (A := HttpResponse) TransportError in
  let s := mkA (F:=Q) (CRS:=unit) (Proj:=unit) (TTL.empty 1000 3600) ∅ ∅ ∅ in
  get_tile offline_env pil default_settings http_get 0 10 580 316 (Some "nowhere") s =
    (Ok (HTTPError 500), s).
Proof.
  intros pil http_get s.
  apply (get_tile_unknown_endpoint_500 offline_env pil default_settings http_get 0 10 580 316
           (Some "nowhere") s ValueError);
    [lia | lia | lia | vm_compute; reflexivity
    | apply (bool_decide_unpack _); vm_compute; reflexivity | vm_compute; reflexivity].
Defined.

Lemma get_transformer_memo_witness :
  let s := mkA (F:=Q) (CRS:=unit) (Proj:=unit) (TTL.empty 1000 3600) ∅ ∅ ∅ in
  let p := get_transformer default_settings (Some "") s in
  (forall m t, transformers s !! m = Some t -> transformers (snd p) !! m = Some t) /\
  (fst p = Ok tt -> resolve_name default_settings (Some "") ∈ dom (transformers (snd p)) /\
                    get_transformer default_settings (Some "") (snd p) = (Ok tt, snd p)) /\
  (fst p <> Ok tt -> snd p = s).
Proof.
  intros s p.
  apply (get_transformer_memo default_settings (Some "") s (fst p) (snd p)).
  vm_compute. reflexivity.
Defined.

(** ** Quadrants of [transform_tile] *)

Section Quadrants.
Context {F CRS Proj : Type} `{FloatOps F} (env : Env F CRS Proj).

Lemma locate_cell_quadrants corners ps org tw th c r qx qy :
  locate_cell corners ps org tw th = Ok (c, r, qx, qy) ->
  0 <= qx <= Z.max 0 (tw / 256 - 1) /\ 0 <= qy <= Z.max 0 (tw / 256 - 1).
Proof.
  unfold locate_cell. destruct org as [ox oy]. destruct corners as [|[x0 y0] rest]; [discriminate|].
  intros Hl.
  repeat match type of Hl with
  | context [rbind ?m _] => destruct m; cbn [rbind] in Hl; [|discriminate]
  end.
  injection Hl as <- <- <- <-. lia.
Qed.

Lemma matrix_parameters_width t zl ps org tw th :
  matrix_parameters (F:=F) (CRS:=CRS) (Proj:=Proj) t zl = Ok (ps, org, tw, th) ->
  tw = 512 \/ exists tm, get_tile_matrix t zl = Some tm /\ tm_tile_width tm = tw.
Proof.
  unfold matrix_parameters. destruct (get_tile_matrix t zl) as [tm|].
  - intros Hm. inversion Hm; subst. right. eauto.
  - intros Hm. left.
    repeat match type of Hm with
    | context [rbind ?m _] => destruct m; cbn [rbind] in Hm; [|discriminate]
    end.
    inversion Hm; subst; reflexivity.
Qed.

Lemma matrix_parameters_width_eq t zl ps org tw th :
  matrix_parameters (F:=F) (CRS:=CRS) (Proj:=Proj) t zl = Ok (ps, org, tw, th) ->
  tw = match get_tile_matrix t zl with Some tm => tm_tile_width tm | None => 512 end.
Proof.
  intros Hm. destruct (matrix_parameters_width _ _ _ _ _ _ Hm) as [-> | (tm & Htm & <-)].
  - unfold matrix_parameters in Hm. destruct (get_tile_matrix t zl) as [tm|]; [|reflexivity].
    inversion Hm. reflexivity.
  - rewrite Htm. reflexivity.
Qed.

(** The quadrant [transform_tile] picks inside a WMTS tile is clamped to
    [0 .. tiles_per_wmts_tile - 1] on both axes, where
    [tiles_per_wmts_tile] is the TileWidth of the matrix loaded for the
    resolved zoom divided by 256, or 512 / 256 = 2 when that zoom has no
    loaded matrix (the same bound is used for both axes).  So with
    512-pixel matrices both quadrants are 0 or 1, and with 256-pixel
    matrices both are 0.  (The WebMercatorQuad passthrough answers 0 and
    0.) *)
Theorem transform_tile_quadrants (w w' : World F CRS Proj) tile r :
  transform_tile env tile w = (Ok r, w') ->
  let wd := match get_tile_matrix (transformer w')
                    (resolve_zoom (target_system_config (transformer w)) (tile_z tile)) with
            | Some tm => tm_tile_width tm
            | None => 512
            end in
  0 <= quadrant_x r <= Z.max 0 (wd / 256 - 1) /\ 0 <= quadrant_y r <= Z.max 0 (wd / 256 - 1).
Proof.
  intros Ht wd. unfold transform_tile in Ht.
  unfold sbind at 1 in Ht. unfold sget at 1 in Ht.
  destruct (String.eqb (name (target_system_config (transformer w))) "WebMercatorQuad").
  { apply sret_Ok in Ht as [-> _]. cbn. lia. }
  peel Ht. peel Ht. peel Ht. peel Ht. peel Ht.
  destruct a3 as [[[ps org] tw] th].
  peel Ht. peel Ht. peel Ht. peel Ht.
  destruct a6 as [[[c rw] qx] qy].
  apply sret_Ok in Ht as [-> ->].
  unfold sget in Hm2. inversion Hm2; subst a2 s2.
  apply slift_Ok in Hm3 as [Hmp ->]. apply slift_Ok in Hm4 as [_ ->].
  destruct (transformer_to_target (transformer s1)); [|discriminate].
  apply sret_Ok in Hm5 as [_ ->]. apply slift_Ok in Hm6 as [_ ->].
  apply slift_Ok in Hm7 as [Hl ->].
  apply locate_cell_quadrants in Hl. apply matrix_parameters_width_eq in Hmp.
  subst wd. rewrite <- Hmp. cbn [quadrant_x quadrant_y]. exact Hl.
Qed.

End Quadrants.

Lemma transform_tile_quadrants_witness :
  let w := fresh_world (F:=Q) (CRS:=unit) (Proj:=unit) cfg_EPSG_3857 in
  let p := transform_tile offline_env tile_10_580_316 w in
  let r := {| tile_matrix := "EPSG:3857:10"; tile_col := 128; tile_row := 127;
              quadrant_x := 0; quadrant_y := 1 |} in
  let wd := match get_tile_matrix (transformer (snd p)) (resolve_zoom cfg_EPSG_3857 10) with
            | Some tm => tm_tile_width tm
            | None => 512
            end in
  0 <= quadrant_x r <= Z.max 0 (wd / 256 - 1) /\ 0 <= quadrant_y r <= Z.max 0 (wd / 256 - 1).
Proof.
  intros w p r.
  apply (transform_tile_quadrants offline_env w (snd p) tile_10_580_316 r).
  vm_compute. reflexivity.
Defined.

(** ** The EPSG code of a SupportedCRS string *)

Lemma str_empty_app s : "" +:+ s = s.
Proof. reflexivity. Qed.

Lemma str_Z_parts n :
  0 <= n -> PyStr.split ":"%char (PyStr.str_Z n) = [PyStr.str_Z n] /\
            PyStr.int_of_str (PyStr.str_Z n) = Ok n.
Proof.
  intros Hn. split; [|apply int_of_str_str_Z].
  apply split_no_sep, str_Z_nonneg_no_char; [exact Hn|reflexivity].
Qed.

(** The EPSG code read from a TileMatrixSet's SupportedCRS: "EPSG:n" and
    "urn:ogc:def:crs:EPSG::n" give n; in "urn:ogc:def:crs:EPSG:m:n" the
    first integer after "EPSG" wins, so the version field m is returned
    rather than the code n. *)
Theorem epsg_of_supported_crs_forms n m :
  0 <= n -> 0 <= m ->
  epsg_of_supported_crs ("EPSG:" +:+ PyStr.str_Z n) = Some n /\
  epsg_of_supported_crs ("urn:ogc:def:crs:EPSG::" +:+ PyStr.str_Z n) = Some n /\
  epsg_of_supported_crs ("urn:ogc:def:crs:EPSG:" +:+ PyStr.str_Z m +:+ ":" +:+ PyStr.str_Z n)
    = Some m.
Proof.
  intros Hn Hm. destruct (str_Z_parts n Hn) as [Sn In]. destruct (str_Z_parts m Hm) as [Sm Im].
  split; [|split]; unfold epsg_of_supported_crs.
  - simpl. rewrite !str_empty_app, Sn, bool_decide_eq_false_2 by discriminate.
    simpl. rewrite In. reflexivity.
  - simpl. rewrite !str_empty_app, Sn. simpl. rewrite In. reflexivity.
  - simpl. rewrite !str_empty_app.
    change (":" +:+ PyStr.str_Z n) with (String.String ":" (PyStr.str_Z n)).
    rewrite split_app_sep by (apply str_Z_nonneg_no_char; [exact Hm|reflexivity]).
    rewrite Sn. simpl. rewrite Im. reflexivity.
Qed.

Lemma epsg_of_supported_crs_forms_witness :
  epsg_of_supported_crs ("EPSG:" +:+ PyStr.str_Z 3059) = Some 3059 /\
  epsg_of_supported_crs ("urn:ogc:def:crs:EPSG::" +:+ PyStr.str_Z 3059) = Some 3059 /\
  epsg_of_supported_crs ("urn:ogc:def:crs:EPSG:" +:+ PyStr.str_Z 6 +:+ ":" +:+ PyStr.str_Z 3059)
    = Some 6.
Proof. apply (epsg_of_supported_crs_forms 3059 6); lia. Defined.

(** ** Looking up a TileMatrixSet in the capabilities document *)

Section FindTms.
Context {F : Type} `{FloatOps F}.

Lemma find_tms_skip (pre l : list TileMatrixSetElem) id :
  Forall (fun p => tmse_identifier p <> Some id) pre ->
  find_tms (F:=F) (pre ++ l) id = find_tms l id.
Proof.
  induction pre as [|p pre IH]; intros Hpre; [reflexivity|].
  inversion Hpre as [|? ? Hp Hrest]; subst. simpl.
  destruct (tmse_identifier p) as [t|] eqn:Ht; [|apply IH, Hrest].
  destruct (String.eqb_spec t id) as [->|_]; [congruence|]. apply IH, Hrest.
Qed.

(** [parse_tile_matrix_set] answers with the first TileMatrixSet whose
    Identifier is the requested one: the elements before it are skipped,
    the ones after it are never looked at, and if that first match fails
    to parse the answer is None (a later, well-formed match is not
    tried).  With no match, or a document that does not parse, it is
    None. *)
Theorem parse_tile_matrix_set_first (fromstring : string -> result XmlDoc) xml id doc :
  fromstring xml = Ok doc ->
  (forall pre e rest,
     doc_tile_matrix_sets doc = pre ++ e :: rest ->
     Forall (fun p => tmse_identifier p <> Some id) pre ->
     tmse_identifier e = Some id ->
     parse_tile_matrix_set (F:=F) fromstring xml id =
       match _parse_tile_matrix_set_element e with Ok t => Some t | Err _ => None end) /\
  (Forall (fun p => tmse_identifier p <> Some id) (doc_tile_matrix_sets doc) ->
   parse_tile_matrix_set (F:=F) fromstring xml id = None).
Proof.
  intros Hx. unfold parse_tile_matrix_set. rewrite Hx. cbn [rbind]. split.
  - intros pre e rest Hd Hpre He. rewrite Hd, find_tms_skip by exact Hpre.
    simpl. rewrite He, String.eqb_refl.
    destruct (_parse_tile_matrix_set_element e); reflexivity.
  - intros Hall. rewrite <- (app_nil_r (doc_tile_matrix_sets doc)).
    rewrite find_tms_skip by exact Hall. reflexivity.
Qed.

End FindTms.

Lemma parse_tile_matrix_set_first_witness :
  let tms id := {| tmse_identifier := Some id; tmse_supported_crs := Some "EPSG:3059";
                   tmse_well_known_scale_set := None; tmse_tile_matrices := [] |} in
  let doc := {| doc_tile_matrix_sets := [tms "A"; tms "LKS_LVM"; tms "LKS_LVM"];
                doc_layers := [] |} in
  let fromstring := fun (_ : string) => Ok doc in
  (forall pre e rest,
     doc_tile_matrix_sets doc = pre ++ e :: rest ->
     Forall (fun p => tmse_identifier p <> Some "LKS_LVM") pre ->
     tmse_identifier e = Some "LKS_LVM" ->
     parse_tile_matrix_set (F:=Q) fromstring "<xml/>" "LKS_LVM" =
       match _parse_tile_matrix_set_element e with Ok t => Some t | Err _ => None end) /\
  (Forall (fun p => tmse_identifier p <> Some "LKS_LVM") (doc_tile_matrix_sets doc) ->
   parse_tile_matrix_set (F:=Q) fromstring "<xml/>" "LKS_LVM" = None).
Proof.
  intros tms doc fromstring.
  apply (parse_tile_matrix_set_first fromstring "<xml/>" "LKS_LVM" doc). reflexivity.
Defined.

(** ** [_capabilities_cache] *)

Lemma caps_key_distinct (u l id : string) : u +:+ "#layer#" +:+ l <> u +:+ "#tms#" +:+ id.
Proof.
  induction u as [|c u IH]; [discriminate|].
  intros Heq. apply IH. change (String.String c (u +:+ "#layer#" +:+ l) =
                               String.String c (u +:+ "#tms#" +:+ id)) in Heq.
  injection Heq as Heq. exact Heq.
Qed.

Lemma capabilities_cache_mk {F CRS Proj} (t : CoordinateTransformer F CRS Proj) c :
  capabilities_cache {| transformer := t; capabilities_cache := c |} = c.
Proof. reflexivity. Qed.

Section CapsCache.
Context {F CRS Proj : Type} `{FloatOps F} (env : Env F CRS Proj).

(** After [get_wmts_info] has returned a TileMatrixSet and a layer, the
    single-item lookups [get_tile_matrix_set] and [get_layer_info] for the
    same URL and identifiers answer with exactly those objects from
    [_capabilities_cache], without a fetch and without changing any
    state (the two cache keys never collide). *)
Theorem get_wmts_info_then_cached url l id (w w' : World F CRS Proj) li tms :
  get_wmts_info env url l id w = (Ok (li, tms), w') ->
  (forall t, tms = Some t -> get_tile_matrix_set env url id w' = (Ok (Some (CachedTms t)), w')) /\
  (forall x, li = Some x -> get_layer_info env url l w' = (Ok (Some (CachedLayer x)), w')).
Proof.
  intros Hw. unfold get_wmts_info in Hw. unfold sbind at 1, slift at 1 in Hw.
  destruct (fetch_capabilities env url) as [xml|e]; [|discriminate].
  remember (parse_layer_info (xml_fromstring env) xml l) as li0 eqn:Eli.
  remember (parse_tile_matrix_set (xml_fromstring env) xml id) as tms0 eqn:Etms.
  cbv beta iota delta [sbind upd_cache smodify sret] in Hw.
  inversion Hw; subst li tms w'. clear Hw. split.
  - intros t ->. unfold get_tile_matrix_set, sbind at 1, sget at 1. rewrite capabilities_cache_mk.
    rewrite lookup_insert_eq. reflexivity.
  - intros x ->. unfold get_layer_info, sbind at 1, sget at 1. rewrite capabilities_cache_mk.
    destruct tms0 as [t|].
    + rewrite lookup_insert_ne by (apply not_eq_sym, caps_key_distinct). rewrite lookup_insert_eq. reflexivity.
    + rewrite lookup_insert_eq. reflexivity.
Qed.

(** [get_tile_matrix_set] and [get_layer_info] remember only answers
    that are not None: a None answer leaves the state unchanged (so the
    next call fetches again), and after an answer [Some v] the next call
    with the same arguments returns [Some v] without fetching. *)
Theorem capabilities_lookup_memo url id (w w' : World F CRS Proj) r :
  (get_tile_matrix_set env url id w = (Ok r, w') ->
   (r = None -> w' = w) /\
   (forall v, r = Some v -> get_tile_matrix_set env url id w' = (Ok (Some v), w'))) /\
  (get_layer_info env url id w = (Ok r, w') ->
   (r = None -> w' = w) /\
   (forall v, r = Some v -> get_layer_info env url id w' = (Ok (Some v), w'))).
Proof.
  split.
  - unfold get_tile_matrix_set at 1, sbind at 1, sget at 1.
    destruct (capabilities_cache w !! _) as [v0|] eqn:Hl.
    + intros Hr. inversion Hr; subst. split; [discriminate|].
      intros v [= ->]. unfold get_tile_matrix_set, sbind at 1, sget at 1. rewrite Hl. reflexivity.
    + unfold sbind at 1, slift at 1. destruct (fetch_capabilities env url) as [xml|e]; [|discriminate].
      destruct (parse_tile_matrix_set _ xml id) as [t|].
      * cbv beta iota delta [sbind upd_cache smodify sret]. intros Hr. inversion Hr; subst.
        split; [discriminate|]. intros v [= <-].
        unfold get_tile_matrix_set, sbind at 1, sget at 1. rewrite capabilities_cache_mk.
        rewrite lookup_insert_eq. reflexivity.
      * intros Hr. inversion Hr; subst. split; [auto|discriminate].
  - unfold get_layer_info at 1, sbind at 1, sget at 1.
    destruct (capabilities_cache w !! _) as [v0|] eqn:Hl.
    + intros Hr. inversion Hr; subst. split; [discriminate|].
      intros v [= ->]. unfold get_layer_info, sbind at 1, sget at 1. rewrite Hl. reflexivity.
    + unfold sbind at 1, slift at 1. destruct (fetch_capabilities env url) as [xml|e]; [|discriminate].
      destruct (parse_layer_info _ xml id) as [t|].
      * cbv beta iota delta [sbind upd_cache smodify sret]. intros Hr. inversion Hr; subst.
        split; [discriminate|]. intros v [= <-].
        unfold get_layer_info, sbind at 1, sget at 1. rewrite capabilities_cache_mk.
        rewrite lookup_insert_eq. reflexivity.
      * intros Hr. inversion Hr; subst. split; [auto|discriminate].
Qed.

End CapsCache.

Lemma get_wmts_info_then_cached_witness :
  let w := fresh_world (F:=Q) (CRS:=unit) (Proj:=unit) cfg_LKS_LVM in
  let p := get_wmts_info lvm_env LVM_WMTS_URL "public:Topo10DTM" "LKS_LVM" w in
  let li := parse_layer_info (xml_fromstring lvm_env) "<Capabilities/>" "public:Topo10DTM" in
  let tms := parse_tile_matrix_set (xml_fromstring lvm_env) "<Capabilities/>" "LKS_LVM" in
  (forall t, tms = Some t ->
     get_tile_matrix_set lvm_env LVM_WMTS_URL "LKS_LVM" (snd p) = (Ok (Some (CachedTms t)), snd p)) /\
  (forall x, li = Some x ->
     get_layer_info lvm_env LVM_WMTS_URL "public:Topo10DTM" (snd p) = (Ok (Some (CachedLayer x)), snd p)).
Proof.
  intros w p li tms.
  apply (get_wmts_info_then_cached lvm_env LVM_WMTS_URL "public:Topo10DTM" "LKS_LVM" w (snd p) li tms).
  vm_compute. reflexivity.
Defined.

Lemma capabilities_lookup_memo_witness :
  let w := fresh_world (F:=Q) (CRS:=unit) (Proj:=unit) cfg_LKS_LVM in
  let p := get_tile_matrix_set lvm_env LVM_WMTS_URL "LKS_LVM" w in
  let r := match fst p with Ok r => r | Err _ => None end in
  (r = None -> snd p = w) /\
  (forall v, r = Some v -> get_tile_matrix_set lvm_env LVM_WMTS_URL "LKS_LVM" (snd p) = (Ok (Some v), snd p)).
Proof.
  intros w p r.
  apply (proj1 (capabilities_lookup_memo lvm_env LVM_WMTS_URL "LKS_LVM" w (snd p) r)).
  vm_compute. reflexivity.
Defined.

(** ** crs_fetcher.py *)

(** [get_crs_info] caches exactly its non-None answers: a None answer
    (failed request, status other than 200, a body that is no JSON
    object) leaves [_crs_cache] unchanged, and after an answer
    [Some info] the code maps to [info] and later calls return it
    without any request, whatever the server would answer. *)
Theorem get_crs_info_cache get_json code (c c' : CRSCache) r :
  get_crs_info get_json code c = (Ok r, c') ->
  (r = None -> c' = c) /\
  (forall info, r = Some info ->
     c' !! code = Some info /\
     forall get_json', get_crs_info get_json' code c' = (Ok (Some info), c')).
Proof.
  unfold get_crs_info at 1, sbind at 1, sget at 1.
  destruct (c !! code) as [i0|] eqn:Hl.
  - intros Hr. inversion Hr; subst. split; [discriminate|].
    intros info [= <-]. split; [exact Hl|]. intros g.
    unfold get_crs_info, sbind, sget. rewrite Hl. reflexivity.
  - destruct (fetch_crs_info get_json code) as [i|].
    + cbv beta iota delta [sbind sput sret]. intros Hr. inversion Hr; subst.
      split; [discriminate|]. intros info [= <-].
      split; [apply lookup_insert_eq|]. intros g.
      unfold get_crs_info, sbind, sget. rewrite lookup_insert_eq. reflexivity.
    + intros Hr. inversion Hr; subst. split; [auto|discriminate].
Qed.

(** [fetch_crs_info] answers only for status 200 with a JSON object, and
    the CRSInfo it builds is for the requested code: authority "EPSG",
    an authority code that reads back as the EPSG code, no Proj4 text
    and no ESRI WKT (these are never filled in from the JSON), and a WKT
    that is either None or a truthy value. *)
Theorem fetch_crs_info_fields get_json code info :
  fetch_crs_info get_json code = Some info ->
  (exists d, get_json code = Ok (200, Ok (JDict d))) /\
  crs_epsg_code info = code /\ authority info = "EPSG" /\
  PyStr.int_of_str (authority_code info) = Ok code /\
  proj4_text info = None /\ esri_wkt info = JNone /\
  (wkt info = JNone \/ json_truthy (wkt info) = true).
Proof.
  unfold fetch_crs_info. destruct (get_json code) as [[status body]|]; [|discriminate].
  destruct (Z.eqb_spec status 200) as [->|]; [|discriminate].
  destruct body as [data|]; cbn [rbind]; [|discriminate].
  destruct data as [| | |d]; cbn; try discriminate.
  intros Hi. injection Hi as <-. cbn.
  split; [eauto|]. do 2 (split; [reflexivity|]). split; [apply int_of_str_str_Z|].
  split; [reflexivity|]. split; [reflexivity|].
  destruct (json_truthy (dict_get d "wkt")) eqn:Ht; auto.
Qed.

(** crs_fetcher's [get_proj4_string] writes only into a CRSInfo that is
    already cached: for a code absent from [_crs_cache] nothing is
    remembered (every call requests again).  For a cached code, a
    non-empty Proj4 string it returns is stored in that CRSInfo, and
    later calls return it without any request. *)
Theorem crs_get_proj4_string_cache get_text code (c c' : CRSCache) r :
  crs_get_proj4_string get_text code c = (Ok r, c') ->
  (c !! code = None -> c' = c) /\
  (forall p, r = Some p -> p <> "" -> is_Some (c !! code) ->
     forall get_text', crs_get_proj4_string get_text' code c' = (Ok (Some p), c')).
Proof.
  unfold crs_get_proj4_string at 1, sbind at 1, sget at 1.
  destruct (obind (fun i => truthy_str (proj4_text i)) (c !! code)) as [p0|] eqn:Hc.
  - intros Hr. inversion Hr; subst. split.
    + intros Hn. rewrite Hn in Hc. discriminate.
    + intros p [= <-] _ _ g. unfold crs_get_proj4_string, sbind, sget. rewrite Hc. reflexivity.
  - destruct (fetch_proj4_string get_text code) as [q|] eqn:Hf; cbn [truthy_str].
    2:{ intros Hr. inversion Hr; subst. split; [auto|discriminate]. }
    destruct (decide (q = "")) as [->|Hq].
    { intros Hr. inversion Hr; subst. split; [auto|]. intros p [= <-] Hp. congruence. }
    destruct (c !! code) as [i|] eqn:Hl.
    + cbv beta iota delta [sbind sput sret]. intros Hr. inversion Hr; subst.
      split; [discriminate|]. intros p [= <-] _ _ g.
      unfold crs_get_proj4_string, sbind, sget. rewrite lookup_insert_eq. cbn.
      destruct (decide (q = "")); [contradiction|]. reflexivity.
    + intros Hr. inversion Hr; subst. split; [auto|]. intros p _ _ [? Hs]. discriminate.
Qed.

Lemma get_crs_info_cache_witness :
  let gj := fun (_ : Z) => Ok (200, Ok (JDict [("name", JStr "LKS-92 / Latvia TM")])) in
  let p := get_crs_info gj 3059 ∅ in
  let r := match fst p with Ok r => r | Err _ => None end in
  (r = None -> snd p = ∅) /\
  (forall info, r = Some info ->
     snd p !! 3059 = Some info /\
     forall get_json', get_crs_info get_json' 3059 (snd p) = (Ok (Some info), snd p)).
Proof.
  intros gj p r. apply (get_crs_info_cache gj 3059 ∅ (snd p) r). vm_compute. reflexivity.
Defined.

Lemma fetch_crs_info_fields_witness :
  let gj := fun (_ : Z) => Ok (200, Ok (JDict [("name", JStr "LKS-92 / Latvia TM")])) in
  let info := {| crs_epsg_code := 3059; crs_name := JStr "LKS-92 / Latvia TM";
                 proj4_text := None; wkt := JNone; esri_wkt := JNone; authority := "EPSG";
                 authority_code := "3059"; area_of_use := JNone; scope := JNone |} in
  (exists d, gj 3059 = Ok (200, Ok (JDict d))) /\
  crs_epsg_code info = 3059 /\ authority info = "EPSG" /\
  PyStr.int_of_str (authority_code info) = Ok 3059 /\
  proj4_text info = None /\ esri_wkt info = JNone /\
  (wkt info = JNone \/ json_truthy (wkt info) = true).
Proof.
  intros gj info. apply (fetch_crs_info_fields gj 3059 info). vm_compute. reflexivity.
Defined.

Lemma crs_get_proj4_string_cache_witness :
  let gj := fun (_ : Z) => Ok (200, Ok (JDict [("name", JStr "LKS-92 / Latvia TM")])) in
  let c := snd (get_crs_info gj 3059 ∅) in
  let gt := fun (_ : Z) => Ok (200, " +proj=tmerc +lat_0=0 +lon_0=24 +k=0.9996 ") in
  let p := crs_get_proj4_string gt 3059 c in
  let r := match fst p with Ok r => r | Err _ => None end in
  (c !! 3059 = None -> snd p = c) /\
  (forall s, r = Some s -> s <> "" -> is_Some (c !! 3059) ->
     forall get_text', crs_get_proj4_string get_text' 3059 (snd p) = (Ok (Some s), snd p)).
Proof.
  intros gj c gt p r. apply (crs_get_proj4_string_cache gt 3059 c (snd p) r).
  vm_compute. reflexivity.
Defined.

(** ** The tile request URL of wmts_client.py *)


Lemma contains_char_app (c : ascii) a b :
  PyStr.contains (String.String c EmptyString) (a +:+ b) =
  PyStr.contains (String.String c EmptyString) a || PyStr.contains (String.String c EmptyString) b.
Proof.
  induction a as [|x a IH]; [reflexivity|].
  change (String.String x a +:+ b) with (String.String x (a +:+ b)).
  simpl. rewrite IH. rewrite !orb_assoc. reflexivity.
Qed.

Lemma hex_digit_safe n : (n < 16)%N -> is_always_safe (hex_digit n) = true.
Proof.
  intros Hn.
  assert (Hc : n = 0%N \/ n = 1%N \/ n = 2%N \/ n = 3%N \/ n = 4%N \/ n = 5%N \/ n = 6%N \/
               n = 7%N \/ n = 8%N \/ n = 9%N \/ n = 10%N \/ n = 11%N \/ n = 12%N \/
               n = 13%N \/ n = 14%N \/ n = 15%N) by lia.
  repeat destruct Hc as [->|Hc]; try reflexivity. subst. reflexivity.
Qed.

Lemma quote_chars s :
  Forall (fun c => is_always_safe c || Ascii.eqb c ":" || Ascii.eqb c "%" = true)
    (String.list_ascii_of_string (quote ":" s)).
Proof.
  induction s as [|c s IH]; [constructor|].
  simpl. rewrite andb_true_r, orb_false_r.
  destruct (is_always_safe c || Ascii.eqb c ":") eqn:Hs.
  - constructor; [|exact IH]. rewrite Hs. reflexivity.
  - pose proof (N_ascii_bounded c) as Hb.
    repeat constructor; [| |exact IH].
    + rewrite hex_digit_safe; [reflexivity|]. apply N.Div0.div_lt_upper_bound; lia.
    + rewrite hex_digit_safe; [reflexivity|]. apply N.mod_lt; lia.
Qed.

Lemma quote_safe_id s :
  Forall (fun c => is_always_safe c || Ascii.eqb c ":" = true) (String.list_ascii_of_string s) ->
  quote ":" s = s.
Proof.
  induction s as [|c s IH]; intros Hf; [reflexivity|].
  inversion Hf as [|? ? Hc Hrest]; subst. simpl.
  rewrite andb_true_r, orb_false_r. cbv beta in Hc. rewrite Hc. rewrite IH by exact Hrest.
  reflexivity.
Qed.

(** [quote(value, safe=':')] as [fetch_tile] applies it to the layer and
    the TileMatrix identifier: its output consists of letters, digits,
    "_.-~", ':' and '%' only (so never '&', '=', '?', '#' or a space), and
    a value made of those characters other than '%' (such as "LKS_LVM:10"
    or "public:Topo10DTM") is sent unchanged. *)
Theorem quote_spec s :
  Forall (fun c => is_always_safe c || Ascii.eqb c ":" || Ascii.eqb c "%" = true)
    (String.list_ascii_of_string (quote ":" s)) /\
  (Forall (fun c => is_always_safe c || Ascii.eqb c ":" = true) (String.list_ascii_of_string s) ->
   quote ":" s = s).
Proof. split; [apply quote_chars | apply quote_safe_id]. Qed.

Lemma chars_no_char (P : ascii -> bool) (c : ascii) s :
  P c = false -> Forall (fun d => P d = true) (String.list_ascii_of_string s) ->
  PyStr.contains (String.String c EmptyString) s = false.
Proof.
  intros Hc. induction s as [|d s IH]; intros Hd; [reflexivity|].
  inversion Hd; subst. simpl. rewrite IH by assumption.
  destruct (Ascii.eqb_spec c d) as [->|]; [congruence | reflexivity].
Qed.

Lemma quote_no_amp s : PyStr.contains "&" (quote ":" s) = false.
Proof.
  apply (chars_no_char (fun c => is_always_safe c || Ascii.eqb c ":" || Ascii.eqb c "%"));
    [reflexivity | apply quote_chars].
Qed.

Lemma str_Z_no_amp z : PyStr.contains "&" (PyStr.str_Z z) = false.
Proof.
  destruct z as [|p|p]; apply str_N_no_char; reflexivity.
Qed.

Lemma split_concat (sep : ascii) l :
  l <> [] -> Forall (fun x => PyStr.contains (String.String sep EmptyString) x = false) l ->
  PyStr.split sep (String.concat (String.String sep EmptyString) l) = l.
Proof.
  induction l as [|x l IH]; intros Hne Hf; [congruence|].
  inversion Hf as [|? ? Hx Hl]; subst.
  destruct l as [|y l].
  - apply split_no_sep, Hx.
  - change (String.concat (String.String sep EmptyString) (x :: y :: l)) with
      (x +:+ String.String sep (String.concat (String.String sep EmptyString) (y :: l))).
    rewrite split_app_sep by exact Hx. rewrite IH by (discriminate || exact Hl). reflexivity.
Qed.

Lemma query_field_no_amp k v :
  PyStr.contains "&" k = false ->
  (k <> "layer" -> k <> "TileMatrix" -> PyStr.contains "&" v = false) ->
  PyStr.contains "&" (query_field (k, v)) = false.
Proof.
  intros Hk Hv. unfold query_field.
  destruct (String.eqb_spec k "layer"); [|destruct (String.eqb_spec k "TileMatrix")];
    rewrite !contains_char_app, Hk; cbn [orb]; [apply quote_no_amp | apply quote_no_amp | auto].
Qed.

(** The query string of [fetch_tile] splits on '&' back into its
    "key=value" fields, one per parameter in the order of the [params]
    dict, whatever the layer name and the TileMatrix identifier contain
    (they are quoted), provided the values sent unquoted (style,
    coordinate system, format and app id, from the settings) contain no
    '&'; the column and row never do. *)
Theorem fetch_tile_query_fields ep tc :
  PyStr.contains "&" (style ep) = false ->
  PyStr.contains "&" (coordinate_system ep) = false ->
  PyStr.contains "&" (format ep) = false ->
  (forall a, app_id ep = Some a -> PyStr.contains "&" a = false) ->
  PyStr.split "&" (_build_query_string (fetch_tile_params ep tc)) =
    map query_field (fetch_tile_params ep tc).
Proof.
  intros Hs Hc Hf Ha. unfold _build_query_string.
  apply split_concat; [unfold fetch_tile_params; simpl; discriminate|].
  apply Forall_forall. intros x Hx. apply list_elem_of_In, in_map_iff in Hx as ([k v] & <- & Hkv).
  unfold fetch_tile_params in Hkv. apply in_app_iff in Hkv as [Hkv|Hkv].
  - simpl in Hkv. repeat destruct Hkv as [Hkv|Hkv]; try injection Hkv as <- <-; try contradiction;
      apply query_field_no_amp; try reflexivity;
      intros H1 H2; first [congruence | auto using str_Z_no_amp].
  - destruct (truthy_str (app_id ep)) as [a|] eqn:Ht; [|contradiction].
    destruct Hkv as [Hkv|[]]. injection Hkv as <- <-.
    apply query_field_no_amp; [reflexivity|]. intros _ _. apply Ha.
    unfold truthy_str in Ht. destruct (app_id ep) as [a'|]; [|discriminate].
    destruct (decide (a' = "")); congruence.
Qed.

Lemma fetch_tile_query_fields_witness :
  let ep := {| ep_url := LVM_WMTS_URL; ep_layer := "public:Topo10DTM";
               coordinate_system := "LKS_LVM"; app_id := Some "lvmgeo.lvm.lv/";
               style := "raster"; format := "image/vnd.jpeg-png8" |} in
  let tc := {| tile_matrix := "LKS_LVM:10"; tile_col := 5102; tile_row := 3984;
               quadrant_x := 1; quadrant_y := 0 |} in
  PyStr.split "&" (_build_query_string (fetch_tile_params ep tc)) =
    map query_field (fetch_tile_params ep tc).
Proof.
  intros ep tc. apply (fetch_tile_query_fields ep tc); [reflexivity | reflexivity | reflexivity |].
  intros a Ha. inversion Ha. reflexivity.
Defined.

(* ------------------------------------------------------------------ *)
(** The TTL cache stays consistent and within [maxsize]. *)
Section TTLBound.
Context {V : Type}.
Implicit Types (c : TTL.TTLCache V) (d : gmap string V).

Lemma remove_key_In k l k' : In k' (TTL.remove_key k l) <-> In k' l /\ k' <> k.
Proof.
  unfold TTL.remove_key. rewrite filter_In, negb_true_iff, String.eqb_neq. tauto.
Qed.

Lemma remove_key_NoDup k l : NoDup l -> NoDup (TTL.remove_key k l).
Proof. rewrite !NoDup_ListNoDup. apply List.NoDup_filter. Qed.

Lemma remove_key_notin k l : ~ In k l -> TTL.remove_key k l = l.
Proof.
  induction l as [|k' l IH]; simpl; intros Hn; [reflexivity|].
  destruct (String.eqb_spec k' k) as [->|_]; [tauto|]. simpl. f_equal. auto.
Qed.

Lemma map_fst_remove_link k (r : list (string * Z)) :
  map fst (TTL.remove_link k r) = TTL.remove_key k (map fst r).
Proof.
  induction r as [|[k' e] r IH]; simpl; [reflexivity|].
  destruct (String.eqb k' k); simpl; [exact IH|]. f_equal. exact IH.
Qed.

Lemma remove_link_notin k (r : list (string * Z)) :
  ~ In k (map fst r) -> TTL.remove_link k r = r.
Proof.
  induction r as [|[k' e] r IH]; simpl; intros Hn; [reflexivity|].
  destruct (String.eqb_spec k' k) as [->|_]; [tauto|]. simpl. f_equal. auto.
Qed.

Lemma NoDup_snoc (k : string) l : NoDup l -> ~ In k l -> NoDup (l ++ [k]).
Proof.
  rewrite !NoDup_ListNoDup. intros Hl Hk.
  apply (Permutation_NoDup (Permutation_cons_append l k)). constructor; assumption.
Qed.

Lemma wf3_delete k (r : list (string * Z)) d l :
  TTL.wf3 r d l -> TTL.wf3 (TTL.remove_link k r) (delete k d) (TTL.remove_key k l).
Proof.
  intros (Hl & Hr & Hd & Hrl). split; [|split; [|split]].
  - apply remove_key_NoDup, Hl.
  - rewrite map_fst_remove_link. apply remove_key_NoDup, Hr.
  - intros k'. rewrite lookup_delete_is_Some, remove_key_In, Hd. intuition congruence.
  - intros k'. rewrite map_fst_remove_link, !remove_key_In, Hrl. tauto.
Qed.

Lemma size_delete_le k d : (size (delete k d) <= size d)%nat.
Proof. rewrite map_size_delete. destruct (d !! k); cbn; lia. Qed.

Lemma expire_go_wf now r d l r' d' l' :
  TTL.wf3 r d l -> TTL.expire_go now r d l = (r', d', l') ->
  TTL.wf3 r' d' l' /\ (size d' <= size d)%nat.
Proof.
  revert d l. induction r as [|[k e] r IH]; simpl; intros d l Hw Heq.
  - inversion Heq; subst. auto.
  - destruct (now <? e).
    + inversion Heq; subst. auto.
    + assert (Hw' : TTL.wf3 r (delete k d) (TTL.remove_key k l)).
      { pose proof (wf3_delete k _ _ _ Hw) as H. simpl in H.
        rewrite String.eqb_refl in H. simpl in H.
        rewrite remove_link_notin in H; [exact H|].
        destruct Hw as (_ & Hr & _). simpl in Hr. apply NoDup_ListNoDup in Hr.
        inversion Hr. assumption. }
      destruct (IH _ _ Hw' Heq) as [H1 H2]. split; [exact H1|].
      pose proof (size_delete_le k d). lia.
Qed.

Lemma expire_wf now c :
  TTL.well_formed c ->
  TTL.well_formed (TTL.expire now c) /\ (size (TTL.data (TTL.expire now c)) <= size (TTL.data c))%nat /\
  TTL.maxsize (TTL.expire now c) = TTL.maxsize c.
Proof.
  unfold TTL.expire. destruct (TTL.expire_go now _ _ _) as [[r d] l] eqn:He.
  intros Hw. destruct (expire_go_wf _ _ _ _ _ _ _ Hw He). auto.
Qed.

Lemma popitem_wf now c r c' :
  TTL.well_formed c -> TTL.popitem now c = (r, c') ->
  TTL.well_formed c' /\ TTL.maxsize c' = TTL.maxsize c /\
  (size (TTL.data c') <= size (TTL.data c))%nat /\
  (r = Ok tt -> (size (TTL.data c') < size (TTL.data c))%nat).
Proof.
  intros Hw. unfold TTL.popitem.
  destruct (expire_wf now c Hw) as (Hw1 & Hs1 & Hm1).
  remember (TTL.expire now c) as c1.
  destruct (TTL.links c1) as [|k l] eqn:Hl; intros Heq; inversion Heq; subst r c'; clear Heq.
  - split; [exact Hw1|]. split; [exact Hm1|]. split; [lia|discriminate].
  - assert (Hk : is_Some (TTL.data c1 !! k)).
    { destruct Hw1 as (_ & _ & Hd & _). apply Hd. rewrite Hl. left. reflexivity. }
    pose proof (map_size_delete_Some _ _ Hk) as Hsz.
    assert (size (TTL.data c1) <> 0%nat).
    { rewrite map_size_non_empty_iff. intros He. rewrite He, lookup_empty in Hk.
      destruct Hk as [? Hk]. discriminate. }
    split; [|split; [exact Hm1|]].
    + pose proof (wf3_delete k _ _ _ Hw1) as Hd. rewrite Hl in Hd. exact Hd.
    + simpl. split; [|intros _]; lia.
Qed.

Lemma make_room_wf fuel now c r c' :
  TTL.well_formed c -> TTL.make_room fuel now c = (r, c') ->
  TTL.well_formed c' /\ TTL.maxsize c' = TTL.maxsize c /\
  (size (TTL.data c') <= size (TTL.data c))%nat /\
  (r = Ok tt -> (size (TTL.data c) < fuel)%nat -> 1 <= TTL.maxsize c ->
   Z.of_nat (size (TTL.data c')) + 1 <= TTL.maxsize c).
Proof.
  revert c. induction fuel as [|f IH]; simpl; intros c Hw Heq.
  - inversion Heq; subst. split; [exact Hw|]. split; [reflexivity|]. split; [lia|].
    intros _ H; lia.
  - unfold sbind at 1, sget in Heq.
    destruct (Z.gtb_spec (Z.of_nat (size (TTL.data c)) + 1) (TTL.maxsize c)) as [Hgt|Hle].
    + unfold sbind in Heq. destruct (TTL.popitem now c) as [[u|e] c1] eqn:Hp.
      * destruct u. destruct (popitem_wf _ _ _ _ Hw Hp) as (Hw1 & Hm1 & Hs1 & Hlt).
        specialize (Hlt eq_refl).
        destruct (IH _ Hw1 Heq) as (Hw2 & Hm2 & Hs2 & Hb2).
        split; [exact Hw2|]. split; [congruence|]. split; [lia|].
        intros Hr Hf Hm. rewrite <- Hm1. apply Hb2; [exact Hr|lia|congruence].
      * inversion Heq; subst. destruct (popitem_wf _ _ _ _ Hw Hp) as (Hw1 & Hm1 & Hs1 & _).
        split; [exact Hw1|]. split; [exact Hm1|]. split; [exact Hs1|discriminate].
    + inversion Heq; subst. split; [exact Hw|]. split; [reflexivity|]. split; [lia|].
      intros _ _ _. lia.
Qed.

Lemma wf3_insert_last k e (v : V) r d l :
  TTL.wf3 r d l ->
  TTL.wf3 (TTL.remove_link k r ++ [(k, e)]) (<[k:=v]> d)
          (if bool_decide (k ∈ l) then TTL.remove_key k l ++ [k] else l ++ [k]).
Proof.
  intros Hw.
  assert (Hl : (if bool_decide (k ∈ l) then TTL.remove_key k l ++ [k] else l ++ [k])
               = TTL.remove_key k l ++ [k]).
  { case_bool_decide as Hk; [reflexivity|].
    rewrite remove_key_notin; [reflexivity|]. rewrite <- list_elem_of_In. exact Hk. }
  rewrite Hl. clear Hl. destruct (wf3_delete k _ _ _ Hw) as (Hl & Hr & _ & Hrl).
  destruct Hw as (_ & _ & Hd & _).
  split; [|split; [|split]].
  - apply NoDup_snoc; [exact Hl|]. rewrite remove_key_In. tauto.
  - rewrite map_app. simpl. apply NoDup_snoc; [exact Hr|].
    rewrite map_fst_remove_link, remove_key_In. tauto.
  - intros k'. rewrite lookup_insert_is_Some, in_app_iff, remove_key_In, Hd. simpl.
    destruct (String.eqb_spec k k'); subst; intuition.
  - intros k'. rewrite map_app, !in_app_iff. simpl. rewrite Hrl. tauto.
Qed.

Lemma setitem_bounded k (v : V) now c r c' :
  TTL.bounded c -> TTL.setitem k v now c = (r, c') -> TTL.bounded c'.
Proof.
  intros [Hw Hs] H. unfold TTL.setitem, sbind at 1, smodify in H.
  destruct (expire_wf now c Hw) as (Hw0 & Hs0 & Hm0).
  remember (TTL.expire now c) as c0.
  unfold sbind at 1, sget in H.
  destruct (Z.gtb_spec 1 (TTL.maxsize c0)) as [Hgt|Hle].
  { unfold sraise in H. inversion H; subst. split; [exact Hw0|lia]. }
  unfold sbind at 1 in H.
  destruct (bool_decide (k ∈ dom (TTL.data c0))) eqn:Hk.
  - unfold sret in H. unfold sbind, sget, sput in H. inversion H; subst; clear H.
    split; [apply wf3_insert_last, Hw0|]. simpl.
    apply bool_decide_eq_true_1, elem_of_dom in Hk.
    rewrite (map_size_insert_Some _ _ _ Hk). lia.
  - destruct (TTL.make_room (S (size (TTL.data c0))) now c0) as [[u|e] c2] eqn:Hr.
    + destruct (make_room_wf _ _ _ _ _ Hw0 Hr) as (Hw2 & Hm2 & Hs2 & Hb2).
      destruct u. specialize (Hb2 eq_refl ltac:(lia) ltac:(lia)).
      unfold sbind, sget, sput in H. inversion H; subst; clear H.
      split; [apply wf3_insert_last, Hw2|]. simpl.
      rewrite map_size_insert. destruct (TTL.data c2 !! k); simpl; lia.
    + inversion H; subst. destruct (make_room_wf _ _ _ _ _ Hw0 Hr) as (Hw2 & Hm2 & Hs2 & _).
      split; [exact Hw2|lia].
Qed.

Lemma link_expires_In k e (r : list (string * Z)) :
  TTL.link_expires k r = Some e -> In k (map fst r).
Proof.
  induction r as [|[k' e'] r IH]; simpl; [discriminate|].
  destruct (String.eqb_spec k k') as [->|_]; auto.
Qed.

Lemma getitem_bounded k now c r c' :
  TTL.bounded c -> TTL.getitem k now c = (r, c') -> TTL.bounded c'.
Proof.
  intros [Hw Hs]. unfold TTL.getitem.
  destruct (TTL.link_expires k (TTL.root c)) as [e|] eqn:He.
  - assert (Hw' : TTL.well_formed
                    (TTL.mk (TTL.maxsize c) (TTL.ttl c) (TTL.data c) (TTL.root c)
                            (TTL.remove_key k (TTL.links c) ++ [k]))).
    { destruct Hw as (Hl & Hr & Hd & Hrl).
      assert (Hk : In k (TTL.links c)) by (apply Hrl; exact (link_expires_In _ _ _ He)).
      unfold TTL.well_formed; simpl. split; [|split; [exact Hr|split]].
      - apply NoDup_snoc; [apply remove_key_NoDup, Hl|]. rewrite remove_key_In. tauto.
      - intros k'. rewrite Hd, in_app_iff, remove_key_In. simpl.
        destruct (String.eqb_spec k' k); subst; intuition congruence.
      - intros k'. rewrite Hrl, in_app_iff, remove_key_In. simpl.
        destruct (String.eqb_spec k' k); subst; intuition congruence. }
    destruct (now <? e); [destruct (TTL.data _ !! k)|]; intros Heq; inversion Heq; subst;
      split; assumption.
  - destruct (TTL.data c !! k); intros Heq; inversion Heq; subst; split; assumption.
Qed.

Lemma empty_bounded ms t : 0 <= ms -> TTL.bounded (TTL.empty (V := V) ms t).
Proof.
  intros Hms. split; [|simpl; rewrite map_size_empty; simpl; lia].
  split; [constructor|split; [constructor|split]]; simpl; intros k.
  - rewrite lookup_empty. split; [intros [? Hk]; discriminate|intros []].
  - tauto.
Qed.

End TTLBound.

(** The TTL cache keeps its data dict, its [__links] and its TTL link list
    consistent (each key of the data once in each list, nothing else) and
    never holds more than [maxsize] entries: a new cache with a
    non-negative [maxsize] is so, and [cache[k] = v] (also when it
    raises), [cache[k]] and [clear()] keep it so. *)
Theorem ttl_cache_bounded {V : Type} (ms t : Z) :
  (0 <= ms -> TTL.bounded (TTL.empty (V := V) ms t)) /\
  (forall k (v : V) now c r c',
     TTL.bounded c -> TTL.setitem k v now c = (r, c') -> TTL.bounded c') /\
  (forall k now (c : TTL.TTLCache V) r c',
     TTL.bounded c -> TTL.getitem k now c = (r, c') -> TTL.bounded c') /\
  (forall c : TTL.TTLCache V, TTL.bounded c -> TTL.bounded (TTL.clear c)).
Proof.
  split; [exact (empty_bounded ms t)|].
  split; [exact setitem_bounded|split; [exact getitem_bounded|]].
  - intros c [_ Hs]. split; [|simpl; rewrite map_size_empty; simpl; lia].
    split; [constructor|split; [constructor|split]]; simpl; intros k.
    + rewrite lookup_empty. split; [intros [? Hk]; discriminate|intros []].
    + tauto.
Qed.

Lemma ttl_cache_bounded_witness :
  TTL.bounded (snd (TTL.setitem "1-0-0-0" [Byte.x01] 0 (TTL.empty 1 10))).
Proof.
  destruct (ttl_cache_bounded (V := bytes) 1 10) as (He & Hs & _).
  destruct (TTL.setitem "1-0-0-0" [Byte.x01] 0 (TTL.empty 1 10)) as [r c] eqn:Hr.
  exact (Hs _ _ _ _ _ _ (He ltac:(lia)) Hr).
Defined.

Section ServingBound.
Context {F CRS Proj Img : Type} `{FloatOps F}.
Context (env : Env F CRS Proj) (pil : ImageLib Img) (settings : Settings).
Context (http_get : WMTSEndpoint -> TransformedTileCoordinate -> result HttpResponse).

(** Serving requests never lets the tile cache of app.py outgrow
    [TILE_CACHE_SIZE] or lose its consistency: whatever [get_tile] answers
    (hit, miss, 400, 404, 500), a bounded tile cache stays bounded. *)
Theorem get_tile_cache_bounded now z x y endpoint (s : AppState F CRS Proj) r s' :
  TTL.bounded (tile_cache s) ->
  get_tile env pil settings http_get now z x y endpoint s = (r, s') ->
  TTL.bounded (tile_cache s').
Proof.
  intros Hb Hrun. pose proof Hrun as H0. unfold get_tile, stry in Hrun.
  destruct ((z <? 0) || (x <? 0) || (y <? 0))%bool.
  { inversion Hrun; subst. exact Hb. }
  unfold sbind at 1, sget at 1 in Hrun.
  set (endpoint_name := match truthy_str endpoint with
                        | Some e => e | None => DEFAULT_ENDPOINT settings end) in Hrun.
  set (key := cache_key endpoint_name z x y) in Hrun.
  destruct (TTL.contains key now (tile_cache s)) eqn:Hc.
  - unfold sbind, on_cache in Hrun.
    destruct (TTL.getitem key now (tile_cache s)) as [[v|e] c0] eqn:Hg;
      inversion Hrun; subst; exact (getitem_bounded _ _ _ _ _ Hb Hg).
  - destruct (get_tile_miss_cache_cases env pil settings http_get now z x y endpoint s r s' Hc H0)
      as [He | (d & res & _ & Hs & _)].
    + rewrite He. exact Hb.
    + exact (setitem_bounded _ _ _ _ _ _ Hb Hs).
Qed.

End ServingBound.

Lemma get_tile_cache_bounded_witness :
  let pil := {| image_open := fun _ => Ok tt; image_size := fun _ => (256, 256);
                image_crop := fun i _ => Ok i; image_resize_lanczos := fun i _ => Ok i;
                image_save_png := fun _ => Ok [Byte.x01] |} in
  let http_get := fun (_ : WMTSEndpoint) (_ : TransformedTileCoordinate) =>
                    Err (A := HttpResponse) TransportError in
  let s := mkA (F:=Q) (CRS:=unit) (Proj:=unit) (TTL.empty 1000 3600) ∅ ∅ ∅ in
  TTL.bounded (tile_cache
    (snd (get_tile offline_env pil default_settings http_get 0 10 580 316 (Some "latvia") s))).
Proof.
  intros pil http_get s.
  apply (get_tile_cache_bounded offline_env pil default_settings http_get 0 10 580 316
           (Some "latvia") s
           (fst (get_tile offline_env pil default_settings http_get 0 10 580 316 (Some "latvia") s)));
    [apply empty_bounded; lia | reflexivity].
Defined.

Section TTLEvict.
Context {V : Type}.
Implicit Types (c : TTL.TTLCache V) (d : gmap string V).

Lemma well_formedb_sound c : TTL.well_formedb c = true -> TTL.well_formed c.
Proof.
  unfold TTL.well_formedb. rewrite !andb_true_iff. intros (((H1 & H2) & H3) & H4).
  apply bool_decide_eq_true_1 in H1, H2, H3, H4.
  split; [exact H1|split; [exact H2|split]]; intros k.
  - rewrite <- elem_of_dom, H3, elem_of_list_to_set, list_elem_of_In. reflexivity.
  - rewrite <- !list_elem_of_In, <- !(elem_of_list_to_set (C := gset string)), H4. reflexivity.
Qed.

Lemma expire_go_sub now r d l r' d' l' :
  TTL.expire_go now r d l = (r', d', l') -> d' ⊆ d.
Proof.
  revert d l. induction r as [|[k e] r IH]; simpl; intros d l Heq.
  - inversion Heq; subst. reflexivity.
  - destruct (now <? e); [inversion Heq; subst; reflexivity|].
    transitivity (delete k d); [exact (IH _ _ Heq)|apply delete_subseteq].
Qed.

Lemma expire_sub now c : TTL.data (TTL.expire now c) ⊆ TTL.data c.
Proof.
  unfold TTL.expire. destruct (TTL.expire_go now _ _ _) as [[r d] l] eqn:He.
  exact (expire_go_sub _ _ _ _ _ _ _ He).
Qed.

Lemma popitem_sub now c r c' : TTL.popitem now c = (r, c') -> TTL.data c' ⊆ TTL.data c.
Proof.
  unfold TTL.popitem. pose proof (expire_sub now c) as Hs.
  destruct (TTL.links (TTL.expire now c)); intros Heq; inversion Heq; subst; [exact Hs|].
  simpl. transitivity (TTL.data (TTL.expire now c)); [apply delete_subseteq|exact Hs].
Qed.

Lemma make_room_sub fuel now c r c' : TTL.make_room fuel now c = (r, c') -> TTL.data c' ⊆ TTL.data c.
Proof.
  revert c. induction fuel as [|f IH]; simpl; intros c Heq.
  - inversion Heq; subst. reflexivity.
  - unfold sbind at 1, sget in Heq.
    destruct (Z.of_nat (size (TTL.data c)) + 1 >? TTL.maxsize c).
    + unfold sbind in Heq. destruct (TTL.popitem now c) as [[u|e] c1] eqn:Hp.
      * transitivity (TTL.data c1); [exact (IH _ Heq)|exact (popitem_sub _ _ _ _ Hp)].
      * inversion Heq; subst. exact (popitem_sub _ _ _ _ Hp).
    + inversion Heq; subst. reflexivity.
Qed.

Lemma expire_noop now c :
  (forall k e, In (k, e) (TTL.root c) -> now < e) -> TTL.expire now c = c.
Proof.
  intros Hr. unfold TTL.expire. destruct c as [ms t d r l]. simpl in *.
  destruct r as [|[k e] r]; simpl; [reflexivity|].
  destruct (Z.ltb_spec now e) as [_|Hle]; [reflexivity|].
  specialize (Hr k e (or_introl eq_refl)). lia.
Qed.

Lemma remove_key_head k l : NoDup (k :: l) -> TTL.remove_key k (k :: l) = l.
Proof.
  intros Hn. apply NoDup_ListNoDup in Hn. inversion Hn; subst.
  unfold TTL.remove_key. simpl. rewrite String.eqb_refl. simpl.
  apply remove_key_notin. assumption.
Qed.

End TTLEvict.

(** [cache[k] = v] never changes the value stored under another key: after
    the call each key [k' <> k] either holds the value it held before or
    is gone (expired or evicted). *)
Theorem setitem_other_keys {V : Type} k (v : V) now (c : TTL.TTLCache V) r c' :
  TTL.setitem k v now c = (r, c') ->
  forall k', k' <> k -> TTL.data c' !! k' = None \/ TTL.data c' !! k' = TTL.data c !! k'.
Proof.
  intros H k' Hne.
  assert (Hsub : TTL.data c' ⊆ TTL.data c \/
                 exists d2, d2 ⊆ TTL.data c /\ TTL.data c' = <[k:=v]> d2).
  { unfold TTL.setitem, sbind at 1, smodify in H.
    pose proof (expire_sub now c) as He.
    unfold sbind at 1, sget in H.
    destruct (1 >? TTL.maxsize (TTL.expire now c)).
    { unfold sraise in H. inversion H; subst. left. exact He. }
    unfold sbind at 1 in H.
    destruct (bool_decide (k ∈ dom (TTL.data (TTL.expire now c)))).
    - unfold sret, sbind, sget, sput in H. inversion H; subst. right. eauto.
    - destruct (TTL.make_room _ now (TTL.expire now c)) as [[u|e] c2] eqn:Hr;
        pose proof (make_room_sub _ _ _ _ _ Hr) as Hs.
      + unfold sbind, sget, sput in H. inversion H; subst. right.
        exists (TTL.data c2). split; [etransitivity; eassumption|reflexivity].
      + inversion H; subst. left. etransitivity; eassumption. }
  destruct Hsub as [Hs | (d2 & Hs & ->)]; [|rewrite lookup_insert_ne by congruence];
    [destruct (TTL.data c' !! k') eqn:Hk | destruct (d2 !! k') eqn:Hk]; auto;
    right; symmetry; eapply lookup_weaken; eassumption.
Qed.

(** Inserting a new key into a full cache in which nothing has expired
    evicts exactly the least recently used entry (the first of
    [__links]): the call succeeds, the data is the old data without that
    entry and with the new one, and the new key becomes the most recently
    used. *)
Theorem setitem_evicts_lru {V : Type} k (v : V) now (c : TTL.TTLCache V) k0 l r c' :
  TTL.well_formed c -> 1 <= TTL.maxsize c -> Z.of_nat (size (TTL.data c)) = TTL.maxsize c ->
  Forall (fun p => now < snd p) (TTL.root c) ->
  TTL.links c = k0 :: l -> TTL.data c !! k = None ->
  TTL.setitem k v now c = (r, c') ->
  r = Ok tt /\ TTL.data c' = <[k:=v]> (delete k0 (TTL.data c)) /\ TTL.links c' = l ++ [k].
Proof.
  intros Hw H1 Hsz Hexp Hl Hk H.
  assert (Hnx : TTL.expire now c = c).
  { apply expire_noop. intros k1 e Hin. rewrite Forall_forall in Hexp.
    apply (Hexp (k1, e)), list_elem_of_In, Hin. }
  assert (Hk0 : is_Some (TTL.data c !! k0)).
  { destruct Hw as (_ & _ & Hd & _). apply Hd. rewrite Hl. left. reflexivity. }
  set (c1 := TTL.mk (TTL.maxsize c) (TTL.ttl c) (delete k0 (TTL.data c))
               (TTL.remove_link k0 (TTL.root c)) (TTL.remove_key k0 (TTL.links c))).
  assert (Hmr : TTL.make_room (S (size (TTL.data c))) now c = (Ok tt, c1)).
  { cbn [TTL.make_room]. unfold sbind at 1, sget.
    destruct (Z.gtb_spec (Z.of_nat (size (TTL.data c)) + 1) (TTL.maxsize c)) as [_|Hle]; [|lia].
    assert (Hp : TTL.popitem now c = (Ok tt, c1)).
    { unfold TTL.popitem. rewrite Hnx. unfold c1. rewrite Hl. reflexivity. }
    unfold sbind at 1. rewrite Hp.
    pose proof (map_size_delete_Some _ _ Hk0) as Hd.
    destruct (size (TTL.data c)) as [|n] eqn:Hn; [simpl in Hsz; lia|].
    cbn [TTL.make_room]. unfold sbind, sget.
    assert (Hs1 : size (TTL.data c1) = n) by (simpl; lia).
    rewrite Hs1. destruct (Z.gtb_spec (Z.of_nat n + 1) (TTL.maxsize c1)) as [Hgt|_];
      [simpl in Hgt; lia|reflexivity]. }
  unfold TTL.setitem, sbind at 1, smodify in H. rewrite Hnx in H.
  unfold sbind at 1, sget in H.
  destruct (Z.gtb_spec 1 (TTL.maxsize c)) as [Hgt|_]; [lia|].
  rewrite bool_decide_eq_false_2 in H by (rewrite not_elem_of_dom; exact Hk).
  unfold sbind at 1 in H. rewrite Hmr in H.
  unfold sbind, sget, sput in H. inversion H; subst; clear H.
  split; [reflexivity|split; [reflexivity|]]. simpl.
  destruct Hw as (Hnd & _ & Hd & _). rewrite Hl in Hnd |- *.
  rewrite (remove_key_head _ _ Hnd).
  rewrite bool_decide_eq_false_2; [reflexivity|].
  rewrite list_elem_of_In. intros Hin.
  assert (Hs : is_Some (TTL.data c !! k)) by (apply Hd; rewrite Hl; right; exact Hin).
  rewrite Hk in Hs. destruct Hs as [? Hs]. discriminate.
Qed.

Lemma setitem_other_keys_witness :
  let c := TTL.mk 2 3600 (<["a" := [Byte.x01]]> (<["b" := [Byte.x02]]> ∅))
             [("a", 100); ("b", 200)] ["a"; "b"] in
  let p := TTL.setitem "c" [Byte.x03] 50 c in
  TTL.data (snd p) !! "b" = None \/ TTL.data (snd p) !! "b" = TTL.data c !! "b".
Proof.
  intros c p.
  apply (setitem_other_keys "c" [Byte.x03] 50 c (fst p) (snd p)); [reflexivity|].
  apply (bool_decide_unpack _). vm_compute. reflexivity.
Defined.

Lemma setitem_evicts_lru_witness :
  let c := TTL.mk 2 3600 (<["a" := [Byte.x01]]> (<["b" := [Byte.x02]]> ∅))
             [("a", 100); ("b", 200)] ["a"; "b"] in
  let p := TTL.setitem "c" [Byte.x03] 50 c in
  fst p = Ok tt /\ TTL.data (snd p) = <["c" := [Byte.x03]]> (delete "a" (TTL.data c)) /\
  TTL.links (snd p) = ["b"] ++ ["c"].
Proof.
  intros c p.
  apply (setitem_evicts_lru "c" [Byte.x03] 50 c "a" ["b"] (fst p) (snd p));
    [apply well_formedb_sound; vm_compute; reflexivity | cbn; lia
    | vm_compute; reflexivity | apply (bool_decide_unpack _); vm_compute; reflexivity
    | reflexivity | vm_compute; reflexivity | reflexivity].
Defined.

(* ------------------------------------------------------------------ *)
(** ** C6: the zoom key of a TileMatrix *)

Lemma parse_tile_matrix_element_identifier {F} `{FloatOps F} el (tm : TileMatrix F) :
  _parse_tile_matrix_element el = Ok tm -> tme_identifier el = Some (tm_identifier tm).
Proof.
  unfold _parse_tile_matrix_element, text.
  destruct (tme_identifier el) as [i|]; simpl; [|discriminate].
  intros Hm.
  repeat match type of Hm with
         | rbind ?m _ = _ => destruct m; simpl in Hm; [|discriminate]
         | match ?o with Some _ => _ | None => _ end = _ => destruct o; simpl in Hm; [|discriminate]
         end.
  injection Hm as <-. reflexivity.
Qed.

(** C6: [_parse_tile_matrix_set_element] files each TileMatrix under
    [int(identifier.split(':')[1])], the SECOND ':'-token of its
    identifier, not the integer after its last colon.  In a set whose
    matrices are identified "p:n:z" with a prefix p without ':' (as in
    "EPSG:3857:10"), every parsed entry is filed under n, whatever the
    z's: all matrices collapse onto the one key n, and no zoom z other
    than n has a matrix. *)
Theorem tile_matrix_zoom_second_token {F} `{FloatOps F} tms_elem (tms : TileMatrixSet F) p n :
  PyStr.contains ":" p = false -> 0 <= n ->
  Forall (fun el => exists z, tme_identifier el =
            Some (p +:+ ":" +:+ PyStr.str_Z n +:+ ":" +:+ PyStr.str_Z z))
         (tmse_tile_matrices tms_elem) ->
  _parse_tile_matrix_set_element tms_elem = Ok tms ->
  forall k tm, tms_tile_matrices tms !! k = Some tm -> k = n.
Proof.
  intros Hp Hn Hall Hparse k tm Hk.
  apply parse_tile_matrix_set_element_matrices in Hparse.
  destruct (parse_tile_matrices_inv _ _ _ Hparse) as [H1 _].
  destruct (H1 k tm Hk) as [He | (el & Hin & Hel & Hz)].
  { rewrite lookup_empty in He. discriminate. }
  rewrite Forall_forall in Hall. destruct (Hall el (proj2 (list_elem_of_In _ _) Hin)) as [z Hid].
  rewrite (parse_tile_matrix_element_identifier _ _ Hel) in Hid. injection Hid as Hid.
  rewrite Hid, zoom_of_identifier_two_colons, int_of_str_str_Z in Hz.
  - congruence.
  - exact Hp.
  - apply str_Z_nonneg_no_char; [exact Hn | reflexivity].
Qed.

Lemma tile_matrix_zoom_second_token_witness :
  let el z := {| tme_identifier := Some ("EPSG:3857:" +:+ PyStr.str_Z z);
                 tme_scale_denominator := Some "1000"; tme_top_left_corner := Some "0 0";
                 tme_tile_width := Some "256"; tme_tile_height := Some "256";
                 tme_matrix_width := Some "1"; tme_matrix_height := Some "1" |} in
  let tms_elem := {| tmse_identifier := Some "GoogleMapsCompatible";
                     tmse_supported_crs := Some "urn:ogc:def:crs:EPSG::3857";
                     tmse_well_known_scale_set := None;
                     tmse_tile_matrices := [el 0; el 1; el 10] |} in
  exists tms : TileMatrixSet Q,
    _parse_tile_matrix_set_element tms_elem = Ok tms /\
    forall k tm, tms_tile_matrices tms !! k = Some tm -> k = 3857.
Proof.
  intros el tms_elem.
  destruct (_parse_tile_matrix_set_element (F:=Q) tms_elem) as [tms|e] eqn:Hp;
    [|vm_compute in Hp; discriminate].
  exists tms. split; [reflexivity|].
  apply (tile_matrix_zoom_second_token tms_elem tms "EPSG" 3857);
    [reflexivity | lia | | exact Hp].
  repeat constructor; eexists; reflexivity.
Defined.
